(** * Screenshot analyzer: upload validator and response normalizer

    A shallow embedding of [validateFile] and [parseOpenRouterResponse] from
    [src/app/api/analyze/route.ts], together with the parts of the JavaScript
    runtime they call: string primitives, [JSON.parse] and, for the
    serialization the route performs when it answers, [JSON.stringify].

    JavaScript strings are sequences of UTF-16 code units; a code unit is an
    [N].  Exceptions are explicit: a computation ends in [Normal], in [Throw]
    or, for the fuel-driven JSON parser, in [OutOfFuel]. *)

From Stdlib Require Import String Ascii ZArith NArith List Bool Lia.
From Stdlib Require Import Sorted DecimalString.
From Stdlib Require Import Floats.SpecFloat.
Import ListNotations.

Open Scope N_scope.

(* ================================================================= *)
(** ** Strings *)

Definition codeunit := N.
Definition jsstring := list codeunit.

(** An ASCII literal as a JavaScript string. *)
Definition js (s : string) : jsstring :=
  map N_of_ascii (list_ascii_of_string s).

Fixpoint jsstring_eqb (a b : jsstring) : bool :=
  match a, b with
  | [], [] => true
  | x :: a', y :: b' => (x =? y) && jsstring_eqb a' b'
  | _, _ => false
  end.

(** An ASCII literal in which the apostrophe stands for the quotation mark. *)
Definition jsq (s : string) : jsstring :=
  map (fun c => if c =? 39 then 34 else c) (js s).

(** [Array.prototype.includes] on an array of strings. *)
Definition array_includes (arr : list jsstring) (x : jsstring) : bool :=
  existsb (jsstring_eqb x) arr.

(* ================================================================= *)
(** ** Upload validator *)

(** The two attributes of a [File] that [validateFile] reads. *)
Record File := { type : jsstring; size : Z }.

Definition SUPPORTED_FORMATS : list jsstring :=
  [ js "image/jpeg"; js "image/png"; js "image/gif"; js "image/webp" ].

Definition MAX_FILE_SIZE : Z := 5 * 1024 * 1024.

Definition msg_unsupported_format : jsstring :=
  js "Unsupported file format. Please use JPEG, PNG, GIF, or WebP.".

Definition msg_size_exceeded : jsstring :=
  js "File size exceeds 5MB limit.".

(** [validateFile] returns an error message, or [null] ([None]). *)
Definition validateFile (file : File) : option jsstring :=
  if negb (array_includes SUPPORTED_FORMATS (type file)) then
    Some msg_unsupported_format
  else if (size file >? MAX_FILE_SIZE)%Z then
    Some msg_size_exceeded
  else
    None.

(* ================================================================= *)
(** ** String primitives used by the normalizer *)

(** [WhiteSpace] and [LineTerminator] code points: what [String.prototype.trim]
    removes and what the regular-expression class [\s] matches. *)
Definition isWhiteSpace (c : codeunit) : bool :=
  (c =? 9) || (c =? 10) || (c =? 11) || (c =? 12) || (c =? 13) || (c =? 32)
  || (c =? 160) || (c =? 5760) || ((8192 <=? c) && (c <=? 8202))
  || (c =? 8232) || (c =? 8233) || (c =? 8239) || (c =? 8287)
  || (c =? 12288) || (c =? 65279).

(** The class [\d]. *)
Definition isDigit (c : codeunit) : bool := (48 <=? c) && (c <=? 57).

Fixpoint dropWhile (p : codeunit -> bool) (s : jsstring) : jsstring :=
  match s with
  | [] => []
  | c :: r => if p c then dropWhile p r else s
  end.

Fixpoint takeWhile (p : codeunit -> bool) (s : jsstring) : jsstring :=
  match s with
  | [] => []
  | c :: r => if p c then c :: takeWhile p r else []
  end.

Definition trimStart (s : jsstring) : jsstring := dropWhile isWhiteSpace s.
Definition trimEnd (s : jsstring) : jsstring :=
  rev (dropWhile isWhiteSpace (rev s)).
Definition trim (s : jsstring) : jsstring := trimEnd (trimStart s).

(** [s.startsWith(pat)]. *)
Fixpoint startsWith (s pat : jsstring) {struct pat} : bool :=
  match pat, s with
  | [], _ => true
  | p :: pat', c :: s' => (c =? p) && startsWith s' pat'
  | _ :: _, [] => false
  end.

(** [s.includes(pat)]. *)
Fixpoint includes (s pat : jsstring) : bool :=
  startsWith s pat ||
  match s with
  | [] => false
  | _ :: s' => includes s' pat
  end.

(** [s.split(sep)] for a separator of one code unit. *)
Fixpoint split (sep : codeunit) (s : jsstring) : list jsstring :=
  match s with
  | [] => [[]]
  | c :: r =>
      if c =? sep then [] :: split sep r
      else match split sep r with
           | l :: ls => (c :: l) :: ls
           | [] => [[c]]
           end
  end.

(** A string is truthy when it is not empty. *)
Definition nonEmpty (s : jsstring) : bool :=
  match s with [] => false | _ :: _ => true end.

Definition LF : codeunit := 10.
Definition HYPHEN : codeunit := 45.
Definition FULL_STOP : codeunit := 46.
Definition BULLET : codeunit := 8226.

(** [/^\d+\./.test(s)]. *)
Definition test_numbered (s : jsstring) : bool :=
  nonEmpty (takeWhile isDigit s) && startsWith (dropWhile isDigit s) [FULL_STOP].

(** The class of the stripping pattern: hyphen, bullet U+2022, [\d], full
    stop. *)
Definition isMarkerChar (c : codeunit) : bool :=
  (c =? HYPHEN) || (c =? BULLET) || isDigit c || (c =? FULL_STOP).

(** [s.replace(re, empty)] for the pattern [^C\s*], [C] the class above: one
    code unit of the class at the very start of [s], then the white space
    after it, is removed. *)
Definition replace_marker (s : jsstring) : jsstring :=
  match s with
  | c :: r => if isMarkerChar c then dropWhile isWhiteSpace r else s
  | [] => []
  end.

(* ================================================================= *)
(** ** JSON values *)

(** A Number is an IEEE 754 binary64 value. *)
Definition number := spec_float.
Definition prec : Z := 53.
Definition emax : Z := 1024.

(** The values [JSON.parse] can return. *)
#[local] Unset Elimination Schemes.
Inductive json : Type :=
| JNull
| JBool (b : bool)
| JNumber (x : number)
| JString (s : jsstring)
| JArray (items : list json)
| JObject (props : list (jsstring * json)).
#[local] Set Elimination Schemes.

Definition digitValue (c : codeunit) : Z := Z.of_N (c - 48).

(** The integer written by a sequence of decimal digits. *)
Definition digitsValue (ds : jsstring) : Z :=
  fold_left (fun acc c => (10 * acc + digitValue c)%Z) ds 0%Z.

(** The Number value of [m * 10 ^ e], rounded to nearest, ties to even;
    [neg] is the sign.  [m] is not negative. *)
Definition decimalToNumber (neg : bool) (m e : Z) : number :=
  match m with
  | Z0 => S754_zero neg
  | Zpos p =>
      if (0 <=? e)%Z then
        binary_round prec emax neg (Z.to_pos (Zpos p * 10 ^ e)) 0
      else
        let '(q, e', l) :=
          SFdiv_core_binary prec emax (Zpos p) 0 (10 ^ (- e)) 0 in
        binary_round_aux prec emax neg q e' l
  | Zneg _ => S754_nan
  end.

(** *** Ordinary objects

    The properties of an object are kept in the order [OrdinaryOwnPropertyKeys]
    lists them: array-index keys in ascending order, then the other keys in
    order of creation. *)

(** An array index is the canonical decimal form of an integer below
    [2^32 - 1]. *)
Definition arrayIndex (k : jsstring) : option Z :=
  match k with
  | [] => None
  | c :: r =>
      if forallb isDigit k && (negb (c =? 48) || negb (nonEmpty r)) then
        if (digitsValue k <? 2 ^ 32 - 1)%Z then Some (digitsValue k) else None
      else None
  end.

(** [keyPrecedes k1 k2]: an existing key [k1] stays before a key [k2] that is
    created after it. *)
Definition keyPrecedes (k1 k2 : jsstring) : bool :=
  match arrayIndex k1, arrayIndex k2 with
  | Some i, Some j => (i <=? j)%Z
  | None, Some _ => false
  | _, None => true
  end.

Fixpoint lookup (k : jsstring) (props : list (jsstring * json)) : option json :=
  match props with
  | [] => None
  | (k', v) :: r => if jsstring_eqb k k' then Some v else lookup k r
  end.

Fixpoint updateProp (k : jsstring) (v : json) (props : list (jsstring * json))
  : list (jsstring * json) :=
  match props with
  | [] => []
  | (k', v') :: r =>
      if jsstring_eqb k k' then (k', v) :: r else (k', v') :: updateProp k v r
  end.

Fixpoint addProp (k : jsstring) (v : json) (props : list (jsstring * json))
  : list (jsstring * json) :=
  match props with
  | [] => [(k, v)]
  | (k', v') :: r =>
      if keyPrecedes k' k then (k', v') :: addProp k v r
      else (k, v) :: props
  end.

(** [CreateDataProperty]: an existing property keeps its place and takes the
    new value, a new one is created. *)
Definition CreateDataProperty (props : list (jsstring * json))
  (kv : jsstring * json) : list (jsstring * json) :=
  let '(k, v) := kv in
  match lookup k props with
  | Some _ => updateProp k v props
  | None => addProp k v props
  end.

(** The object built from the members of an object literal, left to right. *)
Definition objectOfMembers (members : list (jsstring * json))
  : list (jsstring * json) :=
  fold_left CreateDataProperty members [].

(* ================================================================= *)
(** ** Outcomes *)

Inductive exn : Type := SyntaxError | TypeError.

(** How a computation ends.  [OutOfFuel] belongs to the model only: it is what
    the fuel-driven parser answers when its fuel is spent, and is shown never
    to happen. *)
Inductive outcome (A : Type) : Type :=
| Normal (a : A)
| Throw (e : exn)
| OutOfFuel.
Arguments Normal {A} a.
Arguments Throw {A} e.
Arguments OutOfFuel {A}.

(* ================================================================= *)
(** ** JSON.parse *)

Inductive presult (A : Type) : Type :=
| POk (a : A) (rest : jsstring)
| PSyntaxError
| POutOfFuel.
Arguments POk {A} a rest.
Arguments PSyntaxError {A}.
Arguments POutOfFuel {A}.

(** JSON white space: tab, line feed, carriage return, space. *)
Definition isJSONWhiteSpace (c : codeunit) : bool :=
  (c =? 9) || (c =? 10) || (c =? 13) || (c =? 32).

Definition skipWS (s : jsstring) : jsstring := dropWhile isJSONWhiteSpace s.

Definition hexValue (c : codeunit) : option N :=
  if isDigit c then Some (c - 48)
  else if (97 <=? c) && (c <=? 102) then Some (c - 87)
  else if (65 <=? c) && (c <=? 70) then Some (c - 55)
  else None.

Definition hex4 (a b c d : codeunit) : option codeunit :=
  match hexValue a, hexValue b, hexValue c, hexValue d with
  | Some x, Some y, Some z, Some w => Some (((x * 16 + y) * 16 + z) * 16 + w)
  | _, _, _, _ => None
  end.

(** One-character escapes: the code unit that follows the backslash, mapped to
    the code unit it stands for. *)
Definition unescape (c : codeunit) : option codeunit :=
  if c =? 34 then Some 34        (* quotation mark *)
  else if c =? 92 then Some 92   (* reverse solidus *)
  else if c =? 47 then Some 47   (* solidus *)
  else if c =? 98 then Some 8    (* b: backspace *)
  else if c =? 102 then Some 12  (* f: form feed *)
  else if c =? 110 then Some 10  (* n: line feed *)
  else if c =? 114 then Some 13  (* r: carriage return *)
  else if c =? 116 then Some 9   (* t: tab *)
  else None.

Definition consChar (c : codeunit) (r : option (jsstring * jsstring))
  : option (jsstring * jsstring) :=
  match r with
  | Some (s, rest) => Some (c :: s, rest)
  | None => None
  end.

(** The characters of a string literal after its opening quote, up to and
    including the closing quote: the string value and the text that follows. *)
Fixpoint parseChars (s : jsstring) : option (jsstring * jsstring) :=
  match s with
  | [] => None
  | c :: r =>
      if c =? 34 then Some ([], r)
      else if c =? 92 then
        match r with
        | [] => None
        | e :: r1 =>
            if e =? 117 then
              match r1 with
              | h1 :: h2 :: h3 :: h4 :: r2 =>
                  match hex4 h1 h2 h3 h4 with
                  | Some u => consChar u (parseChars r2)
                  | None => None
                  end
              | _ => None
              end
            else
              match unescape e with
              | Some u => consChar u (parseChars r1)
              | None => None
              end
        end
      else if c <? 32 then None
      else consChar c (parseChars r)
  end.

(** The code units a number literal is made of. *)
Definition isNumberChar (c : codeunit) : bool :=
  isDigit c || (c =? 45) || (c =? 43) || (c =? 46) || (c =? 101) || (c =? 69).

(** The value of a complete number literal, or [None] when the text is not
    one.  A literal is an optional minus sign; an integer part, either the
    digit zero alone or digits that do not start with zero; optionally a full
    stop and one or more digits; optionally an exponent, made of e or E, an
    optional sign and one or more digits. *)
Definition numberOfLiteral (lit : jsstring) : option number :=
  let neg := startsWith lit [45] in
  let s1 := if neg then tl lit else lit in
  let ip := takeWhile isDigit s1 in
  let s2 := dropWhile isDigit s1 in
  let hasFrac := startsWith s2 [46] in
  let fp := if hasFrac then takeWhile isDigit (tl s2) else [] in
  let s3 := if hasFrac then dropWhile isDigit (tl s2) else s2 in
  let hasExp := startsWith s3 [101] || startsWith s3 [69] in
  let s4 := if hasExp then tl s3 else s3 in
  let eneg := startsWith s4 [45] in
  let s5 := if hasExp && (eneg || startsWith s4 [43]) then tl s4 else s4 in
  let ep := if hasExp then takeWhile isDigit s5 else [] in
  let s6 := if hasExp then dropWhile isDigit s5 else s5 in
  let intOk := nonEmpty ip && (negb (startsWith ip [48]) || negb (nonEmpty (tl ip))) in
  let fracOk := negb hasFrac || nonEmpty fp in
  let expOk := negb hasExp || nonEmpty ep in
  if intOk && fracOk && expOk && negb (nonEmpty s6) then
    let e := if eneg then (- digitsValue ep)%Z else digitsValue ep in
    Some (decimalToNumber neg (digitsValue (ip ++ fp))
            (e - Z.of_nat (length fp)))
  else None.

Definition stripPrefix (pat s : jsstring) : option jsstring :=
  if startsWith s pat then Some (skipn (length pat) s) else None.

Fixpoint parseValue (fuel : nat) (s : jsstring) : presult json :=
  match fuel with
  | O => POutOfFuel
  | S fuel' =>
      match skipWS s with
      | [] => PSyntaxError
      | c :: r =>
          if c =? 123 then                      (* { *)
            match skipWS r with
            | c' :: r' =>
                if c' =? 125 then POk (JObject []) r'
                else
                  match parseMembers fuel' (c' :: r') with
                  | POk ms rest => POk (JObject (objectOfMembers ms)) rest
                  | PSyntaxError => PSyntaxError
                  | POutOfFuel => POutOfFuel
                  end
            | [] => PSyntaxError
            end
          else if c =? 91 then                  (* [ *)
            match skipWS r with
            | c' :: r' =>
                if c' =? 93 then POk (JArray []) r'
                else
                  match parseElements fuel' (c' :: r') with
                  | POk vs rest => POk (JArray vs) rest
                  | PSyntaxError => PSyntaxError
                  | POutOfFuel => POutOfFuel
                  end
            | [] => PSyntaxError
            end
          else if c =? 34 then                  (* string *)
            match parseChars r with
            | Some (str, rest) => POk (JString str) rest
            | None => PSyntaxError
            end
          else if isDigit c || (c =? 45) then   (* number *)
            match numberOfLiteral (takeWhile isNumberChar (c :: r)) with
            | Some x => POk (JNumber x) (dropWhile isNumberChar (c :: r))
            | None => PSyntaxError
            end
          else
            match stripPrefix (js "true") (c :: r) with
            | Some rest => POk (JBool true) rest
            | None =>
            match stripPrefix (js "false") (c :: r) with
            | Some rest => POk (JBool false) rest
            | None =>
            match stripPrefix (js "null") (c :: r) with
            | Some rest => POk JNull rest
            | None => PSyntaxError
            end end end
      end
  end

(** One or more values separated by commas, then the closing bracket. *)
with parseElements (fuel : nat) (s : jsstring) : presult (list json) :=
  match fuel with
  | O => POutOfFuel
  | S fuel' =>
      match parseValue fuel' s with
      | POk v rest =>
          match skipWS rest with
          | c :: r =>
              if c =? 44 then
                match parseElements fuel' r with
                | POk vs rest' => POk (v :: vs) rest'
                | PSyntaxError => PSyntaxError
                | POutOfFuel => POutOfFuel
                end
              else if c =? 93 then POk [v] r
              else PSyntaxError
          | [] => PSyntaxError
          end
      | PSyntaxError => PSyntaxError
      | POutOfFuel => POutOfFuel
      end
  end

(** One or more [string : value] members separated by commas, then the
    closing brace. *)
with parseMembers (fuel : nat) (s : jsstring)
  : presult (list (jsstring * json)) :=
  match fuel with
  | O => POutOfFuel
  | S fuel' =>
      match skipWS s with
      | q :: s1 =>
          if q =? 34 then
            match parseChars s1 with
            | Some (k, s2) =>
                match skipWS s2 with
                | colon :: s3 =>
                    if colon =? 58 then
                      match parseValue fuel' s3 with
                      | POk v rest =>
                          match skipWS rest with
                          | c :: r =>
                              if c =? 44 then
                                match parseMembers fuel' r with
                                | POk ms rest' => POk ((k, v) :: ms) rest'
                                | PSyntaxError => PSyntaxError
                                | POutOfFuel => POutOfFuel
                                end
                              else if c =? 125 then POk [(k, v)] r
                              else PSyntaxError
                          | [] => PSyntaxError
                          end
                      | PSyntaxError => PSyntaxError
                      | POutOfFuel => POutOfFuel
                      end
                    else PSyntaxError
                | [] => PSyntaxError
                end
            | None => PSyntaxError
            end
          else PSyntaxError
      | [] => PSyntaxError
      end
  end.

(** [JSON.parse(text)]: one value, with white space around it and nothing
    else.  The fuel is enough for every text ([JSON_parse_fuel]). *)
Definition JSON_parse (text : jsstring) : outcome json :=
  match parseValue (2 * length text + 1) text with
  | POk v rest =>
      match skipWS rest with
      | [] => Normal v
      | _ :: _ => Throw SyntaxError
      end
  | PSyntaxError => Throw SyntaxError
  | POutOfFuel => OutOfFuel
  end.

(* ================================================================= *)
(** ** The response object *)

(** [keyof AnalysisResponse]. *)
Inductive key : Type :=
| Key_uxInsights
| Key_visualDesign
| Key_bestPractices
| Key_annotations.

Definition keyName (k : key) : jsstring :=
  match k with
  | Key_uxInsights => js "uxInsights"
  | Key_visualDesign => js "visualDesign"
  | Key_bestPractices => js "bestPractices"
  | Key_annotations => js "annotations"
  end.

(** The object [parseOpenRouterResponse] returns.  The declared field types
    are not checked at run time, so a field holds any value. *)
Record AnalysisResponse : Type := {
  uxInsights : json;
  visualDesign : json;
  bestPractices : json;
  annotations : json
}.

(** [response[k]]. *)
Definition getField (response : AnalysisResponse) (k : key) : json :=
  match k with
  | Key_uxInsights => uxInsights response
  | Key_visualDesign => visualDesign response
  | Key_bestPractices => bestPractices response
  | Key_annotations => annotations response
  end.

(** [response[k] = v]. *)
Definition setField (response : AnalysisResponse) (k : key) (v : json)
  : AnalysisResponse :=
  match k with
  | Key_uxInsights =>
      {| uxInsights := v; visualDesign := visualDesign response;
         bestPractices := bestPractices response;
         annotations := annotations response |}
  | Key_visualDesign =>
      {| uxInsights := uxInsights response; visualDesign := v;
         bestPractices := bestPractices response;
         annotations := annotations response |}
  | Key_bestPractices =>
      {| uxInsights := uxInsights response;
         visualDesign := visualDesign response; bestPractices := v;
         annotations := annotations response |}
  | Key_annotations =>
      {| uxInsights := uxInsights response;
         visualDesign := visualDesign response;
         bestPractices := bestPractices response; annotations := v |}
  end.

(** An array of strings. *)
Definition strings (l : list jsstring) : json := JArray (map JString l).

(** [parsed.name] for the name of one of the four keys; [None] is
    [undefined].  Reading a property of [null] throws; an object answers with
    its own property; the other values (booleans, numbers, strings, arrays)
    have no property of these names, nor have the built-in prototypes. *)
Definition GetV (v : json) (k : key) : outcome (option json) :=
  match v with
  | JNull => Throw TypeError
  | JObject props => Normal (lookup (keyName k) props)
  | _ => Normal None
  end.

Definition ToBoolean (v : option json) : bool :=
  match v with
  | None => false
  | Some JNull => false
  | Some (JBool b) => b
  | Some (JNumber (S754_zero _)) => false
  | Some (JNumber S754_nan) => false
  | Some (JNumber _) => true
  | Some (JString s) => nonEmpty s
  | Some (JArray _) => true
  | Some (JObject _) => true
  end.

(** [v || d]. *)
Definition orElse (v : option json) (d : json) : json :=
  match v with
  | Some x => if ToBoolean v then x else d
  | None => d
  end.

Definition bind {A B : Type} (c : outcome A) (k : A -> outcome B) : outcome B :=
  match c with
  | Normal a => k a
  | Throw e => Throw e
  | OutOfFuel => OutOfFuel
  end.

Notation "x <- c ;; k" := (bind c (fun x => k))
  (at level 61, c at next level, right associativity).

(** [Array.isArray(v)]. *)
Definition isArray (v : json) : bool :=
  match v with JArray _ => true | _ => false end.

(** [response[k].push(item)], for a field that holds an array. *)
Definition push (response : AnalysisResponse) (k : key) (item : jsstring)
  : AnalysisResponse :=
  match getField response k with
  | JArray l => setField response k (JArray (l ++ [JString item]))
  | _ => response
  end.

(** [v.length === 0]. *)
Definition lengthIsZero (v : json) : bool :=
  match v with
  | JArray [] => true
  | JString [] => true
  | _ => false
  end.

(* ================================================================= *)
(** ** Response normalizer *)

Section Normalizer.

(** [String.prototype.toLowerCase], the Unicode lower-casing of the host. *)
Variable toLowerCase : jsstring -> jsstring.

(** The body of the [try] block. *)
Definition tryBlock (text : jsstring) : outcome AnalysisResponse :=
  parsed <- JSON_parse text ;;
  ux <- GetV parsed Key_uxInsights ;;
  vd <- GetV parsed Key_visualDesign ;;
  bp <- GetV parsed Key_bestPractices ;;
  an <- GetV parsed Key_annotations ;;
  Normal {| uxInsights := orElse ux (JArray []);
            visualDesign := orElse vd (JArray []);
            bestPractices := orElse bp (JArray []);
            annotations := orElse an (JArray []) |}.

(** [text.split("\n").filter((line) => line.trim())]. *)
Definition linesOf (text : jsstring) : list jsstring :=
  filter (fun line => nonEmpty (trim line)) (split LF text).

Definition emptyResponse : AnalysisResponse :=
  {| uxInsights := JArray []; visualDesign := JArray [];
     bestPractices := JArray []; annotations := JArray [] |}.

(** The bullet test of the last branch. *)
Definition isBulletLine (line : jsstring) : bool :=
  startsWith (trim line) [HYPHEN]
  || startsWith (trim line) [BULLET]
  || test_numbered (trim line).

(** One turn of the [for] loop; the state is [currentSection] and
    [response]. *)
Definition scanLine (st : key * AnalysisResponse) (line : jsstring)
  : key * AnalysisResponse :=
  let '(currentSection, response) := st in
  let lowerLine := toLowerCase line in
  if includes lowerLine (js "ux") || includes lowerLine (js "usability") then
    (Key_uxInsights, response)
  else if includes lowerLine (js "visual") || includes lowerLine (js "design") then
    (Key_visualDesign, response)
  else if includes lowerLine (js "best") || includes lowerLine (js "practice") then
    (Key_bestPractices, response)
  else if isBulletLine line then
    let cleanLine := trim (replace_marker line) in
    if nonEmpty cleanLine && isArray (getField response currentSection) then
      (currentSection, push response currentSection cleanLine)
    else (currentSection, response)
  else (currentSection, response).

Definition scanLines (lines : list jsstring) : key * AnalysisResponse :=
  fold_left scanLine lines (Key_uxInsights, emptyResponse).

(** The body of the [catch] block. *)
Definition catchBlock (text : jsstring) : AnalysisResponse :=
  let response := snd (scanLines (linesOf text)) in
  if lengthIsZero (uxInsights response)
     && lengthIsZero (visualDesign response)
     && lengthIsZero (bestPractices response)
  then setField response Key_uxInsights (JArray [JString text])
  else response.

(** [try { ... } catch { ... }]: every exception of the [try] block is
    caught. *)
Definition parseOpenRouterResponse (text : jsstring)
  : outcome AnalysisResponse :=
  match tryBlock text with
  | Normal r => Normal r
  | Throw _ => Normal (catchBlock text)
  | OutOfFuel => OutOfFuel
  end.

End Normalizer.

(** Lower-casing of the ASCII letters, code unit by code unit. *)
Definition lowerUnit (c : codeunit) : codeunit :=
  if (65 <=? c) && (c <=? 90) then c + 32 else c.

Definition isASCII (s : jsstring) : bool := forallb (fun c => c <? 128) s.

Definition asciiToLowerCase (s : jsstring) : jsstring := map lowerUnit s.

(** What the standard guarantees of [toLowerCase] on ASCII text. *)
Definition lowersASCII (toLowerCase : jsstring -> jsstring) : Prop :=
  forall s, isASCII s = true -> toLowerCase s = asciiToLowerCase s.

(* ================================================================= *)
(** ** JSON.stringify *)

Section Serializer.

(** [Number::toString] on the finite Numbers other than zero: the shortest
    decimal text that reads back as the same Number. *)
Variable Number_toString : number -> jsstring.

Definition hexDigit (n : N) : codeunit :=
  if n <? 10 then 48 + n else 87 + n.

(** [UnicodeEscape]: a backslash, u, and four lower-case hex digits. *)
Definition UnicodeEscape (c : codeunit) : jsstring :=
  [92; 117; hexDigit (c / 4096); hexDigit ((c / 256) mod 16);
   hexDigit ((c / 16) mod 16); hexDigit (c mod 16)].

Definition isLeadingSurrogate (c : codeunit) : bool :=
  (55296 <=? c) && (c <=? 56319).
Definition isTrailingSurrogate (c : codeunit) : bool :=
  (56320 <=? c) && (c <=? 57343).

(** The text of one code point that is a single code unit. *)
Definition quoteUnit (c : codeunit) : jsstring :=
  if c =? 8 then [92; 98]
  else if c =? 9 then [92; 116]
  else if c =? 10 then [92; 110]
  else if c =? 12 then [92; 102]
  else if c =? 13 then [92; 114]
  else if c =? 34 then [92; 34]
  else if c =? 92 then [92; 92]
  else if (c <? 32) || isLeadingSurrogate c || isTrailingSurrogate c
  then UnicodeEscape c
  else [c].

(** The code points of the string in turn: a surrogate pair is copied, a
    lone surrogate is escaped. *)
Fixpoint quoteChars (s : jsstring) : jsstring :=
  match s with
  | [] => []
  | c :: r =>
      match r with
      | d :: r' =>
          if isLeadingSurrogate c && isTrailingSurrogate d
          then c :: d :: quoteChars r'
          else quoteUnit c ++ quoteChars r
      | [] => quoteUnit c
      end
  end.

Definition QuoteJSONString (s : jsstring) : jsstring :=
  34 :: quoteChars s ++ [34].

(** A Number that is not finite is written as null. *)
Definition serializeNumber (x : number) : jsstring :=
  match x with
  | S754_zero _ => js "0"
  | S754_finite _ _ _ => Number_toString x
  | S754_infinity _ => js "null"
  | S754_nan => js "null"
  end.

Fixpoint joinComma (parts : list jsstring) : jsstring :=
  match parts with
  | [] => []
  | p :: ps =>
      match ps with
      | [] => p
      | _ :: _ => p ++ 44 :: joinComma ps
      end
  end.

(** [JSON.stringify(v)], without replacer or indentation. *)
Fixpoint JSON_stringify (v : json) : jsstring :=
  match v with
  | JNull => js "null"
  | JBool true => js "true"
  | JBool false => js "false"
  | JNumber x => serializeNumber x
  | JString s => QuoteJSONString s
  | JArray items => 91 :: joinComma (map JSON_stringify items) ++ [93]
  | JObject props =>
      123 :: joinComma
               (map (fun kv => QuoteJSONString (fst kv) ++ 58 :: JSON_stringify (snd kv))
                  props) ++ [125]
  end.

(** The response as the object the route serializes: its four properties
    in the order of the object literal that created it. *)
Definition responseObject (r : AnalysisResponse) : json :=
  JObject [ (keyName Key_uxInsights, uxInsights r);
            (keyName Key_visualDesign, visualDesign r);
            (keyName Key_bestPractices, bestPractices r);
            (keyName Key_annotations, annotations r) ].

Definition serializeResponse (r : AnalysisResponse) : jsstring :=
  JSON_stringify (responseObject r).

End Serializer.

(* ================================================================= *)
(** ** Vocabulary of the statements *)

(** What the [catch] block works on: three arrays of strings, and an array of
    annotations that stays empty. *)
Definition stringSections (r : AnalysisResponse) : Prop :=
  exists a b c,
    r = {| uxInsights := strings a; visualDesign := strings b;
           bestPractices := strings c; annotations := JArray [] |}.

(** The text of the example: five lines separated by line feeds. *)
Definition exampleText : jsstring :=
  js "UX Insights" ++ LF :: js "- Good contrast" ++ LF :: js "- Confusing nav"
  ++ LF :: js "Best Practices" ++ LF :: js "1. Add alt text".


(** A parsed value that is not a record with the expected fields: a boolean,
    a number, a string, an array, or an object with none of the four
    properties. *)
Definition lacksExpectedFields (v : json) : Prop :=
  match v with
  | JNull => False
  | JObject props => forall k, lookup (keyName k) props = None
  | _ => True
  end.

(** The keys of an object: no key twice, and each key may stay before the
    keys that follow it. *)
Definition orderedKeys (ks : list jsstring) : Prop :=
  NoDup ks /\ StronglySorted (fun a b => keyPrecedes a b = true) ks.

(** A value all of whose objects list their properties in key order. *)
#[local] Unset Elimination Schemes.
Inductive canonical : json -> Prop :=
| canonical_null : canonical JNull
| canonical_bool (b : bool) : canonical (JBool b)
| canonical_number (x : number) : canonical (JNumber x)
| canonical_string (s : jsstring) : canonical (JString s)
| canonical_array (items : list json) :
    Forall canonical items -> canonical (JArray items)
| canonical_object (props : list (jsstring * json)) :
    orderedKeys (map fst props) -> Forall canonical (map snd props) ->
    canonical (JObject props).
#[local] Set Elimination Schemes.

Definition number_eqb (x y : number) : bool :=
  match x, y with
  | S754_zero a, S754_zero b => Bool.eqb a b
  | S754_infinity a, S754_infinity b => Bool.eqb a b
  | S754_nan, S754_nan => true
  | S754_finite a m e, S754_finite b m' e' =>
      Bool.eqb a b && (m =? m')%positive && (e =? e')%Z
  | _, _ => false
  end.

(** A Number survives serialization when the text written for it is a number
    literal whose value is that Number. *)
Definition survives (Number_toString : number -> jsstring) (x : number)
  : bool :=
  match numberOfLiteral (serializeNumber Number_toString x) with
  | Some y => number_eqb y x
  | None => false
  end.

Fixpoint numbersSurvive (Number_toString : number -> jsstring) (v : json)
  : bool :=
  match v with
  | JNumber x => survives Number_toString x
  | JArray items => forallb (numbersSurvive Number_toString) items
  | JObject props =>
      forallb (fun kv => numbersSurvive Number_toString (snd kv)) props
  | _ => true
  end.

Definition responseNumbersSurvive (Number_toString : number -> jsstring)
  (r : AnalysisResponse) : bool :=
  numbersSurvive Number_toString (uxInsights r)
  && numbersSurvive Number_toString (visualDesign r)
  && numbersSurvive Number_toString (bestPractices r)
  && numbersSurvive Number_toString (annotations r).

(** What may follow a value: nothing, or a code unit that cannot continue a
    number literal. *)
Definition endsValue (rest : jsstring) : Prop :=
  match rest with
  | [] => True
  | c :: _ => isNumberChar c = false
  end.

(** A value is read back from its serialization in any context that ends
    the value, with fuel for the length of the text. *)
Definition readsBack (Number_toString : number -> jsstring) (v : json)
  : Prop :=
  canonical v -> numbersSurvive Number_toString v = true ->
  forall rest fuel, endsValue rest ->
    (length (JSON_stringify Number_toString v) <= fuel)%nat ->
    parseValue fuel (JSON_stringify Number_toString v ++ rest) = POk v rest.

(** The text of one property of an object. *)
Definition memberText (Number_toString : number -> jsstring)
  (kv : jsstring * json) : jsstring :=
  QuoteJSONString (fst kv) ++ 58 :: JSON_stringify Number_toString (snd kv).

(** A JSON object whose three properties are a number, a string and an
    object. *)
Definition unvalidatedText : jsstring :=
  jsq "{'uxInsights':7,'visualDesign':'text','bestPractices':{'k':1}}".

(** The result for it: the three values as they were read. *)
Definition unvalidatedResult : AnalysisResponse :=
  {| uxInsights := JNumber (S754_finite false 7881299347898368 (-50));
     visualDesign := JString (js "text");
     bestPractices :=
       JObject [(js "k", JNumber (S754_finite false 4503599627370496 (-52)))];
     annotations := JArray [] |}.

(** A text whose number literal is beyond the range of the Numbers. *)
Definition overflowText : jsstring := jsq "{'uxInsights':1e999}".

(** The result for it: the literal is read as positive infinity. *)
Definition overflowResult : AnalysisResponse :=
  {| uxInsights := JNumber (S754_infinity false); visualDesign := JArray [];
     bestPractices := JArray []; annotations := JArray [] |}.

(** [Number::toString] on the integers of absolute value below [10^21], which
    are written with all their digits; the empty text elsewhere.  It stands
    for the host function where an example needs one. *)
Definition integerToString (x : number) : jsstring :=
  match x with
  | S754_finite s m e =>
      let n := if (0 <=? e)%Z then (Zpos m * 2 ^ e)%Z
               else (Zpos m / 2 ^ (- e))%Z in
      let exact := if (0 <=? e)%Z then true
                   else (Zpos m mod 2 ^ (- e) =? 0)%Z in
      if exact && (n <? 10 ^ 21)%Z then
        (if s then [45] else [])
        ++ js (NilZero.string_of_uint (N.to_uint (Z.to_N n)))
      else []
  | _ => []
  end.

(** A structured answer with one annotation. *)
Definition annotatedText : jsstring :=
  jsq "{'uxInsights':['Low contrast'],'annotations':[{'x':10,'y':20,'width':50,'height':30,'text':'Button'}]}".

Definition annotatedResult : AnalysisResponse :=
  {| uxInsights := strings [js "Low contrast"];
     visualDesign := JArray [];
     bestPractices := JArray [];
     annotations :=
       JArray
         [JObject
            [ (js "x", JNumber (S754_finite false 5629499534213120 (-49)));
              (js "y", JNumber (S754_finite false 5629499534213120 (-48)));
              (js "width", JNumber (S754_finite false 7036874417766400 (-47)));
              (js "height", JNumber (S754_finite false 8444249301319680 (-48)));
              (js "text", JString (js "Button")) ]] |}.

(* ================================================================= *)
(** ** Vocabulary of the line scan *)

(** The section a line switches to, by the three keyword tests of the loop in
    their order; [None] when the line names no section. *)
Definition headerOf (toLowerCase : jsstring -> jsstring) (line : jsstring)
  : option key :=
  let lowerLine := toLowerCase line in
  if includes lowerLine (js "ux") || includes lowerLine (js "usability") then
    Some Key_uxInsights
  else if includes lowerLine (js "visual") || includes lowerLine (js "design") then
    Some Key_visualDesign
  else if includes lowerLine (js "best") || includes lowerLine (js "practice") then
    Some Key_bestPractices
  else None.

(** The items a run of lines gives: the bullet lines, each stripped and
    trimmed, without the ones left empty. *)
Definition itemsOf (lines : list jsstring) : list jsstring :=
  filter nonEmpty
    (map (fun line => trim (replace_marker line)) (filter isBulletLine lines)).

(** The elements of an array; nothing for another value. *)
Definition elements (v : json) : list json :=
  match v with
  | JArray l => l
  | _ => []
  end.

(* ================================================================= *)
(** ** The route handler *)

(** A promise once it has settled.  Why a promise was rejected is not kept:
    the handlers below catch every exception alike. *)
Inductive settled (A : Type) : Type :=
| Fulfilled (a : A)
| Rejected.
Arguments Fulfilled {A} a.
Arguments Rejected {A}.

(** How a block of a handler ends: with a value, with some exception, or, in
    the model only, with the parser out of fuel. *)
Inductive attempt (A : Type) : Type :=
| Done (a : A)
| Failed
| Stuck.
Arguments Done {A} a.
Arguments Failed {A}.
Arguments Stuck {A}.

(** [await p]. *)
Definition await {A : Type} (p : settled A) : attempt A :=
  match p with
  | Fulfilled a => Done a
  | Rejected => Failed
  end.

Definition ofOutcome {A : Type} (o : outcome A) : attempt A :=
  match o with
  | Normal a => Done a
  | Throw _ => Failed
  | OutOfFuel => Stuck
  end.

Definition andThen {A B : Type} (c : attempt A) (k : A -> attempt B)
  : attempt B :=
  match c with
  | Done a => k a
  | Failed => Failed
  | Stuck => Stuck
  end.

Notation "x <~ c ;; k" := (andThen c (fun x => k))
  (at level 61, c at next level, right associativity).

(** [fileToBase64], given how [reader.readAsDataURL(file)] ends: on load the
    promise is resolved with [result.split(",")[1]], which is [undefined]
    ([None]) when the result has no comma; on error it is rejected.  Where the
    runtime has no [FileReader], the constructor throws inside the executor
    and the promise is rejected as well. *)
Definition fileToBase64 (read : settled jsstring) : settled (option jsstring) :=
  match read with
  | Fulfilled result => Fulfilled (nth_error (split 44 result) 1)
  | Rejected => Rejected
  end.

Definition DEFAULT_MODEL : jsstring := js "meta-llama/llama-2-70b-chat".

Definition DEFAULT_PROMPT : jsstring :=
  js "Analyze this screenshot for UX/usability issues, visual design feedback, and general best practices.".

(** An entry of the multipart form: a file or a string. *)
Inductive FormDataEntryValue : Type :=
| EntryFile (f : File)
| EntryString (s : jsstring).

Definition FormData : Type := list (jsstring * FormDataEntryValue).

(** [formData.get(name)]: the first entry of that name, or [null]. *)
Fixpoint FormData_get (name : jsstring) (fd : FormData)
  : option FormDataEntryValue :=
  match fd with
  | [] => None
  | (n, e) :: r => if jsstring_eqb name n then Some e else FormData_get name r
  end.

(** What the request to the completion service varies in; the rest of it
    (address, system message, token limit, temperature, referer and title
    headers) is fixed text. *)
Record UpstreamRequest : Type := {
  bearer : jsstring;
  model : jsstring;
  promptText : FormDataEntryValue;
  imageUrl : jsstring
}.

(** What the handler reads of the answer of the completion service. *)
Record UpstreamResponse : Type := {
  response_ok : bool;
  response_text : settled jsstring;
  response_json : settled json
}.

(** Everything outside the handler that it consults.  The last field is the
    stack of the engine: [JSON.stringify] recurses into nested arrays and
    objects and throws a RangeError when the stack is exhausted, so whether a
    value is serialized is the engine's to say. *)
Record World : Type := {
  env_API_KEY : option jsstring;
  env_MODEL : option jsstring;
  request_formData : settled FormData;
  readAsDataURL : File -> settled jsstring;
  fetch : UpstreamRequest -> settled UpstreamResponse;
  serializes : json -> bool
}.

(** [NextResponse.json(body, { status })]. *)
Record HttpResponse : Type := { status : Z; body : json }.

(** [NextResponse.json({ error: message }, { status })].  An object with one
    string property is serialized without nesting: this answer is always
    made. *)
Definition errorResponse (message : jsstring) (st : Z) : HttpResponse :=
  {| status := st; body := JObject [(js "error", JString message)] |}.

(** The template literal [data:${file.type};base64,${base64Image}]; an
    [undefined] payload is written undefined. *)
Definition imageUrlOf (file : File) (base64Image : option jsstring) : jsstring :=
  js "data:" ++ type file ++ js ";base64,"
  ++ match base64Image with
     | Some s => s
     | None => js "undefined"
     end.

(** [v.name] for a value other than [null] and a name that is neither an
    index, nor length, nor a property of a built-in prototype: the own
    property of an object, [undefined] for any other value. *)
Definition getProperty (v : json) (name : jsstring) : option json :=
  match v with
  | JObject props => lookup name props
  | _ => None
  end.

(** [v[0]] for a value other than [null]. *)
Definition getFirst (v : json) : option json :=
  match v with
  | JArray items => nth_error items 0
  | JObject props => lookup (js "0") props
  | JString (c :: _) => Some (JString [c])
  | _ => None
  end.

(** [undefined] or [null]. *)
Definition isNullish (v : option json) : bool :=
  match v with
  | None => true
  | Some JNull => true
  | Some _ => false
  end.

(** One link [?.] of an optional chain. *)
Definition optionalChain (v : option json) (get : json -> option json)
  : option json :=
  match v with
  | None => None
  | Some JNull => None
  | Some x => get x
  end.

(** [openRouterData.choices?.[0]?.message?.content].  The first property is
    read without [?.], so [null] data throws. *)
Definition contentOf (openRouterData : json) : outcome (option json) :=
  match openRouterData with
  | JNull => Throw TypeError
  | _ =>
      let choices := getProperty openRouterData (js "choices") in
      let first := optionalChain choices getFirst in
      let message :=
        optionalChain first (fun v => getProperty v (js "message")) in
      Normal (optionalChain message (fun v => getProperty v (js "content")))
  end.

Section Route.

Variable toLowerCase : jsstring -> jsstring.
Variable Number_toString : number -> jsstring.

(** [Number::toString]. *)
Definition NumberToString (x : number) : jsstring :=
  match x with
  | S754_zero _ => js "0"
  | S754_finite _ _ _ => Number_toString x
  | S754_infinity false => js "Infinity"
  | S754_infinity true => js "-Infinity"
  | S754_nan => js "NaN"
  end.

(** [ToString] of a value [JSON.parse] returned.  An array is joined with
    commas, [null] elements giving the empty string.  An object is written
    [[object Object]], unless it has an own property named toString: that
    one is not callable, and the conversion throws. *)
Fixpoint ToString (v : json) : outcome jsstring :=
  match v with
  | JNull => Normal (js "null")
  | JBool true => Normal (js "true")
  | JBool false => Normal (js "false")
  | JNumber x => Normal (NumberToString x)
  | JString s => Normal s
  | JArray items =>
      (fix join (l : list json) : outcome jsstring :=
         match l with
         | [] => Normal []
         | x :: r =>
             sx <- match x with
                   | JNull => Normal []
                   | _ => ToString x
                   end ;;
             match r with
             | [] => Normal sx
             | _ :: _ => sr <- join r ;; Normal (sx ++ 44 :: sr)
             end
         end) items
  | JObject props =>
      match lookup (js "toString") props with
      | None => Normal (js "[object Object]")
      | Some _ => Throw TypeError
      end
  end.

(** [parseOpenRouterResponse(content)] for whatever value the service put
    under content.  A string is the case of the declared type.  Any other
    value is converted to a string by [JSON.parse]; when the [try] block
    throws, the [catch] block calls [split] on the value itself, which is not
    a function there, and the exception leaves the function. *)
Definition parseOpenRouterResponseOf (content : json)
  : outcome AnalysisResponse :=
  match content with
  | JString text => parseOpenRouterResponse toLowerCase text
  | _ =>
      match text <- ToString content ;; tryBlock text with
      | Normal r => Normal r
      | Throw _ => Throw TypeError
      | OutOfFuel => OutOfFuel
      end
  end.

(** [NextResponse.json(body)] for a body of any nesting: the answer has
    status 200 when the engine serializes the body, and the call throws
    otherwise. *)
Definition NextResponse_json (w : World) (body : json) : attempt HttpResponse :=
  if serializes w body then Done {| status := 200; body := body |}
  else Failed.

(** The body of the [try] block of [POST]. *)
Definition POST_try (w : World) : attempt HttpResponse :=
  match env_API_KEY w with
  | None | Some [] =>
      Done (errorResponse (js "Server configuration error: API key not set") 500)
  | Some apiKey =>
      formData <~ await (request_formData w) ;;
      let prompt :=
        match FormData_get (js "prompt") formData with
        | None | Some (EntryString []) => EntryString DEFAULT_PROMPT
        | Some e => e
        end in
      match FormData_get (js "image") formData with
      | None | Some (EntryString []) =>
          Done (errorResponse (js "No image file provided") 400)
      | Some (EntryString (_ :: _)) =>
          (* a string has no type: the format test fails *)
          Done (errorResponse msg_unsupported_format 400)
      | Some (EntryFile file) =>
          match validateFile file with
          | Some validationError => Done (errorResponse validationError 400)
          | None =>
              base64Image <~ await (fileToBase64 (readAsDataURL w file)) ;;
              let model :=
                match env_MODEL w with
                | None | Some [] => DEFAULT_MODEL
                | Some m => m
                end in
              openRouterResponse <~
                await (fetch w {| bearer := apiKey; model := model;
                                  promptText := prompt;
                                  imageUrl := imageUrlOf file base64Image |}) ;;
              if negb (response_ok openRouterResponse) then
                errorText <~ await (response_text openRouterResponse) ;;
                Done (errorResponse
                        (js "Failed to analyze image. Please try again later.")
                        502)
              else
                openRouterData <~ await (response_json openRouterResponse) ;;
                content <~ ofOutcome (contentOf openRouterData) ;;
                match content with
                | Some c =>
                    if ToBoolean content then
                      analysisResult <~ ofOutcome (parseOpenRouterResponseOf c) ;;
                      NextResponse_json w (responseObject analysisResult)
                    else
                      Done (errorResponse
                              (js "Invalid response from AI service") 502)
                | None =>
                    Done (errorResponse
                            (js "Invalid response from AI service") 502)
                end
          end
      end
  end.

(** [POST]: the [catch] clause turns every exception into a 500 answer. *)
Definition POST (w : World) : attempt HttpResponse :=
  match POST_try w with
  | Done r => Done r
  | Failed =>
      Done (errorResponse (js "Internal server error during analysis") 500)
  | Stuck => Stuck
  end.

End Route.

(* ================================================================= *)
(** ** Vocabulary of the route handler *)

(** The message the handler answers for a form whose image entry is missing,
    is not a file, or is a file the validator rejects. *)
Definition uploadProblem (fd : FormData) : option jsstring :=
  match FormData_get (js "image") fd with
  | None | Some (EntryString []) => Some (js "No image file provided")
  | Some (EntryString (_ :: _)) => Some msg_unsupported_format
  | Some (EntryFile file) => validateFile file
  end.

(** The one request the handler makes to the completion service, when it
    makes one: the key is set, the form was read, its image is an accepted
    file and the file was read. *)
Definition requestOf (w : World) : option UpstreamRequest :=
  match env_API_KEY w, request_formData w with
  | Some (k :: key), Fulfilled fd =>
      match FormData_get (js "image") fd with
      | Some (EntryFile file) =>
          match validateFile file, fileToBase64 (readAsDataURL w file) with
          | None, Fulfilled base64Image =>
              Some {| bearer := k :: key;
                      model := match env_MODEL w with
                               | Some (c :: m) => c :: m
                               | _ => DEFAULT_MODEL
                               end;
                      promptText :=
                        match FormData_get (js "prompt") fd with
                        | Some (EntryFile f) => EntryFile f
                        | Some (EntryString (c :: p)) => EntryString (c :: p)
                        | _ => EntryString DEFAULT_PROMPT
                        end;
                      imageUrl := imageUrlOf file base64Image |}
          | _, _ => None
          end
      | _ => None
      end
  | _, _ => None
  end.

(** The world with another completion service. *)
Definition withFetch (w : World)
  (f : UpstreamRequest -> settled UpstreamResponse) : World :=
  {| env_API_KEY := env_API_KEY w; env_MODEL := env_MODEL w;
     request_formData := request_formData w;
     readAsDataURL := readAsDataURL w; fetch := f;
     serializes := serializes w |}.

(** A world for the examples: the key is set, the form holds a PNG file and
    the default prompt, the file is read, and the completion service answers
    with the example text of the unstructured fallback. *)
Definition sampleFile : File := {| type := js "image/png"; size := 1024 |}.

Definition sampleCompletion : json :=
  JObject
    [ (js "choices",
       JArray
         [ JObject
             [ (js "message",
                JObject [ (js "role", JString (js "assistant"));
                          (js "content", JString exampleText) ]) ] ]) ].

Definition sampleForm : FormData :=
  [ (js "image", EntryFile sampleFile);
    (js "prompt", EntryString DEFAULT_PROMPT) ].

Definition sampleWorld : World :=
  {| env_API_KEY := Some (js "sk-test");
     env_MODEL := None;
     request_formData := Fulfilled sampleForm;
     readAsDataURL := fun _ => Fulfilled (js "data:image/png;base64,iVBORw0KGgo=");
     fetch := fun _ =>
       Fulfilled {| response_ok := true; response_text := Rejected;
                    response_json := Fulfilled sampleCompletion |};
     serializes := fun _ => true |}.

Definition sampleRequest : UpstreamRequest :=
  {| bearer := js "sk-test"; model := DEFAULT_MODEL;
     promptText := EntryString DEFAULT_PROMPT;
     imageUrl := js "data:image/png;base64,iVBORw0KGgo=" |}.

(* ================================================================= *)
(** ** The page *)

Module Page.

(** The page has its own copy of the upload policy. *)
Definition MAX_FILE_SIZE : Z := 5 * 1024 * 1024.

Definition SUPPORTED_FORMATS : list jsstring :=
  [ js "image/jpeg"; js "image/png"; js "image/gif"; js "image/webp" ].

Definition validateFile (file : File) : option jsstring :=
  if negb (array_includes SUPPORTED_FORMATS (type file)) then
    Some (js "Unsupported file format. Please use JPEG, PNG, GIF, or WebP.")
  else if (size file >? MAX_FILE_SIZE)%Z then
    Some (js "File size exceeds 5MB limit.")
  else
    None.

(** The prompt [handleSubmit] posts. *)
Definition PROMPT : jsstring :=
  js "Analyze this screenshot for UX/usability issues, visual design feedback, and general best practices.".

(** A text shown as the error: a known text, or the message of an exception
    the runtime raised, whose wording is the runtime's. *)
Inductive notice : Type :=
| Text (s : jsstring)
| RuntimeMessage.

(** The state variables of the component. *)
Record State : Type := {
  selectedFile : option File;
  previewUrl : option jsstring;
  isSubmitting : bool;
  dragActive : bool;
  error : option notice;
  analysisResults : option json
}.

(** The values given to [useState]. *)
Definition initialState : State :=
  {| selectedFile := None; previewUrl := None; isSubmitting := false;
     dragActive := false; error := None; analysisResults := None |}.

Definition setSelectedFile (v : option File) (st : State) : State :=
  {| selectedFile := v; previewUrl := previewUrl st;
     isSubmitting := isSubmitting st; dragActive := dragActive st;
     error := error st; analysisResults := analysisResults st |}.

Definition setPreviewUrl (v : option jsstring) (st : State) : State :=
  {| selectedFile := selectedFile st; previewUrl := v;
     isSubmitting := isSubmitting st; dragActive := dragActive st;
     error := error st; analysisResults := analysisResults st |}.

Definition setIsSubmitting (v : bool) (st : State) : State :=
  {| selectedFile := selectedFile st; previewUrl := previewUrl st;
     isSubmitting := v; dragActive := dragActive st;
     error := error st; analysisResults := analysisResults st |}.

Definition setDragActive (v : bool) (st : State) : State :=
  {| selectedFile := selectedFile st; previewUrl := previewUrl st;
     isSubmitting := isSubmitting st; dragActive := v;
     error := error st; analysisResults := analysisResults st |}.

Definition setError (v : option notice) (st : State) : State :=
  {| selectedFile := selectedFile st; previewUrl := previewUrl st;
     isSubmitting := isSubmitting st; dragActive := dragActive st;
     error := v; analysisResults := analysisResults st |}.

Definition setAnalysisResults (v : option json) (st : State) : State :=
  {| selectedFile := selectedFile st; previewUrl := previewUrl st;
     isSubmitting := isSubmitting st; dragActive := dragActive st;
     error := error st; analysisResults := v |}.

(** An asynchronous operation a handler is waiting for: the preview of a
    file, or the answer to the upload of a file. *)
Inductive pending : Type :=
| Preview (file : File)
| Submission (file : File).

(** The component with what it is waiting for. *)
Record Config : Type := { ui : State; inFlight : list pending }.

Definition initial : Config := {| ui := initialState; inFlight := [] |}.

Definition File_eqb (f g : File) : bool :=
  jsstring_eqb (type f) (type g) && (size f =? size g)%Z.

Definition pending_eqb (p q : pending) : bool :=
  match p, q with
  | Preview f, Preview g => File_eqb f g
  | Submission f, Submission g => File_eqb f g
  | _, _ => false
  end.

(** One operation less in flight. *)
Fixpoint settle (p : pending) (l : list pending) : list pending :=
  match l with
  | [] => []
  | q :: r => if pending_eqb p q then r else q :: settle p r
  end.

(** [handleFileSelect], up to its [await]: the error is cleared; a file the
    validator rejects sets the error and nothing else; for another file the
    preview is started. *)
Definition handleFileSelect (file : File) (c : Config) : Config :=
  match validateFile file with
  | Some validationError =>
      {| ui := setError (Some (Text validationError)) (setError None (ui c));
         inFlight := inFlight c |}
  | None =>
      {| ui := setError None (ui c);
         inFlight := inFlight c ++ [Preview file] |}
  end.

(** [handleFileSelect], after its [await], when the preview was made. *)
Definition previewLoaded (file : File) (preview : jsstring) (st : State)
  : State :=
  setPreviewUrl (Some preview) (setSelectedFile (Some file) st).

(** [handleFileSelect], after its [await], when the reader failed. *)
Definition previewFailed (st : State) : State :=
  setError (Some (Text (js "Failed to preview image. Please try again."))) st.

(** [handleDrag], by the type of the event. *)
Definition handleDrag (eventType : jsstring) (st : State) : State :=
  if jsstring_eqb eventType (js "dragenter")
     || jsstring_eqb eventType (js "dragover") then setDragActive true st
  else if jsstring_eqb eventType (js "dragleave") then setDragActive false st
  else st.

(** [handleFileInputChange], and the part of [handleDrop] after the drag
    state: the first file of the list, if there is one, is selected. *)
Definition selectFirst (files : list File) (c : Config) : Config :=
  match files with
  | file :: _ => handleFileSelect file c
  | [] => c
  end.

Definition handleDrop (files : list File) (c : Config) : Config :=
  selectFirst files {| ui := setDragActive false (ui c);
                       inFlight := inFlight c |}.

Definition handleRemoveFile (st : State) : State :=
  setAnalysisResults None
    (setError None (setPreviewUrl None (setSelectedFile None st))).

Definition handleClearResults (st : State) : State :=
  setError None (setAnalysisResults None st).

(** [handleSubmit], up to its [await]: without a selected file nothing
    happens; otherwise the upload of the selected file starts. *)
Definition handleSubmit (c : Config) : Config :=
  match selectedFile (ui c) with
  | None => c
  | Some file =>
      {| ui := setError None (setIsSubmitting true (ui c));
         inFlight := inFlight c ++ [Submission file] |}
  end.

Definition handleRerunAnalysis (c : Config) : Config :=
  match selectedFile (ui c) with
  | None => c
  | Some _ =>
      handleSubmit {| ui := setAnalysisResults None (ui c);
                      inFlight := inFlight c |}
  end.

(** The form [handleSubmit] posts for a file. *)
Definition formOf (file : File) : FormData :=
  [ (js "image", EntryFile file); (js "prompt", EntryString PROMPT) ].

(** [response.ok]. *)
Definition isOk (status : Z) : bool := (200 <=? status)%Z && (status <=? 299)%Z.

Section Answer.

Variable Number_toString : number -> jsstring.

(** What [handleSubmit] makes of a response that is not ok: the message of
    the error it throws.  Reading the body as JSON, reading a property of
    null and converting the value to a string may each throw instead. *)
Definition failureNotice (bodyText : jsstring) : notice :=
  match JSON_parse bodyText with
  | Normal JNull => RuntimeMessage
  | Normal errorData =>
      match getProperty errorData (js "error") with
      | Some v =>
          if ToBoolean (Some v) then
            match ToString Number_toString v with
            | Normal s => Text s
            | _ => RuntimeMessage
            end
          else Text (js "Analysis failed")
      | None => Text (js "Analysis failed")
      end
  | _ => RuntimeMessage
  end.

(** [handleSubmit], after its [await]s: [answer] is how [fetch] settled, with
    the status and the text of the body when it was fulfilled.  A body that
    is the JSON text of null sets the results to [null], which is [None]
    here.  The [finally] clause comes last. *)
Definition answered (answer : settled (Z * jsstring)) (st : State) : State :=
  setIsSubmitting false
    match answer with
    | Rejected => setError (Some RuntimeMessage) st
    | Fulfilled (status, bodyText) =>
        if negb (isOk status) then
          setError (Some (failureNotice bodyText)) st
        else
          match JSON_parse bodyText with
          | Normal JNull => setAnalysisResults None st
          | Normal result => setAnalysisResults (Some result) st
          | _ => setError (Some RuntimeMessage) st
          end
    end.

(** What happens to the component: the user acts, or an operation in flight
    settles. *)
Inductive event : Type :=
| FileInputChange (files : list File)
| Drag (eventType : jsstring)
| Drop (files : list File)
| RemoveFile
| ClearResults
| Submit
| Rerun
| PreviewLoaded (file : File) (preview : jsstring)
| PreviewFailed (file : File)
| Answered (file : File) (answer : settled (Z * jsstring)).

(** One step; [None] when the event cannot happen, because the operation it
    settles is not in flight. *)
Definition step (c : Config) (e : event) : option Config :=
  match e with
  | FileInputChange files => Some (selectFirst files c)
  | Drag eventType =>
      Some {| ui := handleDrag eventType (ui c); inFlight := inFlight c |}
  | Drop files => Some (handleDrop files c)
  | RemoveFile =>
      Some {| ui := handleRemoveFile (ui c); inFlight := inFlight c |}
  | ClearResults =>
      Some {| ui := handleClearResults (ui c); inFlight := inFlight c |}
  | Submit => Some (handleSubmit c)
  | Rerun => Some (handleRerunAnalysis c)
  | PreviewLoaded file preview =>
      if existsb (pending_eqb (Preview file)) (inFlight c) then
        Some {| ui := previewLoaded file preview (ui c);
                inFlight := settle (Preview file) (inFlight c) |}
      else None
  | PreviewFailed file =>
      if existsb (pending_eqb (Preview file)) (inFlight c) then
        Some {| ui := previewFailed (ui c);
                inFlight := settle (Preview file) (inFlight c) |}
      else None
  | Answered file answer =>
      if existsb (pending_eqb (Submission file)) (inFlight c) then
        Some {| ui := answered answer (ui c);
                inFlight := settle (Submission file) (inFlight c) |}
      else None
  end.

(** The configurations the component can be in. *)
Inductive reachable : Config -> Prop :=
| reachable_initial : reachable initial
| reachable_step (c c' : Config) (e : event) :
    reachable c -> step c e = Some c' -> reachable c'.

End Answer.

End Page.

(** The page of the examples: the sample file was chosen, its preview was
    made, and its upload is in flight. *)
Definition samplePreview : jsstring := js "data:image/png;base64,iVBORw0KGgo=".

Definition samplePage : Page.Config :=
  {| Page.ui :=
       {| Page.selectedFile := Some sampleFile;
          Page.previewUrl := Some samplePreview;
          Page.isSubmitting := true; Page.dragActive := false;
          Page.error := None; Page.analysisResults := None |};
     Page.inFlight := [Page.Submission sampleFile] |}.

(** A run of the page: the events in their order. *)
Fixpoint runPage (Number_toString : number -> jsstring)
  (events : list Page.event) (c : Page.Config) : option Page.Config :=
  match events with
  | [] => Some c
  | e :: es =>
      match Page.step Number_toString c e with
      | Some c' => runPage Number_toString es c'
      | None => None
      end
  end.

(** The code units a JSON value can start with: the brace, the bracket, the
    quotation mark, the minus sign, a digit, and the first letters of true,
    false and null. *)
Definition startsValue (c : codeunit) : bool :=
  (c =? 123) || (c =? 91) || (c =? 34) || (c =? 45) || isDigit c
  || (c =? 116) || (c =? 102) || (c =? 110).

(* ================================================================= *)
(** * Properties *)

(** ** Strings and the validator *)

Lemma jsstring_eqb_spec (a b : jsstring) : jsstring_eqb a b = true <-> a = b.
Proof.
  revert b; induction a as [|x a IH]; intros [|y b]; simpl;
    try (split; discriminate); try tauto.
  rewrite andb_true_iff, N.eqb_eq, IH.
  split; [intros [-> ->]; reflexivity | intros H; injection H; auto].
Qed.

Lemma jsstring_eqb_refl (a : jsstring) : jsstring_eqb a a = true.
Proof. apply jsstring_eqb_spec; reflexivity. Qed.

Lemma array_includes_In (arr : list jsstring) (x : jsstring) :
  array_includes arr x = true <-> In x arr.
Proof.
  unfold array_includes; rewrite existsb_exists; split.
  - intros [y [Hy E]]. apply jsstring_eqb_spec in E. subst; exact Hy.
  - intros H. exists x. split; [exact H | apply jsstring_eqb_refl].
Qed.

Lemma array_includes_not_In (arr : list jsstring) (x : jsstring) :
  ~ In x arr -> array_includes arr x = false.
Proof.
  intros H. destruct (array_includes arr x) eqn:E; [|reflexivity].
  apply array_includes_In in E. contradiction.
Qed.

(** C6. A media type outside the allow-list, which is exactly the four
    strings image/jpeg, image/png, image/gif and image/webp compared code unit
    by code unit, is rejected with the format message whatever the size;
    the size is not looked at, so the size message is never the answer. *)
Theorem validateFile_rejects_format (file : File) :
  ~ In (type file)
      [ js "image/jpeg"; js "image/png"; js "image/gif"; js "image/webp" ] ->
  validateFile file = Some msg_unsupported_format
  /\ validateFile file <> Some msg_size_exceeded
  /\ forall n : Z,
       validateFile {| type := type file; size := n |}
       = Some msg_unsupported_format.
Proof.
  intros H.
  assert (E : forall n, validateFile {| type := type file; size := n |}
                        = Some msg_unsupported_format).
  { intros n. unfold validateFile. simpl type.
    fold SUPPORTED_FORMATS in H.
    rewrite (array_includes_not_In _ _ H). reflexivity. }
  assert (E0 : validateFile file = Some msg_unsupported_format).
  { destruct file as [t n]. apply E. }
  split; [exact E0 | split; [|exact E]].
  rewrite E0. intros C. injection C. vm_compute. discriminate.
Qed.

(** A type that differs from an allowed one only by letter case, with a size
    far above the limit: the format message. *)
Lemma validateFile_rejects_format_witness :
  ~ In (js "IMAGE/PNG")
      [ js "image/jpeg"; js "image/png"; js "image/gif"; js "image/webp" ]
  /\ validateFile {| type := js "IMAGE/PNG"; size := 99999999 |}
     = Some msg_unsupported_format.
Proof.
  assert (H : ~ In (js "IMAGE/PNG")
                [ js "image/jpeg"; js "image/png"; js "image/gif";
                  js "image/webp" ]).
  { vm_compute. intros H.
    repeat (destruct H as [H | H]; [discriminate H |]). exact H. }
  split; [exact H|].
  apply (validateFile_rejects_format
           {| type := js "IMAGE/PNG"; size := 99999999 |}).
  exact H.
Defined.

(** C7. For an allowed media type the file is accepted exactly when its size
    is at most 5,242,880 bytes; above, it is rejected with the size message. *)
Theorem validateFile_size_limit (file : File) :
  In (type file) SUPPORTED_FORMATS ->
  (validateFile file = None <-> (size file <= 5242880)%Z)
  /\ ((size file > 5242880)%Z -> validateFile file = Some msg_size_exceeded).
Proof.
  intros H. apply array_includes_In in H.
  unfold validateFile. rewrite H. simpl negb. cbv iota.
  change MAX_FILE_SIZE with 5242880%Z.
  destruct (Z.gtb_spec (size file) 5242880).
  - split; [split; [discriminate | lia] | reflexivity].
  - split; [split; [lia | reflexivity] | lia].
Qed.

Lemma validateFile_size_limit_witness :
  In (js "image/webp") SUPPORTED_FORMATS
  /\ (validateFile {| type := js "image/webp"; size := 5242880 |} = None
      <-> (5242880 <= 5242880)%Z)
  /\ ((5242881 > 5242880)%Z ->
      validateFile {| type := js "image/webp"; size := 5242881 |}
      = Some msg_size_exceeded).
Proof.
  split; [vm_compute; tauto|].
  split.
  - apply (validateFile_size_limit
             {| type := js "image/webp"; size := 5242880 |}).
    vm_compute; tauto.
  - apply (validateFile_size_limit
             {| type := js "image/webp"; size := 5242881 |}).
    vm_compute; tauto.
Defined.

(* ================================================================= *)
(** ** The embedding on sample inputs *)

Example trim_sample :
  trim (js "  - item  ") = js "- item"
  /\ trim [9; 160; 65279; 97; 32; 98; 13] = [97; 32; 98]
  /\ trim (js "   ") = [].
Proof. repeat split; vm_compute; reflexivity. Qed.

Example split_sample :
  split LF [97; 10; 10; 98; 10] = [[97]; []; [98]; []]
  /\ split LF [] = [[]]
  /\ linesOf [97; 10; 32; 10; 98; 13; 10] = [[97]; [98; 13]].
Proof. repeat split; vm_compute; reflexivity. Qed.

Example includes_sample :
  includes (js "best practices") (js "practice") = true
  /\ includes (js "layout") (js "ux") = false
  /\ includes (js "flux") (js "ux") = true.
Proof. repeat split; vm_compute; reflexivity. Qed.

Example test_numbered_sample :
  test_numbered (js "12. x") = true
  /\ test_numbered (js "1 . x") = false
  /\ test_numbered (js ". x") = false
  /\ isBulletLine (js "  12. x") = true
  /\ isBulletLine (js "plain") = false.
Proof. repeat split; vm_compute; reflexivity. Qed.

(** Decimal literals as binary64 values: one tenth, an integer above [2^53]
    that is rounded to even, the smallest subnormal, overflow to infinity,
    underflow to zero, negative zero. *)
Example decimalToNumber_sample :
  numberOfLiteral (js "0.1")
  = Some (S754_finite false 7205759403792794 (-56))
  /\ numberOfLiteral (js "9007199254740993")
     = Some (S754_finite false 4503599627370496 1)
  /\ numberOfLiteral (js "5e-324") = Some (S754_finite false 1 (-1074))
  /\ numberOfLiteral (js "1.7976931348623157e308")
     = Some (S754_finite false 9007199254740991 971)
  /\ numberOfLiteral (js "1.7976931348623159e308")
     = Some (S754_infinity false)
  /\ numberOfLiteral (js "1e-400") = Some (S754_zero false)
  /\ numberOfLiteral (js "-0") = Some (S754_zero true).
Proof. repeat split; vm_compute; reflexivity. Qed.

Example numberOfLiteral_rejects :
  map numberOfLiteral
    [js "01"; js "1."; js ".5"; js "-"; js "+1"; js "1e"; js "1e+"; js "0x10";
     js "1-2"; js ""]
  = [None; None; None; None; None; None; None; None; None; None].
Proof. vm_compute; reflexivity. Qed.

Example JSON_parse_sample :
  JSON_parse (jsq " { 'a' : [ 1 , true , null , 'x\n\u0041' ] } ")
  = Normal (JObject
              [ (js "a",
                 JArray [ JNumber (S754_finite false 4503599627370496 (-52));
                          JBool true; JNull; JString [120; 10; 65] ]) ])
  /\ JSON_parse (jsq "{'b':1,'2':true,'a':null,'1':false,'b':'again'}")
     = Normal (JObject
                 [ (js "1", JBool false); (js "2", JBool true);
                   (js "b", JString (js "again")); (js "a", JNull) ])
  /\ JSON_parse (js "null") = Normal JNull
  /\ JSON_parse (js "[]") = Normal (JArray [])
  /\ JSON_parse (js "{}") = Normal (JObject []).
Proof. repeat split; vm_compute; reflexivity. Qed.

Example JSON_parse_rejects :
  map JSON_parse
    [ js ""; js " "; js "[1,]"; js "{,}"; js "[1 2]"; js "tru"; js "nulll";
      jsq "'abc"; jsq "{'a' 1}"; jsq "{'a':1,}"; js "[]]"; js "- 1";
      jsq "'\x'"; jsq "{a:1}"; js "undefined"; js "NaN"; [34; 9; 34] ]
  = repeat (Throw SyntaxError) 17.
Proof. vm_compute; reflexivity. Qed.

Example JSON_stringify_sample :
  JSON_stringify integerToString
    (JObject [ (js "k", JArray [ JString [97; 34; 10; 1; 55357];
                                 JNumber (S754_infinity true);
                                 JNumber (S754_zero true); JBool false ]);
               (js "n", JNumber (S754_finite false 5910974510923776 (-47))) ])
  = jsq "{'k':['a\'\n\u0001\ud83d',null,0,false],'n':42}".
Proof. vm_compute; reflexivity. Qed.

(* ================================================================= *)
(** ** The parser never runs out of fuel *)

Lemma dropWhile_length (p : codeunit -> bool) (s : jsstring) :
  (length (dropWhile p s) <= length s)%nat.
Proof.
  induction s as [|c r IH]; simpl; [lia|].
  destruct (p c); simpl; lia.
Qed.

Lemma skipWS_length (s : jsstring) : (length (skipWS s) <= length s)%nat.
Proof. apply dropWhile_length. Qed.

Lemma skipWS_cons_length (s r : jsstring) (c : codeunit) :
  skipWS s = c :: r -> (length r < length s)%nat.
Proof.
  intros E. pose proof (skipWS_length s) as H. rewrite E in H. simpl in H. lia.
Qed.

Lemma consChar_Some (c : codeunit) (o : option (jsstring * jsstring))
  (k rest : jsstring) :
  consChar c o = Some (k, rest) ->
  exists k', o = Some (k', rest) /\ k = c :: k'.
Proof.
  destruct o as [[k' r']|]; simpl; [|discriminate].
  intros H; injection H as <- <-. eauto.
Qed.

Lemma parseChars_length (s k rest : jsstring) :
  parseChars s = Some (k, rest) -> (length rest < length s)%nat.
Proof.
  remember (length s) as n eqn:En.
  revert s k rest En.
  induction n as [n IH] using lt_wf_ind; intros s k rest En.
  destruct s as [|c r]; simpl; [discriminate|].
  destruct (c =? 34).
  { intros H; injection H as <- <-. simpl in En. lia. }
  destruct (c =? 92).
  - destruct r as [|e r1]; [discriminate|].
    destruct (e =? 117).
    + destruct r1 as [|h1 [|h2 [|h3 [|h4 r2]]]]; try discriminate.
      destruct (hex4 h1 h2 h3 h4); [|discriminate].
      intros H. apply consChar_Some in H as (k' & H & _).
      apply (IH (length r2)) in H; simpl in *; try lia.
    + destruct (unescape e); [|discriminate].
      intros H. apply consChar_Some in H as (k' & H & _).
      apply (IH (length r1)) in H; simpl in *; try lia.
  - destruct (c <? 32); [discriminate|].
    intros H. apply consChar_Some in H as (k' & H & _).
    apply (IH (length r)) in H; simpl in *; try lia.
Qed.

Lemma stripPrefix_length (pat s rest : jsstring) :
  stripPrefix pat s = Some rest -> length rest = (length s - length pat)%nat.
Proof.
  unfold stripPrefix. destruct (startsWith s pat); [|discriminate].
  intros H; injection H as <-. apply length_skipn.
Qed.

(** With twice the length of the text as fuel (and one or two units more),
    each of the three parsers answers, and what it leaves is shorter than
    what it was given. *)
Lemma parse_fuel (fuel : nat) :
  (forall s, (2 * length s < fuel)%nat ->
     parseValue fuel s <> POutOfFuel
     /\ forall v r, parseValue fuel s = POk v r -> (length r < length s)%nat)
  /\ (forall s, (2 * length s + 1 < fuel)%nat ->
     parseElements fuel s <> POutOfFuel
     /\ forall vs r, parseElements fuel s = POk vs r ->
                     (length r < length s)%nat)
  /\ (forall s, (2 * length s + 1 < fuel)%nat ->
     parseMembers fuel s <> POutOfFuel
     /\ forall ms r, parseMembers fuel s = POk ms r ->
                     (length r < length s)%nat).
Proof.
  induction fuel as [|fuel (IHv & IHe & IHm)].
  { repeat split; intros; lia. }
  split; [|split].
  - (* parseValue *)
    intros s Hs. simpl.
    destruct (skipWS s) as [|c r] eqn:Ews; [split; [discriminate|discriminate]|].
    pose proof (skipWS_cons_length _ _ _ Ews) as Hr.
    destruct (c =? 123).
    { destruct (skipWS r) as [|c' r'] eqn:Ews'; [split; discriminate|].
      pose proof (skipWS_cons_length _ _ _ Ews') as Hr'.
      destruct (c' =? 125).
      { split; [discriminate|]. intros v r0 H; injection H as <- <-. lia. }
      destruct (IHm (c' :: r')) as [Hne Hlen]; [simpl; pose proof (skipWS_length r) as L; rewrite Ews' in L; simpl in L; lia|].
      destruct (parseMembers fuel (c' :: r')) as [ms rest| |] eqn:Em;
        [|split; discriminate|contradiction].
      split; [discriminate|]. intros v r0 H; injection H as <- <-.
      specialize (Hlen _ _ eq_refl). pose proof (skipWS_length r) as L.
      rewrite Ews' in L. lia. }
    destruct (c =? 91).
    { destruct (skipWS r) as [|c' r'] eqn:Ews'; [split; discriminate|].
      pose proof (skipWS_cons_length _ _ _ Ews') as Hr'.
      destruct (c' =? 93).
      { split; [discriminate|]. intros v r0 H; injection H as <- <-. lia. }
      destruct (IHe (c' :: r')) as [Hne Hlen]; [simpl; pose proof (skipWS_length r) as L; rewrite Ews' in L; simpl in L; lia|].
      destruct (parseElements fuel (c' :: r')) as [vs rest| |] eqn:Em;
        [|split; discriminate|contradiction].
      split; [discriminate|]. intros v r0 H; injection H as <- <-.
      specialize (Hlen _ _ eq_refl). pose proof (skipWS_length r) as L.
      rewrite Ews' in L. lia. }
    destruct (c =? 34).
    { destruct (parseChars r) as [[str rest]|] eqn:Ec; [|split; discriminate].
      split; [discriminate|]. intros v r0 H; injection H as <- <-.
      apply parseChars_length in Ec. lia. }
    destruct (isDigit c || (c =? 45)) eqn:Enum.
    { destruct (numberOfLiteral _); [|split; discriminate].
      split; [discriminate|]. intros v r0 H; injection H as <- <-.
      assert (Hc : isNumberChar c = true).
      { unfold isNumberChar. rewrite Enum. reflexivity. }
      simpl. rewrite Hc. pose proof (dropWhile_length isNumberChar r). lia. }
    destruct (stripPrefix (js "true") (c :: r)) as [rest|] eqn:E1.
    { split; [discriminate|]. intros v r0 H; injection H as <- <-.
      apply stripPrefix_length in E1. simpl in E1. lia. }
    destruct (stripPrefix (js "false") (c :: r)) as [rest|] eqn:E2.
    { split; [discriminate|]. intros v r0 H; injection H as <- <-.
      apply stripPrefix_length in E2. simpl in E2. lia. }
    destruct (stripPrefix (js "null") (c :: r)) as [rest|] eqn:E3.
    { split; [discriminate|]. intros v r0 H; injection H as <- <-.
      apply stripPrefix_length in E3. simpl in E3. lia. }
    split; discriminate.
  - (* parseElements *)
    intros s Hs. simpl.
    destruct (IHv s) as [Hne Hlen]; [lia|].
    destruct (parseValue fuel s) as [v rest| |] eqn:Ev;
      [|split; discriminate|contradiction].
    specialize (Hlen _ _ eq_refl).
    destruct (skipWS rest) as [|c r] eqn:Ews; [split; discriminate|].
    pose proof (skipWS_cons_length _ _ _ Ews) as Hr.
    destruct (c =? 44).
    { destruct (IHe r) as [Hne' Hlen']; [lia|].
      destruct (parseElements fuel r) as [vs rest'| |] eqn:Ee;
        [|split; discriminate|contradiction].
      split; [discriminate|]. intros vs0 r0 H; injection H as <- <-.
      specialize (Hlen' _ _ eq_refl). lia. }
    destruct (c =? 93); [|split; discriminate].
    split; [discriminate|]. intros vs0 r0 H; injection H as <- <-. lia.
  - (* parseMembers *)
    intros s Hs. simpl.
    destruct (skipWS s) as [|q s1] eqn:Ews; [split; discriminate|].
    pose proof (skipWS_cons_length _ _ _ Ews) as Hs1.
    destruct (q =? 34); [|split; discriminate].
    destruct (parseChars s1) as [[k s2]|] eqn:Ek; [|split; discriminate].
    apply parseChars_length in Ek.
    destruct (skipWS s2) as [|colon s3] eqn:Ews2; [split; discriminate|].
    pose proof (skipWS_cons_length _ _ _ Ews2) as Hs3.
    destruct (colon =? 58); [|split; discriminate].
    destruct (IHv s3) as [Hne Hlen]; [lia|].
    destruct (parseValue fuel s3) as [v rest| |] eqn:Ev;
      [|split; discriminate|contradiction].
    specialize (Hlen _ _ eq_refl).
    destruct (skipWS rest) as [|c r] eqn:Ews3; [split; discriminate|].
    pose proof (skipWS_cons_length _ _ _ Ews3) as Hr.
    destruct (c =? 44).
    { destruct (IHm r) as [Hne' Hlen']; [lia|].
      destruct (parseMembers fuel r) as [ms rest'| |] eqn:Em;
        [|split; discriminate|contradiction].
      split; [discriminate|]. intros ms0 r0 H; injection H as <- <-.
      specialize (Hlen' _ _ eq_refl). lia. }
    destruct (c =? 125); [|split; discriminate].
    split; [discriminate|]. intros ms0 r0 H; injection H as <- <-. lia.
Qed.

(** [JSON.parse] returns a value or throws a [SyntaxError]. *)
Lemma JSON_parse_fuel (text : jsstring) :
  (exists v, JSON_parse text = Normal v) \/ JSON_parse text = Throw SyntaxError.
Proof.
  unfold JSON_parse.
  destruct (parse_fuel (2 * length text + 1)) as [Hv _].
  destruct (Hv text) as [Hne _]; [lia|].
  destruct (parseValue (2 * length text + 1) text) as [v rest| |];
    [|right; reflexivity|contradiction].
  destruct (skipWS rest); [left; eauto | right; reflexivity].
Qed.

(* ================================================================= *)
(** ** The line scan *)

Lemma strings_snoc (l : list jsstring) (x : jsstring) :
  JArray (map JString l ++ [JString x]) = strings (l ++ [x]).
Proof. unfold strings. rewrite map_app. reflexivity. Qed.

Lemma push_stringSections (r : AnalysisResponse) (k : key) (x : jsstring) :
  k <> Key_annotations -> stringSections r -> stringSections (push r k x).
Proof.
  intros Hk (a & b & c & ->).
  destruct k; try contradiction; unfold push; simpl; rewrite strings_snoc;
    [exists (a ++ [x]), b, c | exists a, (b ++ [x]), c | exists a, b, (c ++ [x])];
    reflexivity.
Qed.

Section Scan.
Variable toLowerCase : jsstring -> jsstring.

(** The outcome of one turn: the section changes and the response does not,
    or the section stays and one non-empty item is pushed, or nothing
    changes. *)
Lemma scanLine_cases (k : key) (r : AnalysisResponse) (line : jsstring) :
  let low := toLowerCase line in
  let ux := includes low (js "ux") || includes low (js "usability") in
  let vis := includes low (js "visual") || includes low (js "design") in
  let best := includes low (js "best") || includes low (js "practice") in
  scanLine toLowerCase (k, r) line =
    if ux then (Key_uxInsights, r)
    else if vis then (Key_visualDesign, r)
    else if best then (Key_bestPractices, r)
    else if isBulletLine line
              && nonEmpty (trim (replace_marker line))
              && isArray (getField r k)
         then (k, push r k (trim (replace_marker line)))
         else (k, r).
Proof.
  cbv zeta. unfold scanLine.
  destruct (includes (toLowerCase line) (js "ux")
            || includes (toLowerCase line) (js "usability")); [reflexivity|].
  destruct (includes (toLowerCase line) (js "visual")
            || includes (toLowerCase line) (js "design")); [reflexivity|].
  destruct (includes (toLowerCase line) (js "best")
            || includes (toLowerCase line) (js "practice")); [reflexivity|].
  destruct (isBulletLine line); [|reflexivity].
  simpl andb.
  destruct (nonEmpty (trim (replace_marker line))
            && isArray (getField r k)); reflexivity.
Qed.

Lemma scanLine_inv (k : key) (r : AnalysisResponse) (line : jsstring) :
  k <> Key_annotations -> stringSections r ->
  fst (scanLine toLowerCase (k, r) line) <> Key_annotations
  /\ stringSections (snd (scanLine toLowerCase (k, r) line)).
Proof.
  intros Hk Hr. rewrite scanLine_cases. cbv zeta.
  repeat match goal with
         | |- context [if ?b then _ else _] => destruct b
         end; simpl; (split; [try discriminate; assumption|]);
    try assumption.
  apply push_stringSections; assumption.
Qed.

Lemma fold_scanLine_inv (lines : list jsstring) (st : key * AnalysisResponse) :
  fst st <> Key_annotations -> stringSections (snd st) ->
  fst (fold_left (scanLine toLowerCase) lines st) <> Key_annotations
  /\ stringSections (snd (fold_left (scanLine toLowerCase) lines st)).
Proof.
  revert st. induction lines as [|l ls IH]; intros [k r] Hk Hr; simpl.
  - split; assumption.
  - simpl in Hk, Hr. destruct (scanLine_inv k r l Hk Hr) as [Hk' Hr'].
    apply IH; assumption.
Qed.

Lemma scanLines_inv (lines : list jsstring) :
  stringSections (snd (scanLines toLowerCase lines)).
Proof.
  apply fold_scanLine_inv; simpl; [discriminate|].
  exists [], [], []. reflexivity.
Qed.

Lemma catchBlock_stringSections (text : jsstring) :
  stringSections (catchBlock toLowerCase text).
Proof.
  unfold catchBlock.
  destruct (scanLines_inv (linesOf text)) as (a & b & c & E).
  rewrite E. cbn [uxInsights visualDesign bestPractices].
  destruct (lengthIsZero (strings a) && lengthIsZero (strings b)
            && lengthIsZero (strings c)).
  - exists [text], b, c. reflexivity.
  - exists a, b, c. reflexivity.
Qed.

(** The [try] block ends normally or throws. *)
Lemma tryBlock_fuel (text : jsstring) :
  tryBlock text <> OutOfFuel.
Proof.
  unfold tryBlock.
  destruct (JSON_parse_fuel text) as [[v ->] | ->]; [|discriminate].
  destruct v; simpl; discriminate.
Qed.

Lemma parseOpenRouterResponse_cases (text : jsstring) :
  (exists r, tryBlock text = Normal r
             /\ parseOpenRouterResponse toLowerCase text = Normal r)
  \/ (exists e, tryBlock text = Throw e
                /\ parseOpenRouterResponse toLowerCase text
                   = Normal (catchBlock toLowerCase text)).
Proof.
  unfold parseOpenRouterResponse.
  pose proof (tryBlock_fuel text) as H.
  destruct (tryBlock text) as [r|e|]; [left|right|contradiction]; eauto.
Qed.

End Scan.

Lemma orElse_truthy (v : option json) :
  ToBoolean (Some (orElse v (JArray []))) = true.
Proof.
  destruct v as [x|]; [|reflexivity].
  unfold orElse. destruct (ToBoolean (Some x)) eqn:E; [exact E | reflexivity].
Qed.

Lemma tryBlock_Normal (text : jsstring) (r : AnalysisResponse) :
  tryBlock text = Normal r ->
  exists parsed,
    JSON_parse text = Normal parsed /\ parsed <> JNull
    /\ forall k, exists p,
         GetV parsed k = Normal p /\ getField r k = orElse p (JArray []).
Proof.
  unfold tryBlock. destruct (JSON_parse text) as [parsed|e|]; try discriminate.
  simpl. intros H. exists parsed. split; [reflexivity|].
  destruct parsed; simpl in H; try discriminate; injection H as <-;
    (split; [discriminate|]); intros []; eexists; split; reflexivity.
Qed.

(** C2, as stated, fails.  The text
    [{"uxInsights":7,"visualDesign":"text","bestPractices":{"k":1}}] is JSON,
    so the [try] block returns what it read: uxInsights is a number,
    visualDesign a string and bestPractices an object; none of the three is a
    sequence of strings. *)
Lemma three_sequences_counterexample :
  ~ (forall (toLowerCase : jsstring -> jsstring) (text : jsstring),
        exists r,
          parseOpenRouterResponse toLowerCase text = Normal r
          /\ exists a b c,
               uxInsights r = strings a /\ visualDesign r = strings b
               /\ bestPractices r = strings c)
  /\ (forall toLowerCase,
        parseOpenRouterResponse toLowerCase unvalidatedText
        = Normal unvalidatedResult).
Proof.
  assert (E : forall toLowerCase,
             parseOpenRouterResponse toLowerCase unvalidatedText
             = Normal unvalidatedResult)
    by (intros toLowerCase; vm_compute; reflexivity).
  split; [|exact E].
  intros H.
  destruct (H (fun s => s) unvalidatedText) as (r & Hr & a & b & c & Ha & _).
  rewrite E in Hr. injection Hr as <-.
  unfold unvalidatedResult, strings in Ha. cbn [uxInsights] in Ha.
  discriminate Ha.
Qed.

(** C2, amended.  For every text and every lower-casing function,
    [parseOpenRouterResponse] ends normally: no exception reaches the caller
    and the parser's fuel is never spent.  In the result the three fields
    uxInsights, visualDesign and bestPractices are present: each holds a truthy
    value, so none is undefined or null.  When the text is not JSON, or is the
    JSON text of null, all three are arrays of strings.  When the text is JSON
    for another value, each of the four fields is the property of that name
    of the value, taken as it is when it is truthy, and the empty array
    otherwise. *)
Theorem parseOpenRouterResponse_total
  (toLowerCase : jsstring -> jsstring) (text : jsstring) :
  exists r,
    parseOpenRouterResponse toLowerCase text = Normal r
    /\ ToBoolean (Some (uxInsights r)) = true
    /\ ToBoolean (Some (visualDesign r)) = true
    /\ ToBoolean (Some (bestPractices r)) = true
    /\ match JSON_parse text with
       | Normal JNull | Throw _ =>
           exists a b c,
             uxInsights r = strings a /\ visualDesign r = strings b
             /\ bestPractices r = strings c
       | Normal parsed =>
           forall k, exists p,
             GetV parsed k = Normal p /\ getField r k = orElse p (JArray [])
       | OutOfFuel => False
       end.
Proof.
  destruct (parseOpenRouterResponse_cases toLowerCase text)
    as [(r & Ht & ->) | (e & Ht & ->)].
  - exists r. split; [reflexivity|].
    destruct (tryBlock_Normal _ _ Ht) as (parsed & Hp & Hn & Hf).
    destruct (Hf Key_uxInsights) as (p1 & _ & E1).
    destruct (Hf Key_visualDesign) as (p2 & _ & E2).
    destruct (Hf Key_bestPractices) as (p3 & _ & E3).
    simpl in E1, E2, E3. rewrite E1, E2, E3.
    repeat split; try apply orElse_truthy.
    rewrite Hp. destruct parsed; try exact Hf. contradiction.
  - exists (catchBlock toLowerCase text). split; [reflexivity|].
    destruct (catchBlock_stringSections toLowerCase text) as (a & b & c & ->).
    simpl. repeat split.
    unfold tryBlock in Ht.
    destruct (JSON_parse_fuel text) as [[v Ev] | Ev]; rewrite Ev in Ht |- *.
    + destruct v; simpl in Ht; try discriminate Ht.
      exists a, b, c. repeat split.
    + exists a, b, c. repeat split.
Qed.

(** ** Lower-casing of ASCII text *)

Lemma split_isASCII (sep : codeunit) (s : jsstring) :
  isASCII s = true -> Forall (fun l => isASCII l = true) (split sep s).
Proof.
  induction s as [|c r IH]; simpl; intros H.
  - constructor; [reflexivity | constructor].
  - apply andb_true_iff in H as [Hc Hr]. specialize (IH Hr).
    destruct (c =? sep).
    + constructor; [reflexivity | exact IH].
    + destruct (split sep r) as [|l ls].
      * constructor; [simpl; rewrite Hc; reflexivity | constructor].
      * inversion IH; subst. constructor; [|assumption].
        simpl. rewrite Hc. assumption.
Qed.

Lemma linesOf_isASCII (text : jsstring) :
  isASCII text = true -> Forall (fun l => isASCII l = true) (linesOf text).
Proof.
  intros H. unfold linesOf. apply Forall_forall. intros l Hl.
  apply filter_In in Hl as [Hl _].
  pose proof (split_isASCII LF text H) as F.
  rewrite Forall_forall in F. apply F, Hl.
Qed.

Lemma scanLine_ascii (toLowerCase : jsstring -> jsstring)
  (st : key * AnalysisResponse) (line : jsstring) :
  lowersASCII toLowerCase -> isASCII line = true ->
  scanLine toLowerCase st line = scanLine asciiToLowerCase st line.
Proof.
  intros Hl Ha. unfold scanLine. rewrite (Hl line Ha). reflexivity.
Qed.

Lemma fold_scanLine_ascii (toLowerCase : jsstring -> jsstring)
  (lines : list jsstring) (st : key * AnalysisResponse) :
  lowersASCII toLowerCase -> Forall (fun l => isASCII l = true) lines ->
  fold_left (scanLine toLowerCase) lines st
  = fold_left (scanLine asciiToLowerCase) lines st.
Proof.
  intros Hl F. revert st. induction F as [|l ls Ha F IH]; intros st; simpl.
  - reflexivity.
  - rewrite (scanLine_ascii _ _ _ Hl Ha). apply IH.
Qed.

(** On ASCII text the normalizer does not depend on how the host lower-cases
    the rest of Unicode. *)
Lemma parseOpenRouterResponse_ascii (toLowerCase : jsstring -> jsstring)
  (text : jsstring) :
  lowersASCII toLowerCase -> isASCII text = true ->
  parseOpenRouterResponse toLowerCase text
  = parseOpenRouterResponse asciiToLowerCase text.
Proof.
  intros Hl Ha. unfold parseOpenRouterResponse, catchBlock, scanLines.
  rewrite (fold_scanLine_ascii _ _ _ Hl (linesOf_isASCII text Ha)).
  reflexivity.
Qed.

Lemma asciiToLowerCase_lowersASCII : lowersASCII asciiToLowerCase.
Proof. intros s _. reflexivity. Qed.

(** ** The unstructured fallback *)

(** C1. On the example text the numbered line is not stripped of its whole
    marker: the stripping pattern removes one code unit, the digit, and the
    item pushed to bestPractices is ". Add alt text", not "Add alt text".
    The two hyphen items are as the claim says. *)
Theorem numbered_marker_not_stripped (toLowerCase : jsstring -> jsstring) :
  lowersASCII toLowerCase ->
  parseOpenRouterResponse toLowerCase exampleText
  = Normal {| uxInsights := strings [js "Good contrast"; js "Confusing nav"];
              visualDesign := strings [];
              bestPractices := strings [js ". Add alt text"];
              annotations := JArray [] |}
  /\ parseOpenRouterResponse toLowerCase exampleText
     <> Normal {| uxInsights := strings [js "Good contrast"; js "Confusing nav"];
                  visualDesign := strings [];
                  bestPractices := strings [js "Add alt text"];
                  annotations := JArray [] |}.
Proof.
  intros Hl.
  rewrite (parseOpenRouterResponse_ascii _ _ Hl) by reflexivity.
  split; [vm_compute; reflexivity | vm_compute; discriminate].
Qed.

Lemma numbered_marker_not_stripped_witness :
  lowersASCII asciiToLowerCase
  /\ parseOpenRouterResponse asciiToLowerCase exampleText
     = Normal {| uxInsights := strings [js "Good contrast"; js "Confusing nav"];
                 visualDesign := strings [];
                 bestPractices := strings [js ". Add alt text"];
                 annotations := JArray [] |}.
Proof.
  split; [intros s _; reflexivity|].
  apply (numbered_marker_not_stripped asciiToLowerCase).
  intros s _; reflexivity.
Defined.

(** What the stripping pattern does to a line that passed the bullet test:
    a marker of one code unit at the very start of the line goes, with the
    white space after it; of a number only the first digit goes; after leading
    white space nothing goes. *)
Lemma replace_marker_examples :
  trim (replace_marker (js "- Good contrast")) = js "Good contrast"
  /\ trim (replace_marker (BULLET :: js "  Good contrast")) = js "Good contrast"
  /\ trim (replace_marker (js "1. Add alt text")) = js ". Add alt text"
  /\ trim (replace_marker (js "12. Add alt text")) = js "2. Add alt text"
  /\ trim (replace_marker (js "  - Good contrast")) = js "- Good contrast".
Proof. repeat split; vm_compute; reflexivity. Qed.

(** C8. When the [try] block throws and the scan of the lines leaves the three
    arrays empty, the result holds the whole text as the only item of
    uxInsights, and the other arrays are empty; the empty text is such a
    text. *)
Theorem degenerate_fallback (toLowerCase : jsstring -> jsstring)
  (text : jsstring) (e : exn) :
  tryBlock text = Throw e ->
  uxInsights (snd (scanLines toLowerCase (linesOf text))) = JArray [] ->
  visualDesign (snd (scanLines toLowerCase (linesOf text))) = JArray [] ->
  bestPractices (snd (scanLines toLowerCase (linesOf text))) = JArray [] ->
  parseOpenRouterResponse toLowerCase text
  = Normal {| uxInsights := strings [text]; visualDesign := strings [];
              bestPractices := strings []; annotations := JArray [] |}
  /\ parseOpenRouterResponse toLowerCase []
     = Normal {| uxInsights := strings [ [] ]; visualDesign := strings [];
                 bestPractices := strings []; annotations := JArray [] |}.
Proof.
  intros Ht H1 H2 H3. split; [|reflexivity].
  unfold parseOpenRouterResponse. rewrite Ht. f_equal.
  unfold catchBlock.
  destruct (scanLines_inv toLowerCase (linesOf text)) as (a & b & c & E).
  rewrite E in *. simpl in H1, H2, H3.
  cbn [uxInsights visualDesign bestPractices].
  rewrite H1, H2, H3. reflexivity.
Qed.

Lemma degenerate_fallback_witness :
  (tryBlock (js "This design looks fine overall.") = Throw SyntaxError
   /\ snd (scanLines asciiToLowerCase (linesOf (js "This design looks fine overall.")))
      = emptyResponse)
  /\ parseOpenRouterResponse asciiToLowerCase (js "This design looks fine overall.")
     = Normal {| uxInsights := strings [js "This design looks fine overall."];
                 visualDesign := strings []; bestPractices := strings [];
                 annotations := JArray [] |}.
Proof.
  split; [split; vm_compute; reflexivity|].
  apply (degenerate_fallback asciiToLowerCase
           (js "This design looks fine overall.") SyntaxError);
    vm_compute; reflexivity.
Defined.

(** C9. The [catch] block, its line scan and its single-item fallback alike,
    returns an empty annotations array; a result with anything else in
    annotations is the result of the [try] block. *)
Theorem annotations_only_structured (toLowerCase : jsstring -> jsstring)
  (text : jsstring) :
  annotations (snd (scanLines toLowerCase (linesOf text))) = JArray []
  /\ annotations (catchBlock toLowerCase text) = JArray []
  /\ exists r,
       parseOpenRouterResponse toLowerCase text = Normal r
       /\ (annotations r = JArray [] \/ tryBlock text = Normal r).
Proof.
  split; [|split].
  - destruct (scanLines_inv toLowerCase (linesOf text)) as (a & b & c & ->).
    reflexivity.
  - destruct (catchBlock_stringSections toLowerCase text) as (a & b & c & ->).
    reflexivity.
  - destruct (parseOpenRouterResponse_cases toLowerCase text)
      as [(r & Ht & ->) | (e & Ht & ->)].
    + exists r. split; [reflexivity | right; exact Ht].
    + exists (catchBlock toLowerCase text). split; [reflexivity | left].
      destruct (catchBlock_stringSections toLowerCase text) as (a & b & c & ->).
      reflexivity.
Qed.

(** ** The structured path *)



(** C10. When the text parses to a value other than null that is not a record
    with the expected fields, the [try] block ends normally and the result is
    four empty arrays: the single-item fallback of the [catch] block is not
    applied and the text is not kept.  The texts [[]] and [42] are such
    texts. *)
Theorem valid_json_without_fields (toLowerCase : jsstring -> jsstring)
  (text : jsstring) (v : json) :
  JSON_parse text = Normal v -> lacksExpectedFields v ->
  (parseOpenRouterResponse toLowerCase text
   = Normal {| uxInsights := JArray []; visualDesign := JArray [];
               bestPractices := JArray []; annotations := JArray [] |}
   /\ tryBlock text = parseOpenRouterResponse toLowerCase text)
  /\ parseOpenRouterResponse toLowerCase (js "[]") = Normal emptyResponse
  /\ parseOpenRouterResponse toLowerCase (js "42") = Normal emptyResponse.
Proof.
  intros Hp Hv. split; [|split; vm_compute; reflexivity].
  unfold parseOpenRouterResponse, tryBlock. rewrite Hp.
  destruct v; simpl in Hv; try contradiction; try (split; reflexivity).
  cbn [bind GetV]. rewrite !Hv. split; reflexivity.
Qed.

Lemma valid_json_without_fields_witness :
  (JSON_parse (jsq "{'summary':'fine','score':42}")
   = Normal (JObject [ (js "summary", JString (js "fine"));
                       (js "score", JNumber (S754_finite false 5910974510923776 (-47))) ])
   /\ lacksExpectedFields
        (JObject [ (js "summary", JString (js "fine"));
                   (js "score", JNumber (S754_finite false 5910974510923776 (-47))) ]))
  /\ parseOpenRouterResponse asciiToLowerCase
       (jsq "{'summary':'fine','score':42}")
     = Normal emptyResponse.
Proof.
  split; [split; [vm_compute; reflexivity | intros []; reflexivity]|].
  apply (valid_json_without_fields asciiToLowerCase
           (jsq "{'summary':'fine','score':42}")
           (JObject [ (js "summary", JString (js "fine"));
                      (js "score", JNumber (S754_finite false 5910974510923776 (-47))) ])).
  - vm_compute; reflexivity.
  - intros []; reflexivity.
Defined.

(* ================================================================= *)
(** ** Objects keep their properties in key order *)

Lemma keyPrecedes_trans (a b c : jsstring) :
  keyPrecedes a b = true -> keyPrecedes b c = true -> keyPrecedes a c = true.
Proof.
  unfold keyPrecedes.
  destruct (arrayIndex a), (arrayIndex b), (arrayIndex c);
    try discriminate; try reflexivity.
  rewrite !Z.leb_le. lia.
Qed.

Lemma keyPrecedes_total (a b : jsstring) :
  keyPrecedes a b = false -> keyPrecedes b a = true.
Proof.
  unfold keyPrecedes.
  destruct (arrayIndex a), (arrayIndex b); try discriminate; try reflexivity.
  rewrite Z.leb_le, Z.leb_gt. lia.
Qed.

Lemma lookup_None (k : jsstring) (props : list (jsstring * json)) :
  lookup k props = None <-> ~ In k (map fst props).
Proof.
  induction props as [|[k' v'] r IH]; simpl; [tauto|].
  destruct (jsstring_eqb k k') eqn:E.
  - apply jsstring_eqb_spec in E. subst. split; [discriminate | tauto].
  - rewrite IH. split; [|tauto].
    intros H [C | C]; [|tauto].
    subst. rewrite jsstring_eqb_refl in E. discriminate.
Qed.

Lemma lookup_In (k : jsstring) (v : json) (props : list (jsstring * json)) :
  lookup k props = Some v -> In v (map snd props).
Proof.
  induction props as [|[k' v'] r IH]; simpl; [discriminate|].
  destruct (jsstring_eqb k k'); [intros H; injection H; auto | auto].
Qed.

Lemma updateProp_keys (k : jsstring) (v : json) (props : list (jsstring * json)) :
  map fst (updateProp k v props) = map fst props.
Proof.
  induction props as [|[k' v'] r IH]; simpl; [reflexivity|].
  destruct (jsstring_eqb k k'); simpl; [reflexivity | rewrite IH; reflexivity].
Qed.

Lemma updateProp_values (P : json -> Prop) (k : jsstring) (v : json)
  (props : list (jsstring * json)) :
  P v -> Forall P (map snd props) -> Forall P (map snd (updateProp k v props)).
Proof.
  intros Hv. induction props as [|[k' v'] r IH]; simpl; intros F;
    [constructor|].
  inversion F; subst.
  destruct (jsstring_eqb k k'); simpl; constructor; auto.
Qed.

Lemma addProp_In (k x : jsstring) (v : json) (props : list (jsstring * json)) :
  In x (map fst (addProp k v props)) <-> x = k \/ In x (map fst props).
Proof.
  induction props as [|[k' v'] r IH]; simpl.
  - intuition congruence.
  - destruct (keyPrecedes k' k); simpl; [rewrite IH|]; intuition congruence.
Qed.

Lemma addProp_values (P : json -> Prop) (k : jsstring) (v : json)
  (props : list (jsstring * json)) :
  P v -> Forall P (map snd props) -> Forall P (map snd (addProp k v props)).
Proof.
  intros Hv. induction props as [|[k' v'] r IH]; simpl; intros F.
  - constructor; [exact Hv | constructor].
  - inversion F; subst.
    destruct (keyPrecedes k' k); simpl; constructor; auto.
Qed.

Lemma addProp_ordered (k : jsstring) (v : json) (props : list (jsstring * json)) :
  ~ In k (map fst props) -> orderedKeys (map fst props) ->
  orderedKeys (map fst (addProp k v props)).
Proof.
  induction props as [|[k' v'] r IH]; simpl; intros Hk [Hnd Hs].
  - split; repeat constructor. intros [].
  - apply NoDup_cons_iff in Hnd as [Hk' Hnd].
    apply StronglySorted_inv in Hs as [Hs Hall].
    destruct (keyPrecedes k' k) eqn:E; simpl.
    + destruct IH as [Hnd' Hs']; [tauto | split; assumption |].
      split.
      * apply NoDup_cons; [|exact Hnd'].
        rewrite addProp_In. intros [C | C]; [subst; tauto | tauto].
      * apply SSorted_cons; [exact Hs'|].
        apply Forall_forall. intros x Hx. apply addProp_In in Hx as [-> | Hx];
          [exact E|].
        rewrite Forall_forall in Hall. apply Hall, Hx.
    + split.
      * apply NoDup_cons; [simpl; tauto|].
        apply NoDup_cons; assumption.
      * apply keyPrecedes_total in E.
        apply SSorted_cons; [apply SSorted_cons; assumption|].
        constructor; [exact E|].
        apply Forall_forall. intros x Hx.
        rewrite Forall_forall in Hall.
        apply (keyPrecedes_trans _ _ _ E), Hall, Hx.
Qed.

Lemma CreateDataProperty_ordered (props : list (jsstring * json))
  (kv : jsstring * json) :
  orderedKeys (map fst props) ->
  orderedKeys (map fst (CreateDataProperty props kv)).
Proof.
  destruct kv as [k v]. unfold CreateDataProperty. intros H.
  destruct (lookup k props) eqn:E.
  - rewrite updateProp_keys. exact H.
  - apply addProp_ordered; [apply lookup_None, E | exact H].
Qed.

Lemma CreateDataProperty_values (P : json -> Prop)
  (props : list (jsstring * json)) (kv : jsstring * json) :
  P (snd kv) -> Forall P (map snd props) ->
  Forall P (map snd (CreateDataProperty props kv)).
Proof.
  destruct kv as [k v]. unfold CreateDataProperty. simpl. intros Hv F.
  destruct (lookup k props);
    [apply updateProp_values | apply addProp_values]; assumption.
Qed.

Lemma fold_CreateDataProperty_inv (P : json -> Prop)
  (ms acc : list (jsstring * json)) :
  Forall P (map snd ms) ->
  orderedKeys (map fst acc) -> Forall P (map snd acc) ->
  orderedKeys (map fst (fold_left CreateDataProperty ms acc))
  /\ Forall P (map snd (fold_left CreateDataProperty ms acc)).
Proof.
  revert acc. induction ms as [|kv ms IH]; simpl; intros acc Fm Ho Fa.
  - split; assumption.
  - inversion Fm; subst. apply IH; [assumption | |].
    + apply CreateDataProperty_ordered, Ho.
    + apply CreateDataProperty_values; assumption.
Qed.

Lemma objectOfMembers_inv (P : json -> Prop) (ms : list (jsstring * json)) :
  Forall P (map snd ms) ->
  orderedKeys (map fst (objectOfMembers ms))
  /\ Forall P (map snd (objectOfMembers ms)).
Proof.
  intros F. apply fold_CreateDataProperty_inv; [exact F | | constructor].
  split; constructor.
Qed.

(** A new key that every present key precedes goes to the end. *)
Lemma addProp_last (k : jsstring) (v : json) (props : list (jsstring * json)) :
  Forall (fun k' => keyPrecedes k' k = true) (map fst props) ->
  addProp k v props = props ++ [(k, v)].
Proof.
  induction props as [|[k' v'] r IH]; simpl; intros F; [reflexivity|].
  inversion F; subst. rewrite H1, IH by assumption. reflexivity.
Qed.

Lemma orderedKeys_app_inv (l1 l2 : list jsstring) :
  orderedKeys (l1 ++ l2) ->
  orderedKeys l1
  /\ forall a b, In a l1 -> In b l2 -> a <> b /\ keyPrecedes a b = true.
Proof.
  induction l1 as [|x l1 IH]; simpl; intros [Hnd Hs].
  - split; [split; constructor | intros a b []].
  - apply NoDup_cons_iff in Hnd as [Hx Hnd].
    apply StronglySorted_inv in Hs as [Hs Hall].
    destruct IH as [[Hnd1 Hs1] Hcross]; [split; assumption|].
    rewrite Forall_forall in Hall.
    split; [split|].
    + apply NoDup_cons; [|exact Hnd1]. intros C. apply Hx, in_or_app; auto.
    + apply SSorted_cons; [exact Hs1|].
      apply Forall_forall. intros y Hy. apply Hall, in_or_app; auto.
    + intros a b [<- | Ha] Hb; [|apply Hcross; assumption].
      split; [|apply Hall, in_or_app; auto].
      intros ->. apply Hx, in_or_app; auto.
Qed.

(** Building an object from properties that are already in key order gives
    the same properties. *)
Lemma fold_CreateDataProperty_ordered (ms acc : list (jsstring * json)) :
  orderedKeys (map fst (acc ++ ms)) ->
  fold_left CreateDataProperty ms acc = acc ++ ms.
Proof.
  revert acc. induction ms as [|[k v] ms IH]; intros acc H; cbn [fold_left].
  - rewrite app_nil_r. reflexivity.
  - assert (E : CreateDataProperty acc (k, v) = acc ++ [(k, v)]).
    { rewrite map_app in H. apply orderedKeys_app_inv in H as [_ Hc].
      unfold CreateDataProperty.
      assert (Hn : ~ In k (map fst acc)).
      { intros C. destruct (Hc k k C); [left; reflexivity | contradiction]. }
      apply lookup_None in Hn. rewrite Hn.
      apply addProp_last, Forall_forall. intros k' Hk'.
      apply (Hc k' k Hk'). left; reflexivity. }
    rewrite E, IH; rewrite <- app_assoc; [reflexivity | exact H].
Qed.

Lemma objectOfMembers_ordered (props : list (jsstring * json)) :
  orderedKeys (map fst props) -> objectOfMembers props = props.
Proof.
  intros H. unfold objectOfMembers.
  rewrite fold_CreateDataProperty_ordered; [reflexivity | exact H].
Qed.

(* ================================================================= *)
(** ** Parsed values are in canonical form *)

(** Induction on JSON values, through arrays and objects. *)
Fixpoint json_induction (P : json -> Prop)
  (Hnull : P JNull) (Hbool : forall b, P (JBool b))
  (Hnum : forall x, P (JNumber x)) (Hstr : forall s, P (JString s))
  (Harr : forall items, Forall P items -> P (JArray items))
  (Hobj : forall props, Forall P (map snd props) -> P (JObject props))
  (v : json) {struct v} : P v :=
  match v with
  | JNull => Hnull
  | JBool b => Hbool b
  | JNumber x => Hnum x
  | JString s => Hstr s
  | JArray items =>
      Harr items
        ((fix go (l : list json) : Forall P l :=
            match l with
            | [] => Forall_nil P
            | x :: r =>
                Forall_cons x
                  (json_induction P Hnull Hbool Hnum Hstr Harr Hobj x) (go r)
            end) items)
  | JObject props =>
      Hobj props
        ((fix go (l : list (jsstring * json)) : Forall P (map snd l) :=
            match l with
            | [] => Forall_nil P
            | (k, x) :: r =>
                Forall_cons x
                  (json_induction P Hnull Hbool Hnum Hstr Harr Hobj x) (go r)
            end) props)
  end.

Ltac break_match H :=
  match type of H with
  | context [match ?x with _ => _ end] => destruct x eqn:?
  | context [if ?b then _ else _] => destruct b eqn:?
  end; try discriminate H.

Lemma parse_canonical (fuel : nat) :
  (forall s v r, parseValue fuel s = POk v r -> canonical v)
  /\ (forall s vs r, parseElements fuel s = POk vs r -> Forall canonical vs)
  /\ (forall s ms r, parseMembers fuel s = POk ms r ->
                     Forall canonical (map snd ms)).
Proof.
  induction fuel as [|fuel (IHv & IHe & IHm)].
  { repeat split; intros; discriminate. }
  split; [|split].
  - intros s v r H. simpl in H.
    destruct (skipWS s) as [|c t]; [discriminate|].
    destruct (c =? 123).
    { destruct (skipWS t) as [|c' t']; [discriminate|].
      destruct (c' =? 125).
      { injection H as <- _. constructor; [split; constructor | constructor]. }
      destruct (parseMembers fuel (c' :: t')) as [ms rest| |] eqn:Em;
        try discriminate.
      injection H as <- _. apply IHm in Em.
      destruct (objectOfMembers_inv canonical ms Em). constructor; assumption. }
    destruct (c =? 91).
    { destruct (skipWS t) as [|c' t']; [discriminate|].
      destruct (c' =? 93).
      { injection H as <- _. constructor. constructor. }
      destruct (parseElements fuel (c' :: t')) as [vs rest| |] eqn:Ee;
        try discriminate.
      injection H as <- _. constructor. eapply IHe, Ee. }
    repeat break_match H; injection H as <- _; constructor.
  - intros s vs r H. simpl in H.
    destruct (parseValue fuel s) as [v rest| |] eqn:Ev; try discriminate.
    apply IHv in Ev.
    destruct (skipWS rest) as [|c t]; [discriminate|].
    destruct (c =? 44).
    { destruct (parseElements fuel t) as [vs' rest'| |] eqn:Ee;
        try discriminate.
      injection H as <- _. constructor; [exact Ev | eapply IHe, Ee]. }
    destruct (c =? 93); [|discriminate].
    injection H as <- _. constructor; [exact Ev | constructor].
  - intros s ms r H. simpl in H.
    destruct (skipWS s) as [|q s1]; [discriminate|].
    destruct (q =? 34); [|discriminate].
    destruct (parseChars s1) as [[k s2]|]; [|discriminate].
    destruct (skipWS s2) as [|colon s3]; [discriminate|].
    destruct (colon =? 58); [|discriminate].
    destruct (parseValue fuel s3) as [v rest| |] eqn:Ev; try discriminate.
    apply IHv in Ev.
    destruct (skipWS rest) as [|c t]; [discriminate|].
    destruct (c =? 44).
    { destruct (parseMembers fuel t) as [ms' rest'| |] eqn:Em;
        try discriminate.
      injection H as <- _. simpl. constructor; [exact Ev | eapply IHm, Em]. }
    destruct (c =? 125); [|discriminate].
    injection H as <- _. simpl. constructor; [exact Ev | constructor].
Qed.

Lemma JSON_parse_canonical (text : jsstring) (v : json) :
  JSON_parse text = Normal v -> canonical v.
Proof.
  unfold JSON_parse.
  destruct (parseValue (2 * length text + 1) text) as [v' rest| |] eqn:E;
    try discriminate.
  destruct (skipWS rest); [|discriminate].
  intros H; injection H as <-.
  destruct (parse_canonical (2 * length text + 1)) as [Hv _].
  eapply Hv, E.
Qed.

Lemma orElse_canonical (p : option json) :
  (forall x, p = Some x -> canonical x) -> canonical (orElse p (JArray [])).
Proof.
  intros H. destruct p as [x|]; unfold orElse; [|constructor; constructor].
  destruct (ToBoolean (Some x)); [apply H; reflexivity|].
  constructor; constructor.
Qed.

Lemma GetV_canonical (v : json) (k : key) (p : option json) (x : json) :
  canonical v -> GetV v k = Normal p -> p = Some x -> canonical x.
Proof.
  intros Hc Hg ->. destruct v; simpl in Hg; try discriminate.
  injection Hg as Hg. apply lookup_In in Hg.
  inversion Hc as [ | | | | |props' Ho Hall]; subst.
  rewrite Forall_forall in Hall. apply Hall, Hg.
Qed.

Lemma strings_canonical (l : list jsstring) : canonical (strings l).
Proof.
  constructor. apply Forall_forall. intros x Hx.
  apply in_map_iff in Hx as (s & <- & _). constructor.
Qed.

(** Every field of a result of the normalizer is a truthy value in canonical
    form. *)
Lemma result_fields (toLowerCase : jsstring -> jsstring)
  (text : jsstring) (r : AnalysisResponse) (k : key) :
  parseOpenRouterResponse toLowerCase text = Normal r ->
  canonical (getField r k) /\ ToBoolean (Some (getField r k)) = true.
Proof.
  intros H.
  destruct (parseOpenRouterResponse_cases toLowerCase text)
    as [(r' & Ht & E) | (e & Ht & E)]; rewrite E in H; injection H as <-.
  - destruct (tryBlock_Normal _ _ Ht) as (parsed & Hp & _ & Hf).
    destruct (Hf k) as (p & Hg & ->).
    split; [|apply orElse_truthy].
    apply orElse_canonical. intros x Hx.
    eapply GetV_canonical; eauto using JSON_parse_canonical.
  - destruct (catchBlock_stringSections toLowerCase text) as (a & b & c & ->).
    destruct k; simpl; split; try reflexivity; try apply strings_canonical.
    constructor; constructor.
Qed.

(* ================================================================= *)
(** ** Reading back a quoted string *)

Lemma hexValue_hexDigit (n : N) : n < 16 -> hexValue (hexDigit n) = Some n.
Proof.
  intros H. destruct n as [|p]; [reflexivity|].
  do 4 (destruct p as [p|p|]; try reflexivity); lia.
Qed.

Lemma hex4_digits (c : codeunit) :
  c < 65536 ->
  hex4 (hexDigit (c / 4096)) (hexDigit ((c / 256) mod 16))
       (hexDigit ((c / 16) mod 16)) (hexDigit (c mod 16)) = Some c.
Proof.
  intros H. unfold hex4.
  rewrite !hexValue_hexDigit;
    try (apply N.mod_lt; discriminate);
    try (apply N.Div0.div_lt_upper_bound; exact H).
  f_equal. zify. Z.to_euclidean_division_equations. lia.
Qed.

Lemma parseChars_plain (c : codeunit) (r : jsstring) :
  (c =? 34) = false -> (c =? 92) = false -> (c <? 32) = false ->
  parseChars (c :: r) = consChar c (parseChars r).
Proof. intros H1 H2 H3. simpl. rewrite H1, H2, H3. reflexivity. Qed.

Lemma parseChars_quoteUnit (c : codeunit) (r : jsstring) :
  parseChars (quoteUnit c ++ r) = consChar c (parseChars r).
Proof.
  unfold quoteUnit.
  destruct (c =? 8) eqn:E8; [apply N.eqb_eq in E8; subst; reflexivity|].
  destruct (c =? 9) eqn:E9; [apply N.eqb_eq in E9; subst; reflexivity|].
  destruct (c =? 10) eqn:E10; [apply N.eqb_eq in E10; subst; reflexivity|].
  destruct (c =? 12) eqn:E12; [apply N.eqb_eq in E12; subst; reflexivity|].
  destruct (c =? 13) eqn:E13; [apply N.eqb_eq in E13; subst; reflexivity|].
  destruct (c =? 34) eqn:E34; [apply N.eqb_eq in E34; subst; reflexivity|].
  destruct (c =? 92) eqn:E92; [apply N.eqb_eq in E92; subst; reflexivity|].
  destruct ((c <? 32) || isLeadingSurrogate c || isTrailingSurrogate c) eqn:E.
  - assert (Hc : c < 65536).
    { unfold isLeadingSurrogate, isTrailingSurrogate in E.
      apply orb_true_iff in E as [E | E];
        [apply orb_true_iff in E as [E | E]|].
      - apply N.ltb_lt in E. lia.
      - apply andb_true_iff in E as [_ E]. apply N.leb_le in E. lia.
      - apply andb_true_iff in E as [_ E]. apply N.leb_le in E. lia. }
    unfold UnicodeEscape.
    change (parseChars ([92; 117; hexDigit (c / 4096);
                         hexDigit ((c / 256) mod 16);
                         hexDigit ((c / 16) mod 16); hexDigit (c mod 16)] ++ r))
      with (match hex4 (hexDigit (c / 4096)) (hexDigit ((c / 256) mod 16))
                       (hexDigit ((c / 16) mod 16)) (hexDigit (c mod 16)) with
            | Some u => consChar u (parseChars r)
            | None => None
            end).
    rewrite (hex4_digits c Hc). reflexivity.
  - apply orb_false_iff in E as [E _]. apply orb_false_iff in E as [E _].
    apply parseChars_plain; assumption.
Qed.

Lemma quoteChars_cons (c : codeunit) (r : jsstring) :
  quoteChars (c :: r) =
    match r with
    | d :: r' =>
        if isLeadingSurrogate c && isTrailingSurrogate d
        then c :: d :: quoteChars r'
        else quoteUnit c ++ quoteChars r
    | [] => quoteUnit c ++ quoteChars r
    end.
Proof. destruct r; simpl; [rewrite app_nil_r|]; reflexivity. Qed.

Lemma surrogate_plain (c : codeunit) :
  isLeadingSurrogate c = true \/ isTrailingSurrogate c = true ->
  (c =? 34) = false /\ (c =? 92) = false /\ (c <? 32) = false.
Proof.
  unfold isLeadingSurrogate, isTrailingSurrogate.
  intros [H | H]; apply andb_true_iff in H as [H _]; apply N.leb_le in H;
    repeat split; try (apply N.eqb_neq; lia); apply N.ltb_ge; lia.
Qed.

(** The characters written for a string, followed by the closing quote, read
    back as the string. *)
Lemma parseChars_quoteChars (s rest : jsstring) :
  parseChars (quoteChars s ++ 34 :: rest) = Some (s, rest).
Proof.
  remember (length s) as n eqn:En. revert s En.
  induction n as [n IH] using lt_wf_ind; intros s En.
  destruct s as [|c r]; [reflexivity|].
  rewrite quoteChars_cons.
  destruct r as [|d r'].
  - rewrite <- app_assoc, parseChars_quoteUnit. reflexivity.
  - destruct (isLeadingSurrogate c && isTrailingSurrogate d) eqn:Ep.
    + apply andb_true_iff in Ep as [Hc Hd].
      destruct (surrogate_plain c (or_introl Hc)) as (C1 & C2 & C3).
      destruct (surrogate_plain d (or_intror Hd)) as (D1 & D2 & D3).
      cbn [app]. rewrite (parseChars_plain c), (parseChars_plain d) by assumption.
      rewrite (IH (length r')); [reflexivity | simpl in En; lia | reflexivity].
    + rewrite <- app_assoc, parseChars_quoteUnit.
      rewrite (IH (length (d :: r'))); [reflexivity | simpl in *; lia | reflexivity].
Qed.

(* ================================================================= *)
(** ** Number literals *)

Lemma takeWhile_dropWhile (p : codeunit -> bool) (s : jsstring) :
  takeWhile p s ++ dropWhile p s = s.
Proof.
  induction s as [|c r IH]; simpl; [reflexivity|].
  destruct (p c); simpl; [rewrite IH|]; reflexivity.
Qed.

Lemma takeWhile_all (p : codeunit -> bool) (s : jsstring) :
  forallb p (takeWhile p s) = true.
Proof.
  induction s as [|c r IH]; simpl; [reflexivity|].
  destruct (p c) eqn:E; simpl; [rewrite E, IH|]; reflexivity.
Qed.

Lemma takeWhile_app (p : codeunit -> bool) (l rest : jsstring) :
  forallb p l = true ->
  match rest with [] => True | c :: _ => p c = false end ->
  takeWhile p (l ++ rest) = l /\ dropWhile p (l ++ rest) = rest.
Proof.
  intros Hl Hr. induction l as [|c l IH]; simpl.
  - destruct rest as [|c r]; [split; reflexivity|].
    simpl. rewrite Hr. split; reflexivity.
  - simpl in Hl. apply andb_true_iff in Hl as [Hc Hl]. rewrite Hc.
    destruct (IH Hl) as [-> ->]. split; reflexivity.
Qed.

Lemma startsWith_one (s : jsstring) (c : codeunit) :
  startsWith s [c] = true -> s = c :: tl s.
Proof.
  destruct s as [|d r]; simpl; [discriminate|].
  rewrite andb_true_r, N.eqb_eq. intros ->. reflexivity.
Qed.

Lemma digits_numberChars (l : jsstring) :
  forallb isDigit l = true -> forallb isNumberChar l = true.
Proof.
  induction l as [|c l IH]; simpl; [reflexivity|].
  intros H. apply andb_true_iff in H as [Hc Hl].
  unfold isNumberChar at 1. rewrite Hc, (IH Hl). reflexivity.
Qed.

Lemma numberChars_start (s : jsstring) (c : codeunit) :
  startsWith s [c] = true -> isNumberChar c = true ->
  forallb isNumberChar (tl s) = true -> forallb isNumberChar s = true.
Proof.
  intros Hs Hc Ht. rewrite (startsWith_one _ _ Hs). simpl.
  rewrite Hc. exact Ht.
Qed.

Lemma numberChars_digits_then (s : jsstring) :
  forallb isNumberChar (dropWhile isDigit s) = true ->
  forallb isNumberChar s = true.
Proof.
  intros H. rewrite <- (takeWhile_dropWhile isDigit s), forallb_app, H.
  rewrite digits_numberChars; [reflexivity | apply takeWhile_all].
Qed.

(** A text accepted as a number literal starts with a digit or a minus sign
    and is made of number characters only. *)
Lemma numberOfLiteral_chars (lit : jsstring) (x : number) :
  numberOfLiteral lit = Some x ->
  forallb isNumberChar lit = true
  /\ exists c r, lit = c :: r /\ isDigit c || (c =? 45) = true.
Proof.
  unfold numberOfLiteral.
  set (neg := startsWith lit [45]).
  set (s1 := if neg then tl lit else lit).
  set (ip := takeWhile isDigit s1).
  set (s2 := dropWhile isDigit s1).
  set (hasFrac := startsWith s2 [46]).
  set (fp := if hasFrac then takeWhile isDigit (tl s2) else []).
  set (s3 := if hasFrac then dropWhile isDigit (tl s2) else s2).
  set (hasExp := startsWith s3 [101] || startsWith s3 [69]).
  set (s4 := if hasExp then tl s3 else s3).
  set (eneg := startsWith s4 [45]).
  set (s5 := if hasExp && (eneg || startsWith s4 [43]) then tl s4 else s4).
  set (ep := if hasExp then takeWhile isDigit s5 else []).
  set (s6 := if hasExp then dropWhile isDigit s5 else s5).
  destruct (nonEmpty ip
            && (negb (startsWith ip [48]) || negb (nonEmpty (tl ip)))
            && (negb hasFrac || nonEmpty fp) && (negb hasExp || nonEmpty ep)
            && negb (nonEmpty s6)) eqn:E; [|discriminate].
  intros _.
  apply andb_true_iff in E as [E E6].
  apply andb_true_iff in E as [E _]. apply andb_true_iff in E as [E _].
  apply andb_true_iff in E as [Eip _].
  assert (A6 : forallb isNumberChar s6 = true).
  { destruct s6; [reflexivity | discriminate E6]. }
  assert (A5 : forallb isNumberChar s5 = true).
  { subst s6. destruct hasExp; [apply numberChars_digits_then|]; exact A6. }
  assert (A4 : forallb isNumberChar s4 = true).
  { subst s5. destruct hasExp; cbn [orb andb] in A5; [|exact A5].
    subst eneg. destruct (startsWith s4 [45]) eqn:Em; cbn [orb andb] in A5.
    - apply (numberChars_start _ _ Em); [reflexivity | exact A5].
    - destruct (startsWith s4 [43]) eqn:Ep; [|exact A5].
      apply (numberChars_start _ _ Ep); [reflexivity | exact A5]. }
  assert (A3 : forallb isNumberChar s3 = true).
  { subst s4 hasExp. destruct (startsWith s3 [101]) eqn:Ee; cbn [orb andb] in A4.
    - apply (numberChars_start _ _ Ee); [reflexivity | exact A4].
    - destruct (startsWith s3 [69]) eqn:EE; [|exact A4].
      apply (numberChars_start _ _ EE); [reflexivity | exact A4]. }
  assert (A2 : forallb isNumberChar s2 = true).
  { subst s3 hasFrac. destruct (startsWith s2 [46]) eqn:Ef; [|exact A3].
    apply (numberChars_start _ _ Ef); [reflexivity|].
    apply numberChars_digits_then, A3. }
  assert (A1 : forallb isNumberChar s1 = true).
  { apply numberChars_digits_then, A2. }
  assert (H1 : exists c r, s1 = c :: r /\ isDigit c = true).
  { subst ip. destruct s1 as [|c r]; [discriminate Eip|].
    simpl in Eip. destruct (isDigit c) eqn:Ec; [|discriminate Eip]. eauto. }
  subst s1 neg. destruct (startsWith lit [45]) eqn:En.
  - split; [apply (numberChars_start _ _ En); [reflexivity | exact A1]|].
    rewrite (startsWith_one _ _ En). eauto.
  - split; [exact A1|]. destruct H1 as (c & r & -> & Hc).
    exists c, r. rewrite Hc. split; reflexivity.
Qed.

(* ================================================================= *)
(** ** Reading back a serialized value *)

Lemma number_eqb_eq (x y : number) : number_eqb x y = true -> x = y.
Proof.
  destruct x, y; simpl; try discriminate; try reflexivity.
  - intros H. apply Bool.eqb_prop in H. congruence.
  - intros H. apply Bool.eqb_prop in H. congruence.
  - intros H. apply andb_true_iff in H as [H He].
    apply andb_true_iff in H as [Hs Hm].
    apply Bool.eqb_prop in Hs. apply Pos.eqb_eq in Hm. apply Z.eqb_eq in He.
    congruence.
Qed.

Lemma survives_literal (nts : number -> jsstring) (x : number) :
  survives nts x = true -> numberOfLiteral (serializeNumber nts x) = Some x.
Proof.
  unfold survives. destruct (numberOfLiteral _) as [y|]; [|discriminate].
  intros H. apply number_eqb_eq in H. congruence.
Qed.

Lemma parseValue_array (fuel : nat) (r : jsstring) :
  parseValue (S fuel) (91 :: r) =
    match skipWS r with
    | c' :: r' =>
        if c' =? 93 then POk (JArray []) r'
        else match parseElements fuel (c' :: r') with
             | POk vs rest => POk (JArray vs) rest
             | PSyntaxError => PSyntaxError
             | POutOfFuel => POutOfFuel
             end
    | [] => PSyntaxError
    end.
Proof. reflexivity. Qed.

Lemma parseValue_object (fuel : nat) (r : jsstring) :
  parseValue (S fuel) (123 :: r) =
    match skipWS r with
    | c' :: r' =>
        if c' =? 125 then POk (JObject []) r'
        else match parseMembers fuel (c' :: r') with
             | POk ms rest => POk (JObject (objectOfMembers ms)) rest
             | PSyntaxError => PSyntaxError
             | POutOfFuel => POutOfFuel
             end
    | [] => PSyntaxError
    end.
Proof. reflexivity. Qed.

Lemma parseValue_string (fuel : nat) (r : jsstring) :
  parseValue (S fuel) (34 :: r) =
    match parseChars r with
    | Some (str, rest) => POk (JString str) rest
    | None => PSyntaxError
    end.
Proof. reflexivity. Qed.

Lemma number_start (c : codeunit) :
  isDigit c || (c =? 45) = true ->
  isJSONWhiteSpace c = false /\ (c =? 123) = false /\ (c =? 91) = false
  /\ (c =? 34) = false /\ (c =? 93) = false /\ (c =? 125) = false.
Proof.
  intros H.
  assert (R : 48 <= c <= 57 \/ c = 45).
  { apply orb_true_iff in H as [H | H].
    - unfold isDigit in H. apply andb_true_iff in H as [H1 H2].
      apply N.leb_le in H1, H2. lia.
    - apply N.eqb_eq in H. lia. }
  unfold isJSONWhiteSpace.
  repeat split; repeat (apply orb_false_iff; split); apply N.eqb_neq; lia.
Qed.

Lemma parseValue_number (fuel : nat) (c : codeunit) (r : jsstring) :
  isDigit c || (c =? 45) = true ->
  parseValue (S fuel) (c :: r) =
    match numberOfLiteral (takeWhile isNumberChar (c :: r)) with
    | Some x => POk (JNumber x) (dropWhile isNumberChar (c :: r))
    | None => PSyntaxError
    end.
Proof.
  intros H. destruct (number_start c H) as (Hw & H1 & H2 & H3 & _).
  cbn [parseValue]. unfold skipWS. cbn [dropWhile].
  rewrite Hw, H1, H2, H3, H. reflexivity.
Qed.

Lemma parseElements_S (fuel : nat) (s : jsstring) :
  parseElements (S fuel) s =
    match parseValue fuel s with
    | POk v rest =>
        match skipWS rest with
        | c :: r =>
            if c =? 44 then
              match parseElements fuel r with
              | POk vs rest' => POk (v :: vs) rest'
              | PSyntaxError => PSyntaxError
              | POutOfFuel => POutOfFuel
              end
            else if c =? 93 then POk [v] r
            else PSyntaxError
        | [] => PSyntaxError
        end
    | PSyntaxError => PSyntaxError
    | POutOfFuel => POutOfFuel
    end.
Proof. reflexivity. Qed.

Lemma parseMembers_quote (fuel : nat) (s1 : jsstring) :
  parseMembers (S fuel) (34 :: s1) =
    match parseChars s1 with
    | Some (k, s2) =>
        match skipWS s2 with
        | colon :: s3 =>
            if colon =? 58 then
              match parseValue fuel s3 with
              | POk v rest =>
                  match skipWS rest with
                  | c :: r =>
                      if c =? 44 then
                        match parseMembers fuel r with
                        | POk ms rest' => POk ((k, v) :: ms) rest'
                        | PSyntaxError => PSyntaxError
                        | POutOfFuel => POutOfFuel
                        end
                      else if c =? 125 then POk [(k, v)] r
                      else PSyntaxError
                  | [] => PSyntaxError
                  end
              | PSyntaxError => PSyntaxError
              | POutOfFuel => POutOfFuel
              end
            else PSyntaxError
        | [] => PSyntaxError
        end
    | None => PSyntaxError
    end.
Proof. reflexivity. Qed.

(** Arithmetic on lengths, from the hypotheses that bound them. *)
Ltac length_lia :=
  repeat match goal with
         | H : ?T |- _ =>
             lazymatch T with
             | (_ <= _)%nat => fail
             | (_ < _)%nat => fail
             | _ => clear H
             end
         end;
  lia.

Lemma joinComma_cons (p q : jsstring) (l : list jsstring) :
  joinComma (p :: q :: l) = p ++ 44 :: joinComma (q :: l).
Proof. reflexivity. Qed.

Section RoundTrip.
Variable Number_toString : number -> jsstring.

Local Abbreviation stringify := (JSON_stringify Number_toString).
Local Abbreviation readsBack := (readsBack Number_toString).
Local Abbreviation memberText := (memberText Number_toString).

Lemma stringify_head (v : json) :
  numbersSurvive Number_toString v = true ->
  exists c r, stringify v = c :: r
              /\ isJSONWhiteSpace c = false /\ (c =? 93) = false.
Proof.
  destruct v as [|b|x|s|items|props]; intros H.
  - exists 110, (js "ull"). repeat split.
  - destruct b; [exists 116, (js "rue") | exists 102, (js "alse")];
      repeat split.
  - simpl in H. apply survives_literal, numberOfLiteral_chars in H
      as (_ & c & r & E & Hc).
    destruct (number_start c Hc) as (Hw & _ & _ & _ & H93 & _).
    exists c, r. simpl. rewrite E. repeat split; assumption.
  - eexists 34, _. repeat split.
  - eexists 91, _. repeat split.
  - eexists 123, _. repeat split.
Qed.

Lemma parseElements_stringify (items : list json) :
  items <> [] -> Forall readsBack items -> Forall canonical items ->
  forallb (numbersSurvive Number_toString) items = true ->
  forall rest fuel,
    (length (joinComma (map stringify items)) + 1 <= fuel)%nat ->
    parseElements fuel (joinComma (map stringify items) ++ 93 :: rest)
    = POk items rest.
Proof.
  induction items as [|v vs IH]; [congruence|].
  intros _ HP HC HN rest fuel Hf.
  inversion HP as [|? ? Pv Pvs]; subst. inversion HC as [|? ? Cv Cvs]; subst.
  cbn [forallb] in HN. apply andb_true_iff in HN as [Nv Nvs].
  destruct fuel as [|fuel]; [length_lia|].
  rewrite parseElements_S.
  destruct vs as [|v' vs'].
  - cbn [map joinComma] in *.
    rewrite (Pv Cv Nv (93 :: rest) fuel); [reflexivity | reflexivity | length_lia].
  - cbn [map] in Hf, IH |- *. rewrite joinComma_cons in Hf |- *.
    rewrite length_app in Hf. cbn [length] in Hf.
    rewrite <- app_assoc. cbn [app].
    rewrite (Pv Cv Nv); [|reflexivity | length_lia].
    cbn [skipWS dropWhile isJSONWhiteSpace N.eqb Pos.eqb orb].
    change (44 =? 44) with true. cbv iota.
    rewrite IH; [reflexivity | discriminate | assumption | assumption
                 | assumption | length_lia].
Qed.

Lemma parseMembers_stringify (props : list (jsstring * json)) :
  props <> [] -> Forall readsBack (map snd props) ->
  Forall canonical (map snd props) ->
  forallb (fun kv => numbersSurvive Number_toString (snd kv)) props = true ->
  forall rest fuel,
    (length (joinComma (map memberText props)) + 1 <= fuel)%nat ->
    parseMembers fuel (joinComma (map memberText props) ++ 125 :: rest)
    = POk props rest.
Proof.
  induction props as [|[k v] ps IH]; [congruence|].
  intros _ HP HC HN rest fuel Hf.
  cbn [map snd] in HP, HC.
  inversion HP as [|? ? Pv Pvs]; subst. inversion HC as [|? ? Cv Cvs]; subst.
  cbn [forallb snd] in HN. apply andb_true_iff in HN as [Nv Nvs].
  destruct fuel as [|fuel]; [length_lia|].
  assert (Em : forall X,
            memberText (k, v) ++ X
            = 34 :: quoteChars k ++ 34 :: 58 :: stringify v ++ X).
  { intros X. unfold memberText, QuoteJSONString. cbn [fst snd app].
    rewrite <- !app_assoc. reflexivity. }
  assert (Lm : (length (stringify v) < length (memberText (k, v)))%nat).
  { unfold memberText, QuoteJSONString. cbn [fst snd].
    rewrite length_app. cbn [length]. length_lia. }
  destruct ps as [|p' ps'].
  - cbn [map joinComma] in *. rewrite Em, parseMembers_quote.
    rewrite parseChars_quoteChars.
    change (skipWS (58 :: stringify v ++ 125 :: rest))
      with (58 :: stringify v ++ 125 :: rest).
    change (58 =? 58) with true. cbv iota.
    rewrite (Pv Cv Nv (125 :: rest) fuel); [reflexivity | reflexivity | length_lia].
  - cbn [map] in Hf, IH |- *. rewrite joinComma_cons in Hf |- *.
    rewrite length_app in Hf. cbn [length] in Hf.
    rewrite <- app_assoc. rewrite Em, parseMembers_quote.
    rewrite parseChars_quoteChars.
    match goal with
    | |- context [skipWS (58 :: ?t)] =>
        change (skipWS (58 :: t)) with (58 :: t)
    end.
    change (58 =? 58) with true. cbv iota.
    cbn [app].
    rewrite (Pv Cv Nv); [|reflexivity | length_lia].
    match goal with
    | |- context [skipWS (44 :: ?t)] =>
        change (skipWS (44 :: t)) with (44 :: t)
    end.
    change (44 =? 44) with true. cbv iota.
    rewrite IH; [reflexivity | discriminate | assumption | assumption
                 | assumption | length_lia].
Qed.

Lemma joinComma_head (p : jsstring) (ps : list jsstring) (c : codeunit)
  (r : jsstring) :
  p = c :: r -> exists r', joinComma (p :: ps) = c :: r'.
Proof.
  intros ->. destruct ps as [|q l]; [exists r; reflexivity|].
  rewrite joinComma_cons. eexists. reflexivity.
Qed.

Lemma stringify_array (items : list json) (rest : jsstring) :
  stringify (JArray items) ++ rest
  = 91 :: joinComma (map stringify items) ++ 93 :: rest.
Proof. cbn [JSON_stringify app]. rewrite <- app_assoc. reflexivity. Qed.

Lemma stringify_object (props : list (jsstring * json)) (rest : jsstring) :
  stringify (JObject props) ++ rest
  = 123 :: joinComma (map memberText props) ++ 125 :: rest.
Proof. cbn [JSON_stringify app]. rewrite <- app_assoc. reflexivity. Qed.

(** Every canonical value whose numbers survive is read back from its
    serialization, in any context that ends the value. *)
Lemma stringify_readsBack (v : json) : readsBack v.
Proof.
  induction v as [|b|x|s|items IH|props IH] using json_induction;
    intros Hc Hn rest fuel Hr Hf.
  - destruct fuel as [|fuel]; [cbn in Hf; lia | reflexivity].
  - destruct b; (destruct fuel as [|fuel]; [cbn in Hf; lia | reflexivity]).
  - cbn [numbersSurvive] in Hn. pose proof (survives_literal _ _ Hn) as HL.
    destruct (numberOfLiteral_chars _ _ HL) as (Hall & c & r & E & Hstart).
    cbn [JSON_stringify] in Hf |- *.
    destruct (takeWhile_app isNumberChar _ rest Hall Hr) as [Et Ed].
    rewrite E in Hf, Et, Ed |- *.
    destruct fuel as [|fuel]; [cbn in Hf; lia|].
    cbn [app] in Et, Ed |- *. rewrite (parseValue_number _ _ _ Hstart).
    rewrite Et, Ed, <- E, HL. reflexivity.
  - destruct fuel as [|fuel]; [cbn in Hf; lia|].
    cbn [JSON_stringify QuoteJSONString app]. rewrite <- app_assoc.
    cbn [app]. rewrite parseValue_string, parseChars_quoteChars. reflexivity.
  - inversion Hc as [ | | | |items' Hall| ]; subst.
    cbn [numbersSurvive] in Hn.
    assert (Hlen : (length (joinComma (map stringify items)) + 2
                    <= length (stringify (JArray items)))%nat).
    { cbn [JSON_stringify length]. rewrite length_app. cbn [length]. lia. }
    rewrite stringify_array.
    destruct fuel as [|fuel]; [cbn in Hf; lia|].
    rewrite parseValue_array.
    destruct items as [|v vs]; [reflexivity|].
    assert (Nv : numbersSurvive Number_toString v = true).
    { cbn [forallb] in Hn. apply andb_true_iff in Hn as [Nv _]. exact Nv. }
    destruct (stringify_head v Nv) as (c & r & E & Hw & H93).
    destruct (joinComma_head _ (map stringify vs) c r E) as (r' & Ej).
    pose proof (parseElements_stringify (v :: vs)) as PE.
    cbn [map] in PE, Hlen |- *. rewrite Ej in PE, Hlen |- *.
    cbn [app] in PE |- *. unfold skipWS. cbn [dropWhile]. rewrite Hw, H93.
    rewrite PE; [reflexivity | discriminate | assumption | assumption
                 | assumption | length_lia].
  - inversion Hc as [ | | | | |props' Hord Hall]; subst.
    cbn [numbersSurvive] in Hn.
    assert (Hlen : (length (joinComma (map memberText props)) + 2
                    <= length (stringify (JObject props)))%nat).
    { pose proof (f_equal (@length codeunit) (stringify_object props []))
        as L.
      rewrite app_nil_r in L. cbn [length] in L. rewrite length_app in L.
      cbn [length] in L. clear - L. lia. }
    rewrite stringify_object.
    destruct fuel as [|fuel]; [cbn in Hf; lia|].
    rewrite parseValue_object.
    destruct props as [|[k v] ps]; [reflexivity|].
    pose proof (parseMembers_stringify ((k, v) :: ps)) as PM.
    assert (Ej : exists r', joinComma (map memberText ((k, v) :: ps)) = 34 :: r').
    { cbn [map]. eapply joinComma_head. reflexivity. }
    destruct Ej as (r' & Ej). rewrite Ej in PM, Hlen |- *.
    cbn [app] in PM |- *. unfold skipWS. cbn [dropWhile].
    change (isJSONWhiteSpace 34) with false. change (34 =? 125) with false.
    cbv iota.
    rewrite PM; [ | discriminate | assumption | assumption
                  | assumption | length_lia].
    rewrite (objectOfMembers_ordered _ Hord). reflexivity.
Qed.

End RoundTrip.

(* ================================================================= *)
(** ** Normalizing a serialized result again *)

(** C4, as stated, fails.  The text [{"uxInsights":1e999}] is normalized to a
    result whose uxInsights is positive infinity; serialized, infinity is
    written null, and the serialized result is normalized to four empty
    arrays, whatever the lower-casing and the number printing of the host. *)
Lemma renormalize_counterexample :
  ~ (forall (toLowerCase : jsstring -> jsstring)
            (Number_toString : number -> jsstring)
            (text : jsstring) (r : AnalysisResponse),
        parseOpenRouterResponse toLowerCase text = Normal r ->
        parseOpenRouterResponse toLowerCase
          (serializeResponse Number_toString r) = Normal r)
  /\ (forall toLowerCase Number_toString,
        parseOpenRouterResponse toLowerCase overflowText
        = Normal overflowResult
        /\ serializeResponse Number_toString overflowResult
           = jsq "{'uxInsights':null,'visualDesign':[],'bestPractices':[],'annotations':[]}"
        /\ parseOpenRouterResponse toLowerCase
             (serializeResponse Number_toString overflowResult)
           = Normal emptyResponse).
Proof.
  split.
  - intros H.
    specialize (H asciiToLowerCase integerToString overflowText overflowResult).
    assert (E : parseOpenRouterResponse asciiToLowerCase
                  (serializeResponse integerToString overflowResult)
                = Normal emptyResponse) by (vm_compute; reflexivity).
    rewrite E in H. discriminate H. vm_compute; reflexivity.
  - intros toLowerCase Number_toString.
    repeat split; vm_compute; reflexivity.
Qed.

Lemma responseObject_canonical (r : AnalysisResponse) :
  (forall k, canonical (getField r k)) -> canonical (responseObject r).
Proof.
  intros H. constructor.
  - split.
    + repeat (apply NoDup_cons; [vm_compute; intuition discriminate|]).
      constructor.
    + repeat (apply SSorted_cons; [|repeat constructor]). constructor.
  - cbn [responseObject map snd].
    repeat (constructor; [first [ apply (H Key_uxInsights)
                                | apply (H Key_visualDesign)
                                | apply (H Key_bestPractices)
                                | apply (H Key_annotations) ]|]).
    constructor.
Qed.

Lemma orElse_Some_truthy (x : json) :
  ToBoolean (Some x) = true -> orElse (Some x) (JArray []) = x.
Proof. unfold orElse. intros ->. reflexivity. Qed.

(** C4, amended.  Normalizing the serialization of a result of the normalizer
    gives the same result, provided every Number in the result survives
    serialization: the text written for it is a number literal with that
    Number as its value.  Infinities, written null, and negative zero,
    written 0, do not. *)
Theorem renormalize_serialized (toLowerCase : jsstring -> jsstring)
  (Number_toString : number -> jsstring)
  (text : jsstring) (r : AnalysisResponse) :
  parseOpenRouterResponse toLowerCase text = Normal r ->
  responseNumbersSurvive Number_toString r = true ->
  parseOpenRouterResponse toLowerCase (serializeResponse Number_toString r)
  = Normal r.
Proof.
  intros Hr Hn.
  pose proof (fun k => proj1 (result_fields toLowerCase text r k Hr)) as Hc.
  pose proof (fun k => proj2 (result_fields toLowerCase text r k Hr)) as Ht.
  unfold responseNumbersSurvive in Hn.
  apply andb_true_iff in Hn as [Hn N4]. apply andb_true_iff in Hn as [Hn N3].
  apply andb_true_iff in Hn as [N1 N2].
  assert (Hp : JSON_parse (serializeResponse Number_toString r)
               = Normal (responseObject r)).
  { unfold JSON_parse, serializeResponse.
    pose proof (stringify_readsBack Number_toString (responseObject r)
                  (responseObject_canonical r Hc)) as RB.
    rewrite <- (app_nil_r (JSON_stringify Number_toString (responseObject r)))
      at 2.
    rewrite RB; [reflexivity | | exact I | lia].
    cbn [responseObject numbersSurvive forallb snd].
    rewrite N1, N2, N3, N4. reflexivity. }
  unfold parseOpenRouterResponse, tryBlock. rewrite Hp.
  cbn [bind GetV responseObject].
  change (lookup (keyName Key_uxInsights) _) with (Some (uxInsights r)).
  change (lookup (keyName Key_visualDesign) _) with (Some (visualDesign r)).
  change (lookup (keyName Key_bestPractices) _) with (Some (bestPractices r)).
  change (lookup (keyName Key_annotations) _) with (Some (annotations r)).
  pose proof (Ht Key_uxInsights) as T1. pose proof (Ht Key_visualDesign) as T2.
  pose proof (Ht Key_bestPractices) as T3. pose proof (Ht Key_annotations) as T4.
  cbn [getField] in T1, T2, T3, T4.
  rewrite (orElse_Some_truthy _ T1), (orElse_Some_truthy _ T2),
    (orElse_Some_truthy _ T3), (orElse_Some_truthy _ T4).
  destruct r; reflexivity.
Qed.

Lemma renormalize_serialized_witness :
  (parseOpenRouterResponse asciiToLowerCase annotatedText
   = Normal annotatedResult
   /\ responseNumbersSurvive integerToString annotatedResult = true)
  /\ parseOpenRouterResponse asciiToLowerCase
       (serializeResponse integerToString annotatedResult)
     = Normal annotatedResult.
Proof.
  split; [split; vm_compute; reflexivity|].
  apply (renormalize_serialized asciiToLowerCase integerToString
           annotatedText annotatedResult); vm_compute; reflexivity.
Defined.

(* ================================================================= *)
(** * Further properties of the normalizer *)

(** ** Trimming *)

Lemma dropWhile_idem (p : codeunit -> bool) (s : jsstring) :
  dropWhile p (dropWhile p s) = dropWhile p s.
Proof.
  induction s as [|c r IH]; simpl; [reflexivity|].
  destruct (p c) eqn:E; [exact IH | simpl; rewrite E; reflexivity].
Qed.

Lemma dropWhile_head (p : codeunit -> bool) (s : jsstring) :
  match dropWhile p s with [] => True | c :: _ => p c = false end.
Proof.
  induction s as [|c r IH]; simpl; [exact I|].
  destruct (p c) eqn:E; [exact IH | exact E].
Qed.

Lemma dropWhile_snoc (p : codeunit -> bool) (l : jsstring) (h : codeunit) :
  p h = false -> dropWhile p (l ++ [h]) = dropWhile p l ++ [h].
Proof.
  intros H. induction l as [|c l IH]; simpl; [rewrite H; reflexivity|].
  destruct (p c); [exact IH | reflexivity].
Qed.

Lemma trimEnd_cons (h : codeunit) (t : jsstring) :
  isWhiteSpace h = false -> exists t', trimEnd (h :: t) = h :: t'.
Proof.
  intros H. unfold trimEnd. simpl rev.
  rewrite (dropWhile_snoc _ _ _ H), rev_app_distr. simpl. eauto.
Qed.

Lemma trimEnd_idem (s : jsstring) : trimEnd (trimEnd s) = trimEnd s.
Proof. unfold trimEnd. rewrite rev_involutive, dropWhile_idem. reflexivity. Qed.

(** Trimming a trimmed string changes nothing. *)
Lemma trim_idem (s : jsstring) : trim (trim s) = trim s.
Proof.
  unfold trim, trimStart.
  pose proof (dropWhile_head isWhiteSpace s) as H.
  destruct (dropWhile isWhiteSpace s) as [|h t]; [reflexivity|].
  destruct (trimEnd_cons h t H) as (t' & E).
  rewrite E at 1. simpl dropWhile. rewrite H, <- E. apply trimEnd_idem.
Qed.

Lemma trim_dropWhile (s : jsstring) : trim (dropWhile isWhiteSpace s) = trim s.
Proof. unfold trim, trimStart. rewrite dropWhile_idem. reflexivity. Qed.

(** ** The lines of the fallback *)

(** A line is scanned when it is not made of white space only. *)
Lemma trim_nonEmpty (line : jsstring) :
  nonEmpty (trim line) = negb (forallb isWhiteSpace line).
Proof.
  induction line as [|c r IH]; [reflexivity|].
  cbn [forallb]. destruct (isWhiteSpace c) eqn:E.
  - rewrite andb_true_l, <- IH. unfold trim, trimStart.
    cbn [dropWhile]. rewrite E. reflexivity.
  - rewrite andb_false_l. unfold trim, trimStart. cbn [dropWhile]. rewrite E.
    destruct (trimEnd_cons c r E) as (t & ->). reflexivity.
Qed.

Lemma scanLines_snoc (toLowerCase : jsstring -> jsstring)
  (before : list jsstring) (line : jsstring) :
  scanLines toLowerCase (before ++ [line])
  = scanLine toLowerCase (scanLines toLowerCase before) line.
Proof. unfold scanLines. rewrite fold_left_app. reflexivity. Qed.

Lemma stringSections_isArray (r : AnalysisResponse) (k : key) :
  stringSections r -> isArray (getField r k) = true.
Proof. intros (a & b & c & ->). destruct k; reflexivity. Qed.

(** C5. The unstructured fallback, line by line.  The lines scanned are the
    lines of the text that are not white space only, in their order, and the
    scan starts in uxInsights with nothing.  Each of them in turn, after
    whatever lines came before, is tested against the three keyword rules
    first, in the order ux, visual, best, each on the lower-cased line; a
    line that passes one of them switches the section and leaves the
    response as it is, bullet marker or not.  Only a line that passes none of
    them is tested as a bullet line: one whose cleaned text is not empty
    appends that text to the current section, which stays; any other line
    changes nothing.  The result of the fallback is the response after the
    last line, or the whole text when that response has three empty
    arrays. *)
Theorem fallback_line_rules (toLowerCase : jsstring -> jsstring)
  (text : jsstring) (e : exn) :
  tryBlock text = Throw e ->
  linesOf text
  = filter (fun line => negb (forallb isWhiteSpace line)) (split LF text)
  /\ scanLines toLowerCase [] = (Key_uxInsights, emptyResponse)
  /\ (forall (before : list jsstring) (line : jsstring),
        let low := toLowerCase line in
        let ux := includes low (js "ux") || includes low (js "usability") in
        let vis := includes low (js "visual") || includes low (js "design") in
        let best := includes low (js "best") || includes low (js "practice") in
        let k := fst (scanLines toLowerCase before) in
        let r := snd (scanLines toLowerCase before) in
        let item := trim (replace_marker line) in
        scanLines toLowerCase (before ++ [line]) =
          if ux then (Key_uxInsights, r)
          else if vis then (Key_visualDesign, r)
          else if best then (Key_bestPractices, r)
          else if isBulletLine line && nonEmpty item then (k, push r k item)
          else (k, r))
  /\ parseOpenRouterResponse toLowerCase text
     = Normal
         (let r := snd (scanLines toLowerCase (linesOf text)) in
          if lengthIsZero (uxInsights r) && lengthIsZero (visualDesign r)
             && lengthIsZero (bestPractices r)
          then {| uxInsights := JArray [JString text];
                  visualDesign := visualDesign r;
                  bestPractices := bestPractices r;
                  annotations := annotations r |}
          else r).
Proof.
  intros Ht. split; [|split; [reflexivity|split]].
  - unfold linesOf. apply filter_ext. intros line. apply trim_nonEmpty.
  - intros before line. cbv zeta. rewrite scanLines_snoc.
    pose proof (scanLines_inv toLowerCase before) as Hs.
    destruct (scanLines toLowerCase before) as [k r]. cbn [fst snd] in *.
    rewrite scanLine_cases. cbv zeta.
    rewrite (stringSections_isArray r k Hs), andb_true_r. reflexivity.
  - unfold parseOpenRouterResponse. rewrite Ht. reflexivity.
Qed.

Lemma fallback_line_rules_witness :
  tryBlock (js "Visual notes" ++ LF :: js "- Improve the VISUAL hierarchy"
            ++ LF :: LF :: js "- Good contrast")
  = Throw SyntaxError
  /\ linesOf (js "Visual notes" ++ LF :: js "- Improve the VISUAL hierarchy"
              ++ LF :: LF :: js "- Good contrast")
     = [js "Visual notes"; js "- Improve the VISUAL hierarchy";
        js "- Good contrast"]
  /\ parseOpenRouterResponse asciiToLowerCase
       (js "Visual notes" ++ LF :: js "- Improve the VISUAL hierarchy"
        ++ LF :: LF :: js "- Good contrast")
     = Normal {| uxInsights := strings [];
                 visualDesign := strings [js "Good contrast"];
                 bestPractices := strings []; annotations := JArray [] |}.
Proof.
  assert (H : tryBlock (js "Visual notes" ++ LF
                        :: js "- Improve the VISUAL hierarchy"
                        ++ LF :: LF :: js "- Good contrast")
              = Throw SyntaxError) by (vm_compute; reflexivity).
  split; [exact H|].
  pose proof (fallback_line_rules asciiToLowerCase _ SyntaxError H)
    as (H1 & _ & _ & H4).
  split; [vm_compute; reflexivity|].
  rewrite H4. vm_compute. reflexivity.
Defined.


(** ** What the stripping pattern removes *)

(** X18. The cleaned text of a line, in full: when the line starts with a code unit
    of the class (hyphen, bullet, digit, full stop), that one code unit goes
    and the rest is trimmed; otherwise the line is only trimmed.  So a hyphen
    or bullet marker at the start of the line is removed whole, a number
    loses its first digit only, and a marker after leading white space
    stays. *)
Theorem cleanLine_law (line : jsstring) :
  match line with
  | c :: r =>
      if isMarkerChar c then trim (replace_marker line) = trim r
      else trim (replace_marker line) = trim line
  | [] => trim (replace_marker line) = []
  end.
Proof.
  destruct line as [|c r]; [reflexivity|].
  unfold replace_marker. destruct (isMarkerChar c); [|reflexivity].
  apply trim_dropWhile.
Qed.

(** ** The items of the line scan *)

Lemma push_elements (r : AnalysisResponse) (k k' : key) (x : jsstring)
  (v : json) :
  stringSections r -> k <> Key_annotations ->
  In v (elements (getField (push r k x) k')) ->
  v = JString x \/ In v (elements (getField r k')).
Proof.
  intros (a & b & c & ->) Hk.
  destruct k; try contradiction; destruct k'; unfold push, strings; simpl;
    try rewrite in_app_iff; simpl; intuition congruence.
Qed.

Lemma emptyResponse_elements (k : key) : elements (getField emptyResponse k) = [].
Proof. destruct k; reflexivity. Qed.

Section ScanItems.
Variable toLowerCase : jsstring -> jsstring.
Variable P : jsstring -> Prop.

Lemma scanLine_headerOf (k : key) (r : AnalysisResponse) (line : jsstring) :
  scanLine toLowerCase (k, r) line =
    match headerOf toLowerCase line with
    | Some s => (s, r)
    | None =>
        if isBulletLine line && nonEmpty (trim (replace_marker line))
           && isArray (getField r k)
        then (k, push r k (trim (replace_marker line)))
        else (k, r)
    end.
Proof.
  rewrite scanLine_cases. unfold headerOf. cbv zeta.
  repeat match goal with
         | |- context [if ?b then _ else _] => destruct b; try reflexivity
         end.
Qed.

Lemma fold_scanLine_items (lines : list jsstring)
  (st : key * AnalysisResponse) :
  fst st <> Key_annotations -> stringSections (snd st) ->
  (forall line, In line lines -> headerOf toLowerCase line = None ->
                isBulletLine line = true ->
                nonEmpty (trim (replace_marker line)) = true ->
                P (trim (replace_marker line))) ->
  (forall k v, In v (elements (getField (snd st) k)) ->
               exists x, v = JString x /\ P x) ->
  forall k v,
    In v (elements (getField (snd (fold_left (scanLine toLowerCase) lines st)) k)) ->
    exists x, v = JString x /\ P x.
Proof.
  revert st. induction lines as [|l ls IH]; intros [k0 r0] Hk Hr HP H0;
    [exact H0|].
  cbn [fold_left]. cbn [fst snd] in Hk, Hr, H0.
  destruct (scanLine_inv toLowerCase k0 r0 l Hk Hr) as [Hk' Hr'].
  apply IH.
  - exact Hk'.
  - exact Hr'.
  - intros line Hin. apply HP. right; exact Hin.
  - rewrite scanLine_headerOf.
    destruct (headerOf toLowerCase l) eqn:Eh; [exact H0|].
    destruct (isBulletLine l) eqn:Eb; [|exact H0].
    destruct (nonEmpty (trim (replace_marker l))) eqn:En; [|exact H0].
    destruct (isArray (getField r0 k0)); [|exact H0].
    cbn [andb snd]. intros k v Hv.
    apply push_elements in Hv as [-> | Hv]; try assumption.
    + eexists. split; [reflexivity|].
      apply HP; [left; reflexivity | assumption..].
    + apply (H0 k v Hv).
Qed.

Lemma scanLines_items (lines : list jsstring) :
  (forall line, In line lines -> headerOf toLowerCase line = None ->
                isBulletLine line = true ->
                nonEmpty (trim (replace_marker line)) = true ->
                P (trim (replace_marker line))) ->
  forall k v,
    In v (elements (getField (snd (scanLines toLowerCase lines)) k)) ->
    exists x, v = JString x /\ P x.
Proof.
  intros HP. apply fold_scanLine_items; cbn [fst snd].
  - discriminate.
  - exists [], [], []. reflexivity.
  - exact HP.
  - intros k v Hv. rewrite emptyResponse_elements in Hv. destruct Hv.
Qed.

End ScanItems.

(** What the [catch] block returns is the scanned response, or, when the scan
    found nothing, the response with the whole text as its one item. *)
Lemma catchBlock_cases (toLowerCase : jsstring -> jsstring) (text : jsstring) :
  catchBlock toLowerCase text = snd (scanLines toLowerCase (linesOf text))
  \/ catchBlock toLowerCase text
     = {| uxInsights := strings [text]; visualDesign := strings [];
          bestPractices := strings []; annotations := JArray [] |}.
Proof.
  unfold catchBlock.
  destruct (scanLines_inv toLowerCase (linesOf text)) as (a & b & c & E).
  rewrite E. cbn [uxInsights visualDesign bestPractices].
  destruct a as [|x a]; [|left; reflexivity].
  destruct b as [|y b]; [|left; reflexivity].
  destruct c as [|z c]; [|left; reflexivity].
  right. reflexivity.
Qed.

(** X1. Unless the scan found nothing and the whole text was kept, every item
    of the fallback result is a non-empty string without white space at
    either end: trimming it changes nothing. *)
Theorem fallback_items_trimmed (toLowerCase : jsstring -> jsstring)
  (text : jsstring) :
  catchBlock toLowerCase text
  = {| uxInsights := strings [text]; visualDesign := strings [];
       bestPractices := strings []; annotations := JArray [] |}
  \/ forall k, Forall (fun v => exists x, v = JString x /\ x <> []
                                          /\ trim x = x)
                 (elements (getField (catchBlock toLowerCase text) k)).
Proof.
  destruct (catchBlock_cases toLowerCase text) as [E | E]; [|left; exact E].
  right. intros k. rewrite E. apply Forall_forall. intros v Hv.
  apply (scanLines_items toLowerCase
           (fun x => x <> [] /\ trim x = x) (linesOf text)) in Hv;
    [exact Hv|].
  intros line _ _ _ Hn. split; [|apply trim_idem].
  destruct (trim (replace_marker line)); [discriminate Hn | discriminate].
Qed.

(** X2. The scan invents no text: unless the whole text was kept, every item
    of the fallback result is the stripped and trimmed text of a non-blank
    line of the input that passed the bullet test and names no section. *)
Theorem fallback_items_from_lines (toLowerCase : jsstring -> jsstring)
  (text : jsstring) :
  catchBlock toLowerCase text
  = {| uxInsights := strings [text]; visualDesign := strings [];
       bestPractices := strings []; annotations := JArray [] |}
  \/ forall k,
       Forall (fun v => exists line,
                   In line (split LF text) /\ trim line <> []
                   /\ headerOf toLowerCase line = None
                   /\ isBulletLine line = true
                   /\ v = JString (trim (replace_marker line)))
         (elements (getField (catchBlock toLowerCase text) k)).
Proof.
  destruct (catchBlock_cases toLowerCase text) as [E | E]; [|left; exact E].
  right. intros k. rewrite E. apply Forall_forall. intros v Hv.
  apply (scanLines_items toLowerCase
           (fun x => exists line,
                In line (split LF text) /\ trim line <> []
                /\ headerOf toLowerCase line = None
                /\ isBulletLine line = true
                /\ x = trim (replace_marker line)) (linesOf text)) in Hv.
  - destruct Hv as (x & -> & line & H1 & H2 & H3 & H4 & ->).
    exists line. repeat split; assumption.
  - intros line Hin Hh Hb _. exists line.
    unfold linesOf in Hin. apply filter_In in Hin as [Hin Hne].
    repeat split; try assumption.
    destruct (trim line); [discriminate Hne | discriminate].
Qed.

(** ** When the fallback runs *)

(** X3. The [catch] block runs exactly when the text is not JSON or is the
    JSON text of null: [JSON.parse] throws on the first, reading a property
    of null throws on the second.  Every other JSON text gives the result of
    the [try] block, which does not depend on the lower-casing. *)
Theorem fallback_condition (toLowerCase : jsstring -> jsstring)
  (text : jsstring) :
  ((exists e, tryBlock text = Throw e)
   <-> JSON_parse text = Throw SyntaxError \/ JSON_parse text = Normal JNull)
  /\ match JSON_parse text with
     | Normal JNull | Throw _ =>
         parseOpenRouterResponse toLowerCase text
         = Normal (catchBlock toLowerCase text)
     | Normal _ =>
         exists r, tryBlock text = Normal r
                   /\ forall lower, parseOpenRouterResponse lower text = Normal r
     | OutOfFuel => False
     end.
Proof.
  unfold parseOpenRouterResponse, tryBlock.
  destruct (JSON_parse_fuel text) as [[v ->] | ->].
  - destruct v; cbn [bind GetV]; split;
      try (split; [intros [e H]; discriminate H
                  | intros [H | H]; discriminate H]);
      try (eexists; split; [reflexivity | intros lower; reflexivity]).
    + split; [intros _; right; reflexivity | intros _; eexists; reflexivity].
    + reflexivity.
  - cbn [bind]. split; [|reflexivity].
    split; [intros _; left; reflexivity | intros _; eexists; reflexivity].
Qed.

(** ** Text without bullet lines *)

Lemma fold_scanLine_no_bullets (toLowerCase : jsstring -> jsstring)
  (lines : list jsstring) (st : key * AnalysisResponse) :
  (forall line, In line lines -> isBulletLine line = false) ->
  snd (fold_left (scanLine toLowerCase) lines st) = snd st.
Proof.
  revert st. induction lines as [|l ls IH]; intros [k r] H; [reflexivity|].
  cbn [fold_left]. rewrite IH by (intros line Hin; apply H; right; exact Hin).
  rewrite scanLine_headerOf, (H l (or_introl eq_refl)).
  destruct (headerOf toLowerCase l); reflexivity.
Qed.

(** X4. Prose is kept whole.  When the text is not JSON and none of its lines
    passes the bullet test, the result is the whole text as the one item of
    uxInsights, whether or not lines name sections. *)
Theorem prose_kept_whole (toLowerCase : jsstring -> jsstring)
  (text : jsstring) (e : exn) :
  tryBlock text = Throw e ->
  (forall line, In line (linesOf text) -> isBulletLine line = false) ->
  parseOpenRouterResponse toLowerCase text
  = Normal {| uxInsights := strings [text]; visualDesign := strings [];
              bestPractices := strings []; annotations := JArray [] |}.
Proof.
  intros Ht Hb. unfold parseOpenRouterResponse. rewrite Ht. f_equal.
  unfold catchBlock, scanLines.
  rewrite (fold_scanLine_no_bullets _ _ _ Hb). reflexivity.
Qed.

Lemma prose_kept_whole_witness :
  (tryBlock (js "The visual design is fine." ++ LF :: js "Ship it.")
   = Throw SyntaxError
   /\ forall line,
        In line (linesOf (js "The visual design is fine." ++ LF :: js "Ship it.")) ->
        isBulletLine line = false)
  /\ parseOpenRouterResponse asciiToLowerCase
       (js "The visual design is fine." ++ LF :: js "Ship it.")
     = Normal {| uxInsights :=
                   strings [js "The visual design is fine." ++ LF :: js "Ship it."];
                 visualDesign := strings []; bestPractices := strings [];
                 annotations := JArray [] |}.
Proof.
  assert (H : forall line,
             In line (linesOf (js "The visual design is fine." ++ LF :: js "Ship it.")) ->
             isBulletLine line = false).
  { intros line Hin. vm_compute in Hin.
    destruct Hin as [<- | [<- | []]]; vm_compute; reflexivity. }
  split; [split; [vm_compute; reflexivity | exact H]|].
  apply (prose_kept_whole asciiToLowerCase
           (js "The visual design is fine." ++ LF :: js "Ship it.")
           SyntaxError); [vm_compute; reflexivity | exact H].
Defined.

(** ** A header and its bullets *)

Lemma fold_scanLine_block (toLowerCase : jsstring -> jsstring)
  (bs : list jsstring) (k : key) (r : AnalysisResponse) :
  k <> Key_annotations -> stringSections r ->
  Forall (fun l => headerOf toLowerCase l = None) bs ->
  fold_left (scanLine toLowerCase) bs (k, r)
  = (k, fold_left (fun acc x => push acc k x) (itemsOf bs) r).
Proof.
  intros Hk. revert r. induction bs as [|l ls IH]; intros r Hr Hh;
    [reflexivity|].
  inversion Hh as [|? ? Hl Hls]; subst.
  cbn [fold_left]. rewrite scanLine_headerOf, Hl.
  assert (Ha : isArray (getField r k) = true).
  { destruct Hr as (a & b & c & ->). destruct k; try contradiction;
      reflexivity. }
  rewrite Ha, andb_true_r. unfold itemsOf. cbn [filter].
  destruct (isBulletLine l) eqn:Eb; cbn [andb map filter].
  - destruct (nonEmpty (trim (replace_marker l))) eqn:En; cbn [fold_left].
    + apply IH; [apply push_stringSections; assumption | exact Hls].
    + apply IH; assumption.
  - apply IH; assumption.
Qed.

(** X5. A header and the lines under it.  A line that names a section, followed
    by lines that name none, moves the scan to that section and files the
    items of those lines under it, in their order; whatever the section
    before. *)
Theorem bullets_under_header (toLowerCase : jsstring -> jsstring)
  (k s : key) (r : AnalysisResponse) (h : jsstring) (bs : list jsstring) :
  stringSections r ->
  headerOf toLowerCase h = Some s ->
  Forall (fun l => headerOf toLowerCase l = None) bs ->
  fold_left (scanLine toLowerCase) (h :: bs) (k, r)
  = (s, fold_left (fun acc x => push acc s x) (itemsOf bs) r).
Proof.
  intros Hr Hh Hbs. cbn [fold_left]. rewrite scanLine_headerOf, Hh.
  apply fold_scanLine_block; [|assumption..].
  unfold headerOf in Hh.
  repeat match type of Hh with
         | (if ?b then _ else _) = _ => destruct b
         end; inversion Hh; discriminate.
Qed.

Lemma bullets_under_header_witness :
  (stringSections emptyResponse
   /\ headerOf asciiToLowerCase (js "## Visual") = Some Key_visualDesign
   /\ Forall (fun l => headerOf asciiToLowerCase l = None)
        [js "- Low contrast"; js "note"; BULLET :: js " Tight spacing"])
  /\ fold_left (scanLine asciiToLowerCase)
       [js "## Visual"; js "- Low contrast"; js "note";
        BULLET :: js " Tight spacing"]
       (Key_uxInsights, emptyResponse)
     = (Key_visualDesign,
        {| uxInsights := strings [];
           visualDesign := strings [js "Low contrast"; js "Tight spacing"];
           bestPractices := strings []; annotations := JArray [] |}).
Proof.
  assert (H1 : stringSections emptyResponse)
    by (exists [], [], []; reflexivity).
  assert (H2 : headerOf asciiToLowerCase (js "## Visual") = Some Key_visualDesign)
    by (vm_compute; reflexivity).
  assert (H3 : Forall (fun l => headerOf asciiToLowerCase l = None)
                 [js "- Low contrast"; js "note"; BULLET :: js " Tight spacing"])
    by (repeat constructor).
  split; [repeat split; assumption|].
  rewrite (bullets_under_header asciiToLowerCase Key_uxInsights
             Key_visualDesign emptyResponse (js "## Visual")
             [js "- Low contrast"; js "note"; BULLET :: js " Tight spacing"]
             H1 H2 H3).
  vm_compute. reflexivity.
Defined.

(* ================================================================= *)
(** * The route handler *)

(** ** Splitting at commas *)

Lemma split_no_sep (sep : codeunit) (s : jsstring) :
  ~ In sep s -> split sep s = [s].
Proof.
  induction s as [|c r IH]; simpl; intros H; [reflexivity|].
  destruct (N.eqb_spec c sep) as [-> | Hne]; [exfalso; apply H; left; reflexivity|].
  rewrite IH by tauto. reflexivity.
Qed.

Lemma split_at_first (sep : codeunit) (prefix rest : jsstring) :
  ~ In sep prefix ->
  split sep (prefix ++ sep :: rest) = prefix :: split sep rest.
Proof.
  induction prefix as [|c r IH]; simpl; intros H.
  - rewrite N.eqb_refl. reflexivity.
  - destruct (N.eqb_spec c sep) as [-> | Hne];
      [exfalso; apply H; left; reflexivity|].
    rewrite IH by tauto. reflexivity.
Qed.

Lemma split_cons (sep : codeunit) (s : jsstring) :
  exists first others, split sep s = first :: others.
Proof.
  induction s as [|c r (f & o & E)]; simpl; [eauto|].
  destruct (c =? sep); [eauto|]. rewrite E. eauto.
Qed.

Lemma supported_formats_no_comma (t : jsstring) :
  In t SUPPORTED_FORMATS -> ~ In 44 t.
Proof.
  intros H. repeat (destruct H as [<- | H];
                    [vm_compute; intuition discriminate|]).
  destruct H.
Qed.

Lemma validateFile_None (file : File) :
  validateFile file = None ->
  In (type file) SUPPORTED_FORMATS /\ (size file <= MAX_FILE_SIZE)%Z.
Proof.
  unfold validateFile.
  destruct (array_includes SUPPORTED_FORMATS (type file)) eqn:E;
    [|discriminate].
  apply array_includes_In in E. cbn [negb].
  destruct (Z.gtb_spec (size file) MAX_FILE_SIZE); [discriminate|].
  intros _. split; [exact E | lia].
Qed.

(** X6. What [fileToBase64] extracts from the data URL the reader gives: the
    text after the first comma, up to the second if there is one.  For a
    result without comma the promise is resolved with undefined, and for a
    reader error it is rejected. *)
Theorem fileToBase64_extracts (prefix payload : jsstring) :
  ~ In 44 prefix ->
  fileToBase64 (Fulfilled (prefix ++ 44 :: payload))
  = Fulfilled (Some (takeWhile (fun c => negb (c =? 44)) payload))
  /\ (~ In 44 payload ->
      fileToBase64 (Fulfilled (prefix ++ 44 :: payload))
      = Fulfilled (Some payload))
  /\ fileToBase64 (Fulfilled prefix) = Fulfilled None
  /\ fileToBase64 Rejected = Rejected.
Proof.
  intros Hp. unfold fileToBase64.
  rewrite (split_at_first _ _ _ Hp), (split_no_sep _ _ Hp). cbn [nth_error].
  split; [|split; [|split; reflexivity]].
  - f_equal. f_equal. clear Hp.
    induction payload as [|c r IH]; [reflexivity|].
    simpl. destruct (c =? 44); simpl; [reflexivity|].
    destruct (split_cons 44 r) as (f & o & E). rewrite E in IH |- *.
    simpl in IH |- *. congruence.
  - intros H. rewrite (split_no_sep _ _ H). reflexivity.
Qed.

Lemma fileToBase64_extracts_witness :
  ~ In 44 (js "data:image/png;base64")
  /\ fileToBase64 (Fulfilled (js "data:image/png;base64,iVBORw0KGgo="))
     = Fulfilled (Some (js "iVBORw0KGgo=")).
Proof.
  assert (H : ~ In 44 (js "data:image/png;base64"))
    by (vm_compute; intuition discriminate).
  split; [exact H|].
  destruct (fileToBase64_extracts (js "data:image/png;base64")
              (js "iVBORw0KGgo=") H) as (E & _).
  exact E.
Defined.

(** X7. For a file the validator accepts, whose data URL is data:, its type,
    ;base64, and a payload without comma, the handler recovers the payload
    and the URL it sends to the completion service is that same data URL. *)
Theorem image_url_round_trip (file : File) (payload : jsstring) :
  validateFile file = None -> ~ In 44 payload ->
  fileToBase64
    (Fulfilled (js "data:" ++ type file ++ js ";base64," ++ payload))
  = Fulfilled (Some payload)
  /\ imageUrlOf file (Some payload)
     = js "data:" ++ type file ++ js ";base64," ++ payload.
Proof.
  intros Hv Hp. split; [|reflexivity].
  apply validateFile_None in Hv as [Ht _].
  pose proof (supported_formats_no_comma _ Ht) as Hc.
  assert (E : js "data:" ++ type file ++ js ";base64," ++ payload
              = (js "data:" ++ type file ++ js ";base64") ++ 44 :: payload).
  { change (js ";base64,") with (js ";base64" ++ [44]).
    rewrite <- !app_assoc. reflexivity. }
  rewrite E. unfold fileToBase64.
  rewrite split_at_first, (split_no_sep _ _ Hp); [reflexivity|].
  rewrite !in_app_iff. intros [H | [H | H]].
  - revert H. vm_compute. intuition discriminate.
  - exact (Hc H).
  - revert H. vm_compute. intuition discriminate.
Qed.

Lemma image_url_round_trip_witness :
  (validateFile {| type := js "image/webp"; size := 2048 |} = None
   /\ ~ In 44 (js "UklGRg=="))
  /\ fileToBase64 (Fulfilled (js "data:image/webp;base64,UklGRg=="))
     = Fulfilled (Some (js "UklGRg=="))
  /\ imageUrlOf {| type := js "image/webp"; size := 2048 |}
       (Some (js "UklGRg=="))
     = js "data:image/webp;base64,UklGRg==".
Proof.
  assert (H1 : validateFile {| type := js "image/webp"; size := 2048 |} = None)
    by (vm_compute; reflexivity).
  assert (H2 : ~ In 44 (js "UklGRg==")) by (vm_compute; intuition discriminate).
  split; [split; assumption|].
  exact (image_url_round_trip {| type := js "image/webp"; size := 2048 |}
           (js "UklGRg==") H1 H2).
Defined.

(** ** The answers of the handler *)

(** An answer of the handler: the result object with status 200, or an object
    with the one property error, a non-empty string, with status 400, 500 or
    502. *)
Definition wellFormedAnswer (resp : HttpResponse) : Prop :=
  (status resp = 200%Z /\ exists r, body resp = responseObject r)
  \/ (In (status resp) [400; 500; 502]%Z
      /\ exists msg, msg <> [] /\ body resp = JObject [(js "error", JString msg)]).

Lemma errorResponse_wellFormed (msg : jsstring) (st : Z) :
  msg <> [] -> In st [400; 500; 502]%Z -> wellFormedAnswer (errorResponse msg st).
Proof. intros Hm Hs. right. split; [exact Hs|]. exists msg. split; auto. Qed.

Lemma validateFile_message (file : File) (msg : jsstring) :
  validateFile file = Some msg ->
  msg = msg_unsupported_format \/ msg = msg_size_exceeded.
Proof.
  unfold validateFile.
  destruct (negb (array_includes SUPPORTED_FORMATS (type file)));
    [intros H; injection H; auto|].
  destruct (size file >? MAX_FILE_SIZE)%Z; [intros H; injection H; auto|].
  discriminate.
Qed.

Section RouteFacts.
Variable toLowerCase : jsstring -> jsstring.
Variable Number_toString : number -> jsstring.

Lemma ToString_fuel (v : json) : ToString Number_toString v <> OutOfFuel.
Proof.
  induction v as [|b|x|s|items IH|props IH] using json_induction;
    try discriminate.
  - destruct b; discriminate.
  - cbn [ToString].
    induction IH as [|x l Hx Hl IHl]; [discriminate|].
    assert (Hx' : match x with
                  | JNull => Normal []
                  | _ => ToString Number_toString x
                  end <> OutOfFuel) by (destruct x; auto; discriminate).
    destruct (match x with
              | JNull => Normal []
              | _ => ToString Number_toString x
              end) as [sx|e|]; [|discriminate|contradiction].
    cbn [bind]. destruct l as [|y l']; [discriminate|].
    destruct ((fix join (l0 : list json) : outcome jsstring :=
                 match l0 with
                 | [] => Normal []
                 | x0 :: r =>
                     sx0 <- match x0 with
                            | JNull => Normal []
                            | _ => ToString Number_toString x0
                            end;;
                     match r with
                     | [] => Normal sx0
                     | _ :: _ => sr <- join r;; Normal (sx0 ++ 44 :: sr)
                     end
                 end) (y :: l')) as [sr|e|]; [discriminate | discriminate |].
    exfalso. apply IHl. reflexivity.
  - cbn [ToString]. destruct (lookup (js "toString") props); discriminate.
Qed.

Lemma parseOpenRouterResponseOf_fuel (content : json) :
  parseOpenRouterResponseOf toLowerCase Number_toString content <> OutOfFuel.
Proof.
  assert (G : forall c,
             match text <- ToString Number_toString c ;; tryBlock text with
             | Normal r => Normal r
             | Throw _ => Throw TypeError
             | OutOfFuel => OutOfFuel
             end <> (@OutOfFuel AnalysisResponse)).
  { intros c. pose proof (ToString_fuel c) as H.
    destruct (ToString Number_toString c) as [t|e|];
      [|discriminate|contradiction].
    cbn [bind]. pose proof (tryBlock_fuel t) as H'.
    destruct (tryBlock t); [discriminate | discriminate | contradiction]. }
  destruct content; try apply G.
  unfold parseOpenRouterResponseOf.
  destruct (parseOpenRouterResponse_cases toLowerCase s)
    as [(r & _ & ->) | (e & _ & ->)]; discriminate.
Qed.

Ltac answer :=
  first [ discriminate
        | intros resp H; injection H as <-;
          first [ apply errorResponse_wellFormed;
                  [discriminate | cbn; tauto]
                | left; split; [reflexivity | eexists; reflexivity] ] ].

Lemma POST_try_answers (w : World) :
  POST_try toLowerCase Number_toString w <> Stuck
  /\ forall resp, POST_try toLowerCase Number_toString w = Done resp ->
                  wellFormedAnswer resp.
Proof.
  unfold POST_try.
  destruct (env_API_KEY w) as [[|k0 key]|]; [split; answer | | split; answer].
  destruct (request_formData w) as [fd|]; cbn [await andThen];
    [|split; answer].
  destruct (FormData_get (js "image") fd) as [[file|[|c s]]|];
    [|split; answer..].
  destruct (validateFile file) as [msg|] eqn:Ev.
  { split; [discriminate|]. intros resp H; injection H as <-.
    apply errorResponse_wellFormed; [|cbn; tauto].
    destruct (validateFile_message _ _ Ev) as [-> | ->]; discriminate. }
  destruct (fileToBase64 (readAsDataURL w file)) as [b64|]; cbn [await andThen];
    [|split; answer].
  match goal with
  | |- context [fetch w ?rq] => destruct (fetch w rq) as [up|]
  end; cbn [await andThen]; [|split; answer].
  destruct (response_ok up); cbn [negb].
  - destruct (response_json up) as [data|]; cbn [await andThen];
      [|split; answer].
    destruct (contentOf data) as [[c|]|e|] eqn:Ec; cbn [ofOutcome andThen];
      [| split; answer | split; answer |].
    + destruct (ToBoolean (Some c)); [|split; answer].
      pose proof (parseOpenRouterResponseOf_fuel c) as Hf.
      destruct (parseOpenRouterResponseOf toLowerCase Number_toString c) as [r|e|];
        cbn [ofOutcome andThen]; [| split; answer | contradiction].
      unfold NextResponse_json.
      destruct (serializes w (responseObject r)); split; answer.
    + exfalso. destruct data; discriminate Ec.
  - destruct (response_text up); cbn [await andThen]; split; answer.
Qed.

End RouteFacts.

(** X8. The handler always answers.  No exception leaves it and the parser's
    fuel is never spent; the answer is the result object with status 200, or
    an object with the one property error, a non-empty string, with status
    400, 500 or 502. *)
Theorem POST_answers (toLowerCase : jsstring -> jsstring)
  (Number_toString : number -> jsstring) (w : World) :
  exists resp,
    POST toLowerCase Number_toString w = Done resp /\ wellFormedAnswer resp.
Proof.
  unfold POST.
  destruct (POST_try_answers toLowerCase Number_toString w) as [Hs Hd].
  destruct (POST_try toLowerCase Number_toString w) as [resp| |].
  - exists resp. split; [reflexivity | apply Hd; reflexivity].
  - eexists. split; [reflexivity|].
    apply errorResponse_wellFormed; [discriminate | cbn; tauto].
  - contradiction.
Qed.

(** ** Uploads that are turned down *)

(** X9. An upload that is missing or that the validator rejects is answered
    400 with the message of the problem, whatever reading the file and
    calling the completion service would give, and whatever the engine
    serializes: none is consulted. *)
Theorem rejected_upload_stays_local (toLowerCase : jsstring -> jsstring)
  (Number_toString : number -> jsstring)
  (key : jsstring) (configured : option jsstring) (fd : FormData)
  (msg : jsstring)
  (read : File -> settled jsstring)
  (service : UpstreamRequest -> settled UpstreamResponse)
  (engine : json -> bool) :
  key <> [] -> uploadProblem fd = Some msg ->
  POST toLowerCase Number_toString
    {| env_API_KEY := Some key; env_MODEL := configured;
       request_formData := Fulfilled fd;
       readAsDataURL := read; fetch := service; serializes := engine |}
  = Done (errorResponse msg 400).
Proof.
  intros Hk Hu. destruct key as [|k key]; [contradiction|].
  unfold POST, POST_try, uploadProblem in *.
  cbn [env_API_KEY request_formData await andThen].
  destruct (FormData_get (js "image") fd) as [[file|[|c s]]|];
    try (injection Hu as <-; reflexivity).
  rewrite Hu. reflexivity.
Qed.

Lemma rejected_upload_stays_local_witness :
  (js "sk-test" <> []
   /\ uploadProblem
        [(js "image", EntryFile {| type := js "application/pdf"; size := 10 |})]
      = Some msg_unsupported_format)
  /\ POST asciiToLowerCase integerToString
       {| env_API_KEY := Some (js "sk-test"); env_MODEL := None;
          request_formData :=
            Fulfilled
              [(js "image",
                EntryFile {| type := js "application/pdf"; size := 10 |})];
          readAsDataURL := fun _ => Rejected; fetch := fun _ => Rejected;
          serializes := fun _ => false |}
     = Done (errorResponse msg_unsupported_format 400).
Proof.
  assert (H1 : js "sk-test" <> []) by discriminate.
  assert (H2 : uploadProblem
                 [(js "image",
                   EntryFile {| type := js "application/pdf"; size := 10 |})]
               = Some msg_unsupported_format) by (vm_compute; reflexivity).
  split; [split; assumption|].
  exact (rejected_upload_stays_local asciiToLowerCase integerToString
           (js "sk-test") None _ _ (fun _ => Rejected) (fun _ => Rejected)
           (fun _ => false) H1 H2).
Defined.

(** ** The one request to the completion service *)

Lemma POST_try_requestOf (toLowerCase : jsstring -> jsstring)
  (Number_toString : number -> jsstring) (w : World) :
  match requestOf w with
  | Some rq =>
      POST_try toLowerCase Number_toString w =
        (openRouterResponse <~ await (fetch w rq) ;;
         if negb (response_ok openRouterResponse) then
           errorText <~ await (response_text openRouterResponse) ;;
           Done (errorResponse
                   (js "Failed to analyze image. Please try again later.") 502)
         else
           openRouterData <~ await (response_json openRouterResponse) ;;
           content <~ ofOutcome (contentOf openRouterData) ;;
           match content with
           | Some c =>
               if ToBoolean content then
                 analysisResult <~
                   ofOutcome (parseOpenRouterResponseOf toLowerCase
                                Number_toString c) ;;
                 NextResponse_json w (responseObject analysisResult)
               else
                 Done (errorResponse (js "Invalid response from AI service") 502)
           | None =>
               Done (errorResponse (js "Invalid response from AI service") 502)
           end)
  | None =>
      forall f, POST_try toLowerCase Number_toString (withFetch w f)
                = POST_try toLowerCase Number_toString w
  end.
Proof.
  unfold requestOf, POST_try, withFetch, NextResponse_json.
  cbn [env_API_KEY env_MODEL request_formData readAsDataURL fetch serializes].
  destruct (env_API_KEY w) as [[|k key]|]; try (intros f; reflexivity).
  destruct (request_formData w) as [fd|]; try (intros f; reflexivity).
  cbn [await andThen].
  destruct (FormData_get (js "image") fd) as [[file|[|c s]]|];
    try (intros f; reflexivity).
  destruct (validateFile file); try (intros f; reflexivity).
  destruct (fileToBase64 (readAsDataURL w file)) as [b64|];
    try (intros f; reflexivity).
  cbn [await andThen].
  destruct (env_MODEL w) as [[|c m]|];
    destruct (FormData_get (js "prompt") fd) as [[f|[|c' p]]|]; reflexivity.
Qed.

Lemma requestOf_withFetch (w : World)
  (f : UpstreamRequest -> settled UpstreamResponse) :
  requestOf (withFetch w f) = requestOf w.
Proof. reflexivity. Qed.

(** X10. The handler consults the completion service at most once, with the
    request [requestOf] describes: its key, the configured model or the
    default one, the posted prompt or the default one, and the data URL of
    the file.  Another service that answers this request alike gives the same
    answer of the handler; when there is no request, any service does. *)
Theorem POST_consults_once (toLowerCase : jsstring -> jsstring)
  (Number_toString : number -> jsstring) (w : World)
  (service : UpstreamRequest -> settled UpstreamResponse) :
  match requestOf w with
  | Some rq => service rq = fetch w rq
  | None => True
  end ->
  POST toLowerCase Number_toString (withFetch w service)
  = POST toLowerCase Number_toString w.
Proof.
  intros H. unfold POST.
  pose proof (POST_try_requestOf toLowerCase Number_toString w) as E1.
  pose proof (POST_try_requestOf toLowerCase Number_toString
                (withFetch w service)) as E2.
  rewrite requestOf_withFetch in E2.
  destruct (requestOf w) as [rq|].
  - rewrite E1, E2. cbn [withFetch fetch]. rewrite H. reflexivity.
  - rewrite E1. reflexivity.
Qed.

Lemma POST_consults_once_witness :
  match requestOf sampleWorld with
  | Some rq =>
      (fun rq' => if jsstring_eqb (imageUrl rq') (imageUrl sampleRequest)
                  then fetch sampleWorld rq' else Rejected) rq
      = fetch sampleWorld rq
  | None => True
  end
  /\ POST asciiToLowerCase integerToString
       (withFetch sampleWorld
          (fun rq' => if jsstring_eqb (imageUrl rq') (imageUrl sampleRequest)
                      then fetch sampleWorld rq' else Rejected))
     = POST asciiToLowerCase integerToString sampleWorld.
Proof.
  assert (H : match requestOf sampleWorld with
              | Some rq =>
                  (fun rq' =>
                     if jsstring_eqb (imageUrl rq') (imageUrl sampleRequest)
                     then fetch sampleWorld rq' else Rejected) rq
                  = fetch sampleWorld rq
              | None => True
              end) by (vm_compute; reflexivity).
  split; [exact H|].
  exact (POST_consults_once asciiToLowerCase integerToString sampleWorld _ H).
Defined.

(** ** Success *)

(** X11. When the completion service answers the request with an ok response
    whose JSON body holds a non-empty string under
    choices[0].message.content, the normalizer gives a result for that
    string, and the handler answers 200 with it when the engine serializes
    the result; when it does not, for a result nested too deep, the handler
    answers 500 with the message of its [catch] clause.  There is a request
    only where the runtime read the file. *)
Theorem POST_success (toLowerCase : jsstring -> jsstring)
  (Number_toString : number -> jsstring) (w : World)
  (rq : UpstreamRequest) (up : UpstreamResponse) (data : json)
  (text : jsstring) :
  requestOf w = Some rq ->
  fetch w rq = Fulfilled up ->
  response_ok up = true ->
  response_json up = Fulfilled data ->
  contentOf data = Normal (Some (JString text)) ->
  text <> [] ->
  exists r,
    parseOpenRouterResponse toLowerCase text = Normal r
    /\ POST toLowerCase Number_toString w
       = Done (if serializes w (responseObject r)
               then {| status := 200; body := responseObject r |}
               else errorResponse
                      (js "Internal server error during analysis") 500).
Proof.
  intros Hrq Hf Hok Hj Hc Ht.
  pose proof (POST_try_requestOf toLowerCase Number_toString w) as E.
  rewrite Hrq in E. unfold POST. rewrite E, Hf. cbn [await andThen].
  rewrite Hok. cbn [negb]. rewrite Hj. cbn [await andThen].
  rewrite Hc. cbn [ofOutcome andThen ToBoolean].
  destruct text as [|c t]; [contradiction|]. cbn [nonEmpty].
  cbn [parseOpenRouterResponseOf].
  destruct (parseOpenRouterResponse_cases toLowerCase (c :: t))
    as [(r & _ & Er) | (e & _ & Er)]; rewrite Er; eexists;
    (split; [reflexivity|]); cbn [ofOutcome andThen];
    unfold NextResponse_json;
    match goal with
    | |- context [serializes w ?v] => destruct (serializes w v)
    end; reflexivity.
Qed.

Lemma POST_success_witness :
  (requestOf sampleWorld = Some sampleRequest
   /\ fetch sampleWorld sampleRequest
      = Fulfilled {| response_ok := true; response_text := Rejected;
                     response_json := Fulfilled sampleCompletion |}
   /\ contentOf sampleCompletion = Normal (Some (JString exampleText))
   /\ exampleText <> [])
  /\ exists r,
       parseOpenRouterResponse asciiToLowerCase exampleText = Normal r
       /\ POST asciiToLowerCase integerToString sampleWorld
          = Done (if serializes sampleWorld (responseObject r)
                  then {| status := 200; body := responseObject r |}
                  else errorResponse
                         (js "Internal server error during analysis") 500).
Proof.
  assert (H1 : requestOf sampleWorld = Some sampleRequest)
    by (vm_compute; reflexivity).
  assert (H2 : contentOf sampleCompletion = Normal (Some (JString exampleText)))
    by (vm_compute; reflexivity).
  assert (H3 : exampleText <> []) by (vm_compute; discriminate).
  split; [repeat split; assumption|].
  exact (POST_success asciiToLowerCase integerToString sampleWorld
           sampleRequest _ sampleCompletion exampleText
           H1 eq_refl eq_refl eq_refl H2 H3).
Defined.

(** X12. What a 200 answer means, and a 400 one.  A 200 answer is only given
    when the completion service answered the one request ok, with a JSON body
    whose content is truthy, and then its body is the result of the
    normalizer for that content.  A 400 answer is only given for a problem
    with the upload; the completion service was not consulted. *)
Theorem POST_status_meaning (toLowerCase : jsstring -> jsstring)
  (Number_toString : number -> jsstring) (w : World) (resp : HttpResponse) :
  POST toLowerCase Number_toString w = Done resp ->
  (status resp = 200%Z ->
   exists rq up data c r,
     requestOf w = Some rq /\ fetch w rq = Fulfilled up
     /\ response_ok up = true /\ response_json up = Fulfilled data
     /\ contentOf data = Normal (Some c) /\ ToBoolean (Some c) = true
     /\ parseOpenRouterResponseOf toLowerCase Number_toString c = Normal r
     /\ body resp = responseObject r)
  /\ (status resp = 400%Z ->
      requestOf w = None
      /\ exists fd msg,
           request_formData w = Fulfilled fd /\ uploadProblem fd = Some msg
           /\ resp = errorResponse msg 400).
Proof.
  intros H. unfold POST in H.
  pose proof (POST_try_requestOf toLowerCase Number_toString w) as E.
  destruct (requestOf w) as [rq|] eqn:Erq.
  - rewrite E in H. clear E. split.
    + intros Hs.
      destruct (fetch w rq) as [up|] eqn:Ef; cbn [await andThen] in H;
        [|injection H as <-; discriminate Hs].
      destruct (response_ok up) eqn:Eok; cbn [negb] in H;
        [|destruct (response_text up); cbn [await andThen] in H;
          injection H as <-; discriminate Hs].
      destruct (response_json up) as [data|] eqn:Ej; cbn [await andThen] in H;
        [|injection H as <-; discriminate Hs].
      destruct (contentOf data) as [[c|]|e|] eqn:Ec;
        cbn [ofOutcome andThen] in H;
        try (injection H as <-; discriminate Hs); try discriminate H.
      destruct (ToBoolean (Some c)) eqn:Eb;
        [|injection H as <-; discriminate Hs].
      destruct (parseOpenRouterResponseOf toLowerCase Number_toString c)
        as [r|e|] eqn:Ep; cbn [ofOutcome andThen] in H;
        try (injection H as <-; discriminate Hs); try discriminate H.
      unfold NextResponse_json in H.
      destruct (serializes w (responseObject r));
        [|injection H as <-; discriminate Hs].
      injection H as <-.
      exists rq, up, data, c, r. repeat split; assumption.
    + intros Hs. exfalso.
      destruct (fetch w rq) as [up|]; cbn [await andThen] in H;
        [|injection H as <-; discriminate Hs].
      destruct (response_ok up); cbn [negb] in H;
        [|destruct (response_text up); cbn [await andThen] in H;
          injection H as <-; discriminate Hs].
      destruct (response_json up) as [data|]; cbn [await andThen] in H;
        [|injection H as <-; discriminate Hs].
      destruct (contentOf data) as [[c|]|e|]; cbn [ofOutcome andThen] in H;
        try (injection H as <-; discriminate Hs); try discriminate H.
      destruct (ToBoolean (Some c)); [|injection H as <-; discriminate Hs].
      destruct (parseOpenRouterResponseOf toLowerCase Number_toString c)
        as [r|e|]; cbn [ofOutcome andThen] in H;
        try (injection H as <-; discriminate Hs); try discriminate H.
      unfold NextResponse_json in H.
      destruct (serializes w (responseObject r));
        injection H as <-; discriminate Hs.
  - clear E. unfold requestOf in Erq. unfold POST_try, uploadProblem in *.
    destruct (env_API_KEY w) as [[|k key]|];
      try (injection H as <-; split; intros Hs; discriminate Hs).
    destruct (request_formData w) as [fd|]; cbn [await andThen] in H;
      [|injection H as <-; split; intros Hs; discriminate Hs].
    destruct (FormData_get (js "image") fd) as [[file|[|c s]]|] eqn:Eg;
      try (injection H as <-; split; [intros Hs; discriminate Hs|];
           intros _; split; [reflexivity|];
           eexists fd, _; rewrite Eg; repeat split; reflexivity).
    destruct (validateFile file) as [msg|] eqn:Ev.
    + injection H as <-. split; [intros Hs; discriminate Hs|].
      intros _. split; [reflexivity|].
      exists fd, msg. rewrite Eg. repeat split; assumption.
    + destruct (fileToBase64 (readAsDataURL w file)); [discriminate Erq|].
      cbn [await andThen] in H. injection H as <-.
      split; intros Hs; discriminate Hs.
Qed.

Lemma POST_status_meaning_witness :
  POST asciiToLowerCase integerToString sampleWorld
  = Done {| status := 200;
            body := responseObject
                      {| uxInsights := strings [js "Good contrast"; js "Confusing nav"];
                         visualDesign := strings [];
                         bestPractices := strings [js ". Add alt text"];
                         annotations := JArray [] |} |}
  /\ exists rq up data c r,
       requestOf sampleWorld = Some rq /\ fetch sampleWorld rq = Fulfilled up
       /\ response_ok up = true /\ response_json up = Fulfilled data
       /\ contentOf data = Normal (Some c) /\ ToBoolean (Some c) = true
       /\ parseOpenRouterResponseOf asciiToLowerCase integerToString c = Normal r
       /\ responseObject
            {| uxInsights := strings [js "Good contrast"; js "Confusing nav"];
               visualDesign := strings [];
               bestPractices := strings [js ". Add alt text"];
               annotations := JArray [] |}
          = responseObject r.
Proof.
  assert (H : POST asciiToLowerCase integerToString sampleWorld
              = Done {| status := 200;
                        body := responseObject
                                  {| uxInsights := strings [js "Good contrast"; js "Confusing nav"];
                                     visualDesign := strings [];
                                     bestPractices := strings [js ". Add alt text"];
                                     annotations := JArray [] |} |})
    by (vm_compute; reflexivity).
  split; [exact H|].
  exact (proj1 (POST_status_meaning asciiToLowerCase integerToString
                  sampleWorld _ H) eq_refl).
Defined.

(** ** A file that is not read *)

(** X21. Where the file cannot be read, because the reader fails or because
    the runtime has no [FileReader], an upload the validator accepts is
    answered 500 with the message of the [catch] clause, and no request is
    made to the completion service. *)
Theorem unread_file_answers_500 (toLowerCase : jsstring -> jsstring)
  (Number_toString : number -> jsstring) (w : World) (key : jsstring)
  (fd : FormData) (file : File) :
  env_API_KEY w = Some key -> key <> [] ->
  request_formData w = Fulfilled fd ->
  FormData_get (js "image") fd = Some (EntryFile file) ->
  validateFile file = None ->
  readAsDataURL w file = Rejected ->
  requestOf w = None
  /\ POST toLowerCase Number_toString w
     = Done (errorResponse (js "Internal server error during analysis") 500).
Proof.
  intros Hk Hn Hfd Hg Hv Hr. destruct key as [|k key]; [contradiction|].
  unfold requestOf, POST, POST_try.
  rewrite Hk, Hfd. cbn [await andThen]. rewrite Hg, Hv, Hr.
  split; reflexivity.
Qed.

Lemma unread_file_answers_500_witness :
  (env_API_KEY
     {| env_API_KEY := Some (js "sk-test"); env_MODEL := None;
        request_formData := Fulfilled sampleForm;
        readAsDataURL := fun _ => Rejected; fetch := fetch sampleWorld;
        serializes := fun _ => true |} = Some (js "sk-test")
   /\ js "sk-test" <> []
   /\ FormData_get (js "image") sampleForm = Some (EntryFile sampleFile)
   /\ validateFile sampleFile = None)
  /\ requestOf
       {| env_API_KEY := Some (js "sk-test"); env_MODEL := None;
          request_formData := Fulfilled sampleForm;
          readAsDataURL := fun _ => Rejected; fetch := fetch sampleWorld;
          serializes := fun _ => true |} = None
  /\ POST asciiToLowerCase integerToString
       {| env_API_KEY := Some (js "sk-test"); env_MODEL := None;
          request_formData := Fulfilled sampleForm;
          readAsDataURL := fun _ => Rejected; fetch := fetch sampleWorld;
          serializes := fun _ => true |}
     = Done (errorResponse (js "Internal server error during analysis") 500).
Proof.
  assert (H1 : js "sk-test" <> []) by discriminate.
  assert (H2 : FormData_get (js "image") sampleForm
               = Some (EntryFile sampleFile)) by (vm_compute; reflexivity).
  assert (H3 : validateFile sampleFile = None) by (vm_compute; reflexivity).
  split; [repeat split; assumption|].
  exact (unread_file_answers_500 asciiToLowerCase integerToString
           {| env_API_KEY := Some (js "sk-test"); env_MODEL := None;
              request_formData := Fulfilled sampleForm;
              readAsDataURL := fun _ => Rejected; fetch := fetch sampleWorld;
              serializes := fun _ => true |}
           (js "sk-test") sampleForm sampleFile eq_refl H1 eq_refl H2 H3
           eq_refl).
Defined.

(* ================================================================= *)
(** * The page *)

Lemma validators_agree_eq (file : File) :
  Page.validateFile file = validateFile file.
Proof. reflexivity. Qed.

(** X13. The page and the route handler apply the same upload policy: their
    two validators give the same answer for every file. *)
Theorem validators_agree (file : File) :
  Page.validateFile file = validateFile file.
Proof.
  unfold Page.validateFile, validateFile.
  change Page.SUPPORTED_FORMATS with SUPPORTED_FORMATS.
  change Page.MAX_FILE_SIZE with MAX_FILE_SIZE.
  destruct (negb (array_includes SUPPORTED_FORMATS (type file)));
    [reflexivity|].
  destruct (size file >? MAX_FILE_SIZE)%Z; reflexivity.
Qed.

Lemma File_eqb_eq (f g : File) : Page.File_eqb f g = true -> f = g.
Proof.
  unfold Page.File_eqb. intros H. apply andb_true_iff in H as [Ht Hs].
  apply jsstring_eqb_spec in Ht. apply Z.eqb_eq in Hs.
  destruct f, g; simpl in *; congruence.
Qed.

Lemma pending_eqb_eq (p q : Page.pending) : Page.pending_eqb p q = true -> p = q.
Proof.
  destruct p, q; simpl; try discriminate; intros H;
    apply File_eqb_eq in H; congruence.
Qed.

Lemma existsb_pending (p : Page.pending) (l : list Page.pending) :
  existsb (Page.pending_eqb p) l = true -> In p l.
Proof.
  intros H. apply existsb_exists in H as (q & Hq & E).
  apply pending_eqb_eq in E. subst. exact Hq.
Qed.

Lemma settle_In (p q : Page.pending) (l : list Page.pending) :
  In q (Page.settle p l) -> In q l.
Proof.
  induction l as [|x l IH]; simpl; [tauto|].
  destruct (Page.pending_eqb p x); simpl; tauto.
Qed.

Lemma settle_other (p q : Page.pending) (l : list Page.pending) :
  Page.pending_eqb p q = false -> In q l -> In q (Page.settle p l).
Proof.
  intros Hpq. induction l as [|x l IH]; simpl; [tauto|].
  intros [-> | Hin].
  - rewrite Hpq. left; reflexivity.
  - destruct (Page.pending_eqb p x); [exact Hin | right; apply IH, Hin].
Qed.

Section PageFacts.
Variable Number_toString : number -> jsstring.

(** What holds in every configuration of the page. *)
Definition pageInvariant (c : Page.Config) : Prop :=
  (forall f, Page.selectedFile (Page.ui c) = Some f ->
             Page.validateFile f = None)
  /\ (forall f, In (Page.Preview f) (Page.inFlight c)
                \/ In (Page.Submission f) (Page.inFlight c) ->
                Page.validateFile f = None)
  /\ (Page.previewUrl (Page.ui c) = None
      <-> Page.selectedFile (Page.ui c) = None)
  /\ (Page.isSubmitting (Page.ui c) = true ->
      exists f, In (Page.Submission f) (Page.inFlight c)).

Lemma handleFileSelect_invariant (file : File) (c : Page.Config) :
  pageInvariant c -> pageInvariant (Page.handleFileSelect file c).
Proof.
  intros (H1 & H2 & H3 & H4). unfold Page.handleFileSelect.
  destruct (Page.validateFile file) eqn:Ev; repeat split; cbn;
    try apply H1; try apply H3; try assumption.
  - intros f [H | H]; rewrite in_app_iff in H; cbn in H.
    + destruct H as [H | [H | []]]; [apply H2; auto | congruence].
    + destruct H as [H | [H | []]]; [apply H2; auto | discriminate].
  - intros H. destruct (H4 H) as (f & Hf). exists f.
    rewrite in_app_iff. auto.
Qed.

Lemma handleSubmit_invariant (c : Page.Config) :
  pageInvariant c -> pageInvariant (Page.handleSubmit c).
Proof.
  intros Hc. unfold Page.handleSubmit.
  destruct (Page.selectedFile (Page.ui c)) as [file|] eqn:Es; [|exact Hc].
  destruct Hc as (H1 & H2 & H3 & H4).
  repeat split; cbn; try apply H3.
  - exact H1.
  - intros f [H | H]; rewrite in_app_iff in H; cbn in H.
    + destruct H as [H | [H | []]]; [apply H2; auto | discriminate].
    + destruct H as [H | [H | []]]; [apply H2; auto|].
      injection H as <-. apply H1, Es.
  - intros _. exists file. rewrite in_app_iff. right; left; reflexivity.
Qed.

Lemma step_invariant (c c' : Page.Config) (e : Page.event) :
  pageInvariant c -> Page.step Number_toString c e = Some c' ->
  pageInvariant c'.
Proof.
  intros Hc Hs. destruct e; cbn [Page.step] in Hs.
  - (* FileInputChange *)
    injection Hs as <-. destruct files; cbn; [exact Hc|].
    apply handleFileSelect_invariant, Hc.
  - (* Drag *)
    injection Hs as <-. destruct Hc as (H1 & H2 & H3 & H4).
    unfold Page.handleDrag.
    repeat match goal with
           | |- context [if ?b then _ else _] => destruct b
           end; repeat split; cbn; try apply H3; assumption.
  - (* Drop *)
    injection Hs as <-. unfold Page.handleDrop.
    assert (Hc' : pageInvariant
                    {| Page.ui := Page.setDragActive false (Page.ui c);
                       Page.inFlight := Page.inFlight c |}).
    { destruct Hc as (H1 & H2 & H3 & H4).
      repeat split; cbn; try apply H3; assumption. }
    destruct files; cbn; [exact Hc'|].
    apply handleFileSelect_invariant, Hc'.
  - (* RemoveFile *)
    injection Hs as <-. destruct Hc as (H1 & H2 & H3 & H4).
    repeat split; cbn; try assumption; discriminate.
  - (* ClearResults *)
    injection Hs as <-. destruct Hc as (H1 & H2 & H3 & H4).
    repeat split; cbn; try apply H3; assumption.
  - (* Submit *)
    injection Hs as <-. apply handleSubmit_invariant, Hc.
  - (* Rerun *)
    injection Hs as <-. unfold Page.handleRerunAnalysis.
    destruct (Page.selectedFile (Page.ui c)); [|exact Hc].
    apply handleSubmit_invariant.
    destruct Hc as (H1 & H2 & H3 & H4).
    repeat split; cbn; try apply H3; assumption.
  - (* PreviewLoaded *)
    destruct (existsb (Page.pending_eqb (Page.Preview file)) (Page.inFlight c))
      eqn:Ee; [|discriminate].
    injection Hs as <-. apply existsb_pending in Ee.
    destruct Hc as (H1 & H2 & H3 & H4).
    repeat split; cbn; try discriminate.
    + intros f E. injection E as <-. apply H2. left; exact Ee.
    + intros f [H | H]; apply settle_In in H; apply H2; auto.
    + intros H. destruct (H4 H) as (f & Hf). exists f.
      apply settle_other; [reflexivity | exact Hf].
  - (* PreviewFailed *)
    destruct (existsb (Page.pending_eqb (Page.Preview file)) (Page.inFlight c))
      eqn:Ee; [|discriminate].
    injection Hs as <-. destruct Hc as (H1 & H2 & H3 & H4).
    repeat split; cbn; try apply H3; try assumption.
    + intros f [H | H]; apply settle_In in H; apply H2; auto.
    + intros H. destruct (H4 H) as (f & Hf). exists f.
      apply settle_other; [reflexivity | exact Hf].
  - (* Answered *)
    destruct (existsb (Page.pending_eqb (Page.Submission file))
                (Page.inFlight c)) eqn:Ee; [|discriminate].
    injection Hs as <-. destruct Hc as (H1 & H2 & H3 & H4).
    assert (Hsel : Page.selectedFile (Page.answered Number_toString answer (Page.ui c))
                   = Page.selectedFile (Page.ui c)
                   /\ Page.previewUrl (Page.answered Number_toString answer (Page.ui c))
                      = Page.previewUrl (Page.ui c)
                   /\ Page.isSubmitting (Page.answered Number_toString answer (Page.ui c))
                      = false).
    { unfold Page.answered. destruct answer as [[st bodyText]|];
        [|repeat split].
      destruct (negb (Page.isOk st)); [repeat split|].
      destruct (JSON_parse bodyText) as [[]| |]; repeat split. }
    destruct Hsel as (S1 & S2 & S3).
    repeat split; cbn [Page.ui Page.inFlight]; rewrite ?S1, ?S2, ?S3;
      try apply H3; try assumption; try discriminate.
    intros f [H | H]; apply settle_In in H; apply H2; auto.
Qed.

Lemma reachable_invariant (c : Page.Config) :
  Page.reachable Number_toString c -> pageInvariant c.
Proof.
  induction 1 as [|c c' e Hr IH Hs].
  - repeat split; cbn; try discriminate; tauto.
  - exact (step_invariant c c' e IH Hs).
Qed.

End PageFacts.

(** X14. Whatever the user does and however the operations in flight settle,
    the file the page holds as selected, and every file whose preview or
    upload is in flight, passes the validator; the preview is set exactly
    when a file is selected; and while the page is submitting, an upload is
    in flight. *)
Theorem page_invariant (Number_toString : number -> jsstring)
  (c : Page.Config) :
  Page.reachable Number_toString c ->
  (forall f, Page.selectedFile (Page.ui c) = Some f ->
             Page.validateFile f = None)
  /\ (forall f, In (Page.Preview f) (Page.inFlight c)
                \/ In (Page.Submission f) (Page.inFlight c) ->
                Page.validateFile f = None)
  /\ (Page.previewUrl (Page.ui c) = None
      <-> Page.selectedFile (Page.ui c) = None)
  /\ (Page.isSubmitting (Page.ui c) = true ->
      exists f, In (Page.Submission f) (Page.inFlight c)).
Proof. apply reachable_invariant. Qed.

Lemma samplePage_reachable (Number_toString : number -> jsstring) :
  Page.reachable Number_toString samplePage.
Proof.
  exact (Page.reachable_step Number_toString _ samplePage Page.Submit
           (Page.reachable_step Number_toString _
              {| Page.ui := Page.previewLoaded sampleFile samplePreview
                              Page.initialState;
                 Page.inFlight := [] |}
              (Page.PreviewLoaded sampleFile samplePreview)
              (Page.reachable_step Number_toString Page.initial
                 (Page.selectFirst [sampleFile] Page.initial)
                 (Page.FileInputChange [sampleFile])
                 (Page.reachable_initial Number_toString) eq_refl)
              eq_refl)
           eq_refl).
Defined.

Lemma page_invariant_witness :
  Page.reachable integerToString samplePage
  /\ (forall f, Page.selectedFile (Page.ui samplePage) = Some f ->
                Page.validateFile f = None)
  /\ (forall f, In (Page.Preview f) (Page.inFlight samplePage)
                \/ In (Page.Submission f) (Page.inFlight samplePage) ->
                Page.validateFile f = None)
  /\ (Page.previewUrl (Page.ui samplePage) = None
      <-> Page.selectedFile (Page.ui samplePage) = None)
  /\ (Page.isSubmitting (Page.ui samplePage) = true ->
      exists f, In (Page.Submission f) (Page.inFlight samplePage)).
Proof.
  split; [apply samplePage_reachable|].
  apply (page_invariant integerToString samplePage).
  apply samplePage_reachable.
Defined.

(** ** The page and the route handler together *)

Lemma POST_no_upload_problem (toLowerCase : jsstring -> jsstring)
  (Number_toString : number -> jsstring) (w : World) (fd : FormData)
  (resp : HttpResponse) :
  request_formData w = Fulfilled fd -> uploadProblem fd = None ->
  POST toLowerCase Number_toString w = Done resp -> status resp <> 400%Z.
Proof.
  intros Hfd Hu H. unfold POST, POST_try in H. unfold uploadProblem in Hu.
  rewrite Hfd in H.
  destruct (env_API_KEY w) as [[|k key]|];
    try (injection H as <-; discriminate).
  cbn [await andThen] in H.
  destruct (FormData_get (js "image") fd) as [[file|[|c s]]|];
    try discriminate Hu.
  rewrite Hu in H.
  destruct (fileToBase64 (readAsDataURL w file)); cbn [await andThen] in H;
    [|injection H as <-; discriminate].
  match type of H with
  | context [fetch w ?rq] => destruct (fetch w rq) as [up|]
  end; cbn [await andThen] in H; [|injection H as <-; discriminate].
  destruct (response_ok up); cbn [negb] in H;
    [|destruct (response_text up); cbn [await andThen] in H;
      injection H as <-; discriminate].
  destruct (response_json up) as [data|]; cbn [await andThen] in H;
    [|injection H as <-; discriminate].
  destruct (contentOf data) as [[c|]|e|]; cbn [ofOutcome andThen] in H;
    try (injection H as <-; discriminate); try discriminate H.
  destruct (ToBoolean (Some c)); [|injection H as <-; discriminate].
  destruct (parseOpenRouterResponseOf toLowerCase Number_toString c)
    as [r|e|]; cbn [ofOutcome andThen] in H;
    try (injection H as <-; discriminate); try discriminate H.
  unfold NextResponse_json in H.
  destruct (serializes w (responseObject r)); injection H as <-; discriminate.
Qed.

(** X15. The route handler never turns down an upload of the page for its
    format, its size or its absence: to the form the page posts for a file
    whose upload is in flight, the answer is never 400. *)
Theorem page_uploads_pass_the_handler (toLowerCase : jsstring -> jsstring)
  (Number_toString : number -> jsstring)
  (c : Page.Config) (f : File) (w : World) (resp : HttpResponse) :
  Page.reachable Number_toString c ->
  In (Page.Submission f) (Page.inFlight c) ->
  request_formData w = Fulfilled (Page.formOf f) ->
  POST toLowerCase Number_toString w = Done resp ->
  status resp <> 400%Z.
Proof.
  intros Hr Hin Hfd Hp.
  apply reachable_invariant in Hr as (_ & H2 & _).
  specialize (H2 f (or_intror Hin)).
  apply (POST_no_upload_problem toLowerCase Number_toString w
           (Page.formOf f) resp Hfd); [|exact Hp].
  unfold uploadProblem, Page.formOf. cbn [FormData_get].
  change (jsstring_eqb (js "image") (js "image")) with true. cbv iota.
  rewrite <- validators_agree_eq. exact H2.
Qed.


Lemma page_uploads_pass_the_handler_witness :
  (Page.reachable integerToString samplePage
   /\ In (Page.Submission sampleFile) (Page.inFlight samplePage)
   /\ request_formData sampleWorld = Fulfilled (Page.formOf sampleFile))
  /\ forall resp,
       POST asciiToLowerCase integerToString sampleWorld = Done resp ->
       status resp <> 400%Z.
Proof.
  assert (H2 : In (Page.Submission sampleFile) (Page.inFlight samplePage))
    by (left; reflexivity).
  split; [split; [apply samplePage_reachable | split; [exact H2 | reflexivity]]|].
  intros resp.
  exact (page_uploads_pass_the_handler asciiToLowerCase integerToString
           samplePage sampleFile sampleWorld resp
           (samplePage_reachable integerToString) H2 eq_refl).
Defined.

(** ** What the page makes of the answer *)

(** A canonical value whose numbers survive is read back from its
    serialization. *)
Lemma JSON_parse_stringify (Number_toString : number -> jsstring) (v : json) :
  canonical v -> numbersSurvive Number_toString v = true ->
  JSON_parse (JSON_stringify Number_toString v) = Normal v.
Proof.
  intros Hc Hn. unfold JSON_parse.
  pose proof (stringify_readsBack Number_toString v Hc Hn []
                (2 * length (JSON_stringify Number_toString v) + 1)%nat I)
    as RB.
  rewrite app_nil_r in RB. rewrite RB; [reflexivity | lia].
Qed.

Lemma errorBody_round_trip (Number_toString : number -> jsstring)
  (msg : jsstring) :
  JSON_parse (JSON_stringify Number_toString (JObject [(js "error", JString msg)]))
  = Normal (JObject [(js "error", JString msg)]).
Proof.
  apply JSON_parse_stringify; [|reflexivity].
  constructor.
  - split; [repeat constructor; intros [] | repeat constructor].
  - repeat constructor.
Qed.

Lemma tryBlock_canonical (text : jsstring) (r : AnalysisResponse) (k : key) :
  tryBlock text = Normal r -> canonical (getField r k).
Proof.
  intros Ht. destruct (tryBlock_Normal _ _ Ht) as (parsed & Hp & _ & Hf).
  destruct (Hf k) as (p & Hg & ->).
  apply orElse_canonical. intros x Hx.
  eapply GetV_canonical; eauto using JSON_parse_canonical.
Qed.

Lemma parseOpenRouterResponseOf_canonical
  (toLowerCase : jsstring -> jsstring) (Number_toString : number -> jsstring)
  (content : json) (r : AnalysisResponse) :
  parseOpenRouterResponseOf toLowerCase Number_toString content = Normal r ->
  canonical (responseObject r).
Proof.
  intros H. apply responseObject_canonical. intros k.
  assert (G : forall c,
             match text <- ToString Number_toString c ;; tryBlock text with
             | Normal r => Normal r
             | Throw _ => Throw TypeError
             | OutOfFuel => OutOfFuel
             end = Normal r -> canonical (getField r k)).
  { intros c Hc. destruct (ToString Number_toString c) as [t|e|];
      cbn [bind] in Hc; try discriminate Hc.
    destruct (tryBlock t) as [r'|e|] eqn:Et; try discriminate Hc.
    injection Hc as <-. apply (tryBlock_canonical t r' k Et). }
  destruct content as [|b|x|text|items|props];
    [ exact (G JNull H) | exact (G (JBool b) H) | exact (G (JNumber x) H) |
    | exact (G (JArray items) H) | exact (G (JObject props) H) ].
  apply (result_fields toLowerCase text r k H).
Qed.

Lemma POST_200_body (toLowerCase : jsstring -> jsstring)
  (Number_toString : number -> jsstring) (w : World) (resp : HttpResponse) :
  POST toLowerCase Number_toString w = Done resp -> status resp = 200%Z ->
  exists c r,
    parseOpenRouterResponseOf toLowerCase Number_toString c = Normal r
    /\ body resp = responseObject r.
Proof.
  intros H Hs. unfold POST, POST_try in H.
  destruct (env_API_KEY w) as [[|k key]|];
    try (injection H as <-; discriminate Hs).
  destruct (request_formData w) as [fd|]; cbn [await andThen] in H;
    [|injection H as <-; discriminate Hs].
  destruct (FormData_get (js "image") fd) as [[file|[|c s]]|];
    try (injection H as <-; discriminate Hs).
  destruct (validateFile file); [injection H as <-; discriminate Hs|].
  destruct (fileToBase64 (readAsDataURL w file)) as [b64|];
    cbn [await andThen] in H; [|injection H as <-; discriminate Hs].
  match type of H with
  | context [fetch w ?rq] => destruct (fetch w rq) as [up|]
  end; cbn [await andThen] in H; [|injection H as <-; discriminate Hs].
  destruct (response_ok up); cbn [negb] in H;
    [|destruct (response_text up); cbn [await andThen] in H;
      injection H as <-; discriminate Hs].
  destruct (response_json up) as [data|]; cbn [await andThen] in H;
    [|injection H as <-; discriminate Hs].
  destruct (contentOf data) as [[c|]|e|]; cbn [ofOutcome andThen] in H;
    try (injection H as <-; discriminate Hs); try discriminate H.
  destruct (ToBoolean (Some c)); [|injection H as <-; discriminate Hs].
  destruct (parseOpenRouterResponseOf toLowerCase Number_toString c)
    as [r|e|] eqn:Ep; cbn [ofOutcome andThen] in H;
    try (injection H as <-; discriminate Hs); try discriminate H.
  unfold NextResponse_json in H.
  destruct (serializes w (responseObject r));
    [|injection H as <-; discriminate Hs].
  injection H as <-. exists c, r. split; [exact Ep | reflexivity].
Qed.

Lemma POST_error_body (toLowerCase : jsstring -> jsstring)
  (Number_toString : number -> jsstring) (w : World) (resp : HttpResponse) :
  POST toLowerCase Number_toString w = Done resp -> status resp <> 200%Z ->
  Page.isOk (status resp) = false
  /\ exists msg, msg <> [] /\ body resp = JObject [(js "error", JString msg)].
Proof.
  intros H Hs.
  assert (W : wellFormedAnswer resp).
  { unfold POST in H.
    destruct (POST_try_answers toLowerCase Number_toString w) as [_ Hd].
    destruct (POST_try toLowerCase Number_toString w) as [r| |];
      try discriminate H.
    - injection H as <-. apply Hd. reflexivity.
    - injection H as <-.
      apply errorResponse_wellFormed; [discriminate | cbn; tauto]. }
  destruct W as [[E _] | [Hin Hm]]; [contradiction|].
  split; [|exact Hm].
  cbn in Hin. destruct Hin as [<- | [<- | [<- | []]]]; reflexivity.
Qed.

(** X16. The page shows the handler's error as it is.  When the handler
    answers with another status than 200, the page, reading that answer, sets
    its error to the message of the answer, leaves the results as they were
    and stops submitting. *)
Theorem page_shows_handler_error (toLowerCase : jsstring -> jsstring)
  (Number_toString : number -> jsstring) (w : World) (resp : HttpResponse)
  (st : Page.State) :
  POST toLowerCase Number_toString w = Done resp -> status resp <> 200%Z ->
  exists msg,
    body resp = JObject [(js "error", JString msg)]
    /\ Page.answered Number_toString
         (Fulfilled (status resp, JSON_stringify Number_toString (body resp))) st
       = Page.setIsSubmitting false (Page.setError (Some (Page.Text msg)) st).
Proof.
  intros H Hs.
  destruct (POST_error_body _ _ _ _ H Hs) as (Hok & msg & Hm & Hb).
  exists msg. split; [exact Hb|].
  unfold Page.answered. rewrite Hok. cbn [negb].
  unfold Page.failureNotice. rewrite Hb, errorBody_round_trip.
  cbn [getProperty lookup].
  change (jsstring_eqb (js "error") (js "error")) with true. cbv iota.
  destruct msg as [|c m]; [contradiction|]. reflexivity.
Qed.

Lemma page_shows_handler_error_witness :
  (POST asciiToLowerCase integerToString
     (withFetch sampleWorld (fun _ => Rejected))
   = Done (errorResponse (js "Internal server error during analysis") 500)
   /\ 500%Z <> 200%Z)
  /\ exists msg,
       JObject [(js "error", JString (js "Internal server error during analysis"))]
       = JObject [(js "error", JString msg)]
       /\ Page.answered integerToString
            (Fulfilled
               (500%Z,
                JSON_stringify integerToString
                  (JObject [(js "error",
                             JString (js "Internal server error during analysis"))])))
            (Page.ui samplePage)
          = Page.setIsSubmitting false
              (Page.setError (Some (Page.Text msg)) (Page.ui samplePage)).
Proof.
  assert (H1 : POST asciiToLowerCase integerToString
                 (withFetch sampleWorld (fun _ => Rejected))
               = Done (errorResponse
                         (js "Internal server error during analysis") 500))
    by (vm_compute; reflexivity).
  assert (H2 : 500%Z <> 200%Z) by discriminate.
  split; [split; assumption|].
  exact (page_shows_handler_error asciiToLowerCase integerToString
           (withFetch sampleWorld (fun _ => Rejected))
           (errorResponse (js "Internal server error during analysis") 500)
           (Page.ui samplePage) H1 H2).
Defined.

(** X17. The page stores what the handler computed.  When the handler answers
    200 and every number of the result survives serialization, the page,
    reading that answer, sets its results to the object the handler answered
    with, its four properties in their order, leaves the error as it was and
    stops submitting. *)
Theorem page_stores_handler_result (toLowerCase : jsstring -> jsstring)
  (Number_toString : number -> jsstring) (w : World) (resp : HttpResponse)
  (st : Page.State) :
  POST toLowerCase Number_toString w = Done resp -> status resp = 200%Z ->
  numbersSurvive Number_toString (body resp) = true ->
  Page.answered Number_toString
    (Fulfilled (status resp, JSON_stringify Number_toString (body resp))) st
  = Page.setIsSubmitting false
      (Page.setAnalysisResults (Some (body resp)) st).
Proof.
  intros H Hs Hn.
  destruct (POST_200_body _ _ _ _ H Hs) as (c & r & Hp & Hb).
  pose proof (parseOpenRouterResponseOf_canonical _ _ _ _ Hp) as Hc.
  unfold Page.answered. rewrite Hs. cbn [Page.isOk Z.leb Z.compare Pos.compare
    Pos.compare_cont andb negb].
  rewrite Hb in Hn |- *.
  rewrite (JSON_parse_stringify Number_toString _ Hc Hn). reflexivity.
Qed.

Lemma page_stores_handler_result_witness :
  (POST asciiToLowerCase integerToString sampleWorld
   = Done {| status := 200;
             body := responseObject
                       {| uxInsights := strings [js "Good contrast"; js "Confusing nav"];
                          visualDesign := strings [];
                          bestPractices := strings [js ". Add alt text"];
                          annotations := JArray [] |} |}
   /\ numbersSurvive integerToString
        (responseObject
           {| uxInsights := strings [js "Good contrast"; js "Confusing nav"];
              visualDesign := strings [];
              bestPractices := strings [js ". Add alt text"];
              annotations := JArray [] |}) = true)
  /\ Page.answered integerToString
       (Fulfilled
          (200%Z,
           JSON_stringify integerToString
             (responseObject
                {| uxInsights := strings [js "Good contrast"; js "Confusing nav"];
                   visualDesign := strings [];
                   bestPractices := strings [js ". Add alt text"];
                   annotations := JArray [] |})))
       (Page.ui samplePage)
     = Page.setIsSubmitting false
         (Page.setAnalysisResults
            (Some (responseObject
                     {| uxInsights := strings [js "Good contrast"; js "Confusing nav"];
                        visualDesign := strings [];
                        bestPractices := strings [js ". Add alt text"];
                        annotations := JArray [] |}))
            (Page.ui samplePage)).
Proof.
  assert (H1 : POST asciiToLowerCase integerToString sampleWorld
               = Done {| status := 200;
                         body := responseObject
                                   {| uxInsights := strings [js "Good contrast"; js "Confusing nav"];
                                      visualDesign := strings [];
                                      bestPractices := strings [js ". Add alt text"];
                                      annotations := JArray [] |} |})
    by (vm_compute; reflexivity).
  split; [split; [exact H1 | vm_compute; reflexivity]|].
  exact (page_stores_handler_result asciiToLowerCase integerToString
           sampleWorld _ (Page.ui samplePage) H1 eq_refl eq_refl).
Defined.

(** ** Results that outlive their file *)

Lemma File_eqb_refl (f : File) : Page.File_eqb f f = true.
Proof.
  unfold Page.File_eqb. rewrite jsstring_eqb_refl, Z.eqb_refl. reflexivity.
Qed.

(** X19. The results can outlive the file they were computed for.  The file A
    is chosen and uploaded, and removed while the upload is in flight; the
    answer arrives and sets the results; the file B is chosen.  The page then
    holds B as selected together with the results of A, with nothing in
    flight. *)
Theorem results_outlive_their_file (Number_toString : number -> jsstring)
  (A B : File) (previewA previewB : jsstring)
  (st : Z) (bodyText : jsstring) (result : json) :
  Page.validateFile A = None -> Page.validateFile B = None ->
  Page.isOk st = true ->
  JSON_parse bodyText = Normal result -> result <> JNull ->
  exists c,
    runPage Number_toString
      [ Page.FileInputChange [A]; Page.PreviewLoaded A previewA; Page.Submit;
        Page.RemoveFile; Page.Answered A (Fulfilled (st, bodyText));
        Page.FileInputChange [B]; Page.PreviewLoaded B previewB ]
      Page.initial = Some c
    /\ Page.selectedFile (Page.ui c) = Some B
    /\ Page.analysisResults (Page.ui c) = Some result
    /\ Page.inFlight c = [].
Proof.
  intros HA HB Hok Hp Hr.
  assert (S1 : forall f c, Page.validateFile f = None ->
            Page.step Number_toString c (Page.FileInputChange [f])
            = Some {| Page.ui := Page.setError None (Page.ui c);
                      Page.inFlight := Page.inFlight c ++ [Page.Preview f] |}).
  { intros f c H. cbn [Page.step Page.selectFirst].
    unfold Page.handleFileSelect. rewrite H. reflexivity. }
  assert (S2 : forall f p u,
            Page.step Number_toString
              {| Page.ui := u; Page.inFlight := [Page.Preview f] |}
              (Page.PreviewLoaded f p)
            = Some {| Page.ui := Page.previewLoaded f p u;
                      Page.inFlight := [] |}).
  { intros f p u.
    cbn [Page.step Page.inFlight Page.ui existsb Page.pending_eqb Page.settle].
    rewrite File_eqb_refl. reflexivity. }
  assert (S3 : forall f a u,
            Page.step Number_toString
              {| Page.ui := u; Page.inFlight := [Page.Submission f] |}
              (Page.Answered f a)
            = Some {| Page.ui := Page.answered Number_toString a u;
                      Page.inFlight := [] |}).
  { intros f a u.
    cbn [Page.step Page.inFlight Page.ui existsb Page.pending_eqb Page.settle].
    rewrite File_eqb_refl. reflexivity. }
  assert (S4 : forall f u l, Page.selectedFile u = Some f ->
            Page.step Number_toString
              {| Page.ui := u; Page.inFlight := l |} Page.Submit
            = Some {| Page.ui :=
                        Page.setError None (Page.setIsSubmitting true u);
                      Page.inFlight := l ++ [Page.Submission f] |}).
  { intros f u l H. cbn [Page.step]. unfold Page.handleSubmit.
    cbn [Page.ui Page.inFlight]. rewrite H. reflexivity. }
  assert (S5 : forall c,
            Page.step Number_toString c Page.RemoveFile
            = Some {| Page.ui := Page.handleRemoveFile (Page.ui c);
                      Page.inFlight := Page.inFlight c |}) by reflexivity.
  cbn [runPage].
  rewrite (S1 A _ HA). cbn [Page.inFlight Page.initial Page.ui app].
  rewrite S2.
  rewrite (S4 A) by reflexivity.
  rewrite S5. cbn [Page.inFlight Page.ui app].
  rewrite S3.
  rewrite (S1 B _ HB). cbn [Page.inFlight Page.ui app].
  rewrite S2.
  eexists. split; [reflexivity|].
  split; [reflexivity|]. split; [|reflexivity].
  unfold Page.answered. rewrite Hok, Hp. cbn [negb].
  destruct result; try contradiction; reflexivity.
Qed.

Lemma results_outlive_their_file_witness :
  (Page.validateFile sampleFile = None
   /\ Page.validateFile {| type := js "image/gif"; size := 7 |} = None
   /\ Page.isOk 200 = true
   /\ JSON_parse (js "{}") = Normal (JObject []) /\ JObject [] <> JNull)
  /\ exists c,
       runPage integerToString
         [ Page.FileInputChange [sampleFile];
           Page.PreviewLoaded sampleFile samplePreview; Page.Submit;
           Page.RemoveFile;
           Page.Answered sampleFile (Fulfilled (200%Z, js "{}"));
           Page.FileInputChange [{| type := js "image/gif"; size := 7 |}];
           Page.PreviewLoaded {| type := js "image/gif"; size := 7 |}
             samplePreview ]
         Page.initial = Some c
       /\ Page.selectedFile (Page.ui c)
          = Some {| type := js "image/gif"; size := 7 |}
       /\ Page.analysisResults (Page.ui c) = Some (JObject [])
       /\ Page.inFlight c = [].
Proof.
  assert (H5 : JObject [] <> JNull) by discriminate.
  split; [repeat split; try (vm_compute; reflexivity); exact H5|].
  exact (results_outlive_their_file integerToString sampleFile
           {| type := js "image/gif"; size := 7 |} samplePreview samplePreview
           200 (js "{}") (JObject []) eq_refl eq_refl eq_refl eq_refl H5).
Defined.

(** ** Text that does not start as JSON *)

(** X20. A text whose first code unit after JSON white space cannot start a
    JSON value, such as a Markdown fence or a sentence, is not JSON:
    [JSON.parse] throws and the result is that of the line scan. *)
Theorem non_json_start_falls_back (toLowerCase : jsstring -> jsstring)
  (text rest : jsstring) (c : codeunit) :
  skipWS text = c :: rest -> startsValue c = false ->
  JSON_parse text = Throw SyntaxError
  /\ parseOpenRouterResponse toLowerCase text
     = Normal (catchBlock toLowerCase text).
Proof.
  intros Hs Hc.
  assert (E : JSON_parse text = Throw SyntaxError).
  { unfold JSON_parse.
    replace (2 * length text + 1)%nat with (S (2 * length text)) by lia.
    cbn [parseValue]. rewrite Hs.
    unfold startsValue in Hc.
    repeat (apply orb_false_iff in Hc as [Hc ?]).
    repeat match goal with
           | H : ?b = false |- context [if ?b then _ else _] => rewrite H
           end.
    replace (isDigit c || (c =? 45)) with false
      by (symmetry; apply orb_false_iff; split; assumption).
    unfold stripPrefix. cbn [js list_ascii_of_string map startsWith].
    change (N_of_ascii "t") with 116. change (N_of_ascii "f") with 102.
    change (N_of_ascii "n") with 110.
    repeat match goal with
           | H : ?b = false |- context [?b && _] => rewrite H
           end.
    reflexivity. }
  split; [exact E|].
  unfold parseOpenRouterResponse, tryBlock. rewrite E. reflexivity.
Qed.

Lemma non_json_start_falls_back_witness :
  (skipWS (96 :: 96 :: 96 :: js "json" ++ LF :: js "{}" ++ LF :: [96; 96; 96])
   = 96 :: 96 :: 96 :: js "json" ++ LF :: js "{}" ++ LF :: [96; 96; 96]
   /\ startsValue 96 = false)
  /\ JSON_parse
       (96 :: 96 :: 96 :: js "json" ++ LF :: js "{}" ++ LF :: [96; 96; 96])
     = Throw SyntaxError
  /\ parseOpenRouterResponse asciiToLowerCase
       (96 :: 96 :: 96 :: js "json" ++ LF :: js "{}" ++ LF :: [96; 96; 96])
     = Normal (catchBlock asciiToLowerCase
                 (96 :: 96 :: 96 :: js "json" ++ LF :: js "{}" ++ LF
                  :: [96; 96; 96])).
Proof.
  split; [split; vm_compute; reflexivity|].
  exact (non_json_start_falls_back asciiToLowerCase
           (96 :: 96 :: 96 :: js "json" ++ LF :: js "{}" ++ LF :: [96; 96; 96])
           (96 :: 96 :: js "json" ++ LF :: js "{}" ++ LF :: [96; 96; 96])
           96 eq_refl eq_refl).
Defined.

